(** * node-escpos example scripts: network discovery and reachability probing

    A shallow embedding of the discovery helpers of the repository

    - [examples/status-robust.js]       ([testNetworkConnectivity]),
    - [examples/connect-by-ethernet.js] ([connectByNetworkRange],
      [connectWithFallback]),
    - the ethernet discovery script     ([discoverNetworkDevices],
      [pingRange], [testThermalPrinter], [connectByMAC],
      [connectByHostname], [connectByIdentifier]),

    together with the properties the specification states about them.

    Conventions.  A JavaScript string is a [string] whose characters are its
    UTF-16 code units, restricted to code units below 256; on that domain the
    character classes, [toLowerCase] and [trim] below are exact.  A
    JavaScript number used as a counter or an octet is an integer in [Z]
    (exact for the safe integers, where [i++] and template formatting are
    exact).  Everything the scripts obtain from outside (child processes, the
    printer library, sockets, the clock) is an explicit environment. *)

From Stdlib Require Import String Ascii List ZArith Bool Lia DecimalString Sorted.
Import ListNotations.
Local Open Scope string_scope.
Local Open Scope Z_scope.

(* ------------------------------------------------------------------------- *)
(** ** JavaScript strings *)

Module Js.

Definition chars (s : string) : list ascii := list_ascii_of_string s.
Definition str (l : list ascii) : string := string_of_list_ascii l.

Definition codeUnit (c : ascii) : N := N_of_ascii c.

Definition between (lo hi : N) (c : ascii) : bool :=
  ((lo <=? codeUnit c) && (codeUnit c <=? hi))%N.

(** [\d] *)
Definition isDigit (c : ascii) : bool := between 48 57 c.

(** [[0-9a-fA-F:]] *)
Definition isHexColon (c : ascii) : bool :=
  between 48 57 c || between 97 102 c || between 65 70 c || (codeUnit c =? 58)%N.

(** Line terminators: LF and CR (U+2028 and U+2029 lie outside the domain). *)
Definition isLineTerminator (c : ascii) : bool :=
  ((codeUnit c =? 10) || (codeUnit c =? 13))%N.

(** [\s]: TAB, LF, VT, FF, CR, SPACE and NBSP. *)
Definition isSpace (c : ascii) : bool :=
  between 9 13 c || (codeUnit c =? 32)%N || (codeUnit c =? 160)%N.

(** [.] without the [s] flag. *)
Definition isDot (c : ascii) : bool := negb (isLineTerminator c).

(** [String.prototype.toLowerCase]: A-Z, and the Latin-1 capitals
    U+00C0..U+00DE except the multiplication sign U+00D7. *)
Definition lowerChar (c : ascii) : ascii :=
  if between 65 90 c
     || (between 192 222 c && negb (codeUnit c =? 215)%N)
  then ascii_of_N (codeUnit c + 32)
  else c.

Fixpoint toLowerCase (s : string) : string :=
  match s with
  | EmptyString => EmptyString
  | String c s' => String (lowerChar c) (toLowerCase s')
  end.

Fixpoint dropSpaces (l : list ascii) : list ascii :=
  match l with
  | c :: l' => if isSpace c then dropSpaces l' else l
  | [] => []
  end.

(** [String.prototype.trim] *)
Definition trim (s : string) : string :=
  str (rev (dropSpaces (rev (dropSpaces (chars s))))).

(** [s.split(sep)] for a separator of one character: always at least one
    piece; [cur] is the piece being read, backwards. *)
Fixpoint splitAt (sep : ascii) (cur : list ascii) (l : list ascii) : list string :=
  match l with
  | [] => [str (rev cur)]
  | c :: l' =>
      if Ascii.eqb c sep then str (rev cur) :: splitAt sep [] l'
      else splitAt sep (c :: cur) l'
  end.

Definition split (sep : ascii) (s : string) : list string := splitAt sep [] (chars s).

(** [s.split('\n')] *)
Definition split_nl (s : string) : list string := split (ascii_of_N 10) s.

(** [Number.MAX_SAFE_INTEGER], 2^53 - 1: between its opposite and itself
    the integers are numbers of JavaScript, [i++] is [i + 1] and a template
    literal prints the decimal digits. *)
Definition MAX_SAFE_INTEGER : Z := 9007199254740991.

(** Template formatting [`${i}`] of a safe integer. *)
Definition ofInt (i : Z) : string := NilZero.string_of_int (Z.to_int i).

End Js.

(* ------------------------------------------------------------------------- *)
(** ** Regular expressions

    A backtracking matcher for the fragment of JavaScript regular expressions
    the scripts use: literals, classes, concatenation, greedy [+], [?] and
    [*], capturing groups that are neither nested nor quantified, and the
    anchors [^] and [$] (no [m] flag). *)

Module Regex.

Inductive regex : Type :=
| Eps
| Chr (c : ascii)
| Cls (p : ascii -> bool)
| Cat (r1 r2 : regex)
| Plus (r : regex)
| Opt (r : regex)
| Grp (r : regex)
| Bol
| Eol.

(** [r*], for an [r] that does not match the empty string. *)
Definition Star (r : regex) : regex := Opt (Plus r).

(** The concatenation of the regular expressions of a list. *)
Fixpoint sequence (rs : list regex) : regex :=
  match rs with
  | [] => Eps
  | [r] => r
  | r :: rs' => Cat r (sequence rs')
  end.

(** The characters of a literal piece of a pattern. *)
Fixpoint lit (l : list ascii) : list regex :=
  match l with
  | [] => []
  | c :: l' => Chr c :: lit l'
  end.

Definition Caps := list (list ascii).
Definition Cont := nat -> list ascii -> Caps -> option Caps.

Definition orElse (a b : option Caps) : option Caps :=
  match a with Some m => Some m | None => b end.

(** [run r pos s caps k]: match [r] at offset [pos], where [s] is the rest
    of the subject, then continue with [k]; alternatives are tried in the
    order a backtracking engine tries them (longest repetition first). *)
Fixpoint run (r : regex) (pos : nat) (s : list ascii) (caps : Caps)
         (k : Cont) {struct r} : option Caps :=
  match r with
  | Eps => k pos s caps
  | Chr c =>
      match s with
      | x :: s' => if Ascii.eqb x c then k (S pos) s' caps else None
      | [] => None
      end
  | Cls p =>
      match s with
      | x :: s' => if p x then k (S pos) s' caps else None
      | [] => None
      end
  | Cat r1 r2 =>
      run r1 pos s caps (fun pos' s' caps' => run r2 pos' s' caps' k)
  | Plus r1 =>
      (fix iter (fuel : nat) (pos : nat) (s : list ascii) (caps : Caps)
           {struct fuel} : option Caps :=
         run r1 pos s caps (fun pos' s' caps' =>
           match fuel with
           | S fuel' =>
               if Nat.ltb pos pos'
               then orElse (iter fuel' pos' s' caps') (k pos' s' caps')
               else k pos' s' caps'
           | O => k pos' s' caps'
           end)) (length s) pos s caps
  | Opt r1 => orElse (run r1 pos s caps k) (k pos s caps)
  | Grp r1 =>
      run r1 pos s caps (fun pos' s' caps' =>
        k pos' s' (caps' ++ [firstn (pos' - pos) s])%list)
  | Bol => if Nat.eqb pos 0 then k pos s caps else None
  | Eol => match s with [] => k pos s caps | _ :: _ => None end
  end.

(** Leftmost match: try every start offset in turn. *)
Fixpoint search (r : regex) (pos : nat) (s : list ascii) : option Caps :=
  match run r pos s [] (fun pos' _ caps => Some (firstn (pos' - pos) s :: caps)) with
  | Some m => Some m
  | None =>
      match s with
      | [] => None
      | _ :: s' => search r (S pos) s'
      end
  end.

(** [str.match(r)] for a non-global [r]: [None] for [null], otherwise the
    array [[match[0]; match[1]; ...]]. *)
Definition jsMatch (r : regex) (subject : string) : option (list string) :=
  option_map (map Js.str) (search r 0 (Js.chars subject)).

(** [\d+\.\d+\.\d+\.\d+] *)
Definition dottedQuad : regex :=
  sequence [Plus (Cls Js.isDigit); Chr "."; Plus (Cls Js.isDigit); Chr ".";
       Plus (Cls Js.isDigit); Chr "."; Plus (Cls Js.isDigit)].

End Regex.

Import Regex.


(* ------------------------------------------------------------------------- *)
(** ** Scripts: console output, collaborators and exceptions

    An [async] function is a [Script]: the effects it has performed, in
    order, and how it completed.  [await] of a settled promise is [bind]; a
    rejected promise is a [Throw]. *)

(** A JavaScript [Error]: [code] is what Node sets on system errors
    (ECONNREFUSED, ENOTFOUND, ...), absent on [new Error(message)]. *)
Record JsError : Type := mkJsError { code : option string; message : string }.

Definition newError (msg : string) : JsError := mkJsError None msg.

Inductive Completion (A : Type) : Type :=
| Normal (a : A)
| Throw (e : JsError).
Arguments Normal {A} a.
Arguments Throw {A} e.

(** [Types.EPSON] and the other printer types of the library. *)
Inductive PrinterType : Type := EPSON | STAR | TANCA | DARUMA | BROTHER.

(** The object given to [new ThermalPrinter({type, interface, options})]. *)
Record PrinterConfig : Type := mkPrinter {
  ptype : PrinterType;
  interface : string;
  ptimeout : Z;
  pdebug : bool
}.

(** The lines the scripts write to the console, one constructor per
    template; the comment gives the text without its leading pictogram. *)
Inductive Line : Type :=
| DiscoveringDevices                       (* Discovering network devices... *)
| ArpScanUnavailable                       (* arp-scan not available, trying alternative methods... *)
| PingingRange (baseIP : string) (start end_ : Z)  (* Pinging range ${baseIP}.${start}-${end}... *)
| FoundDevice (ip : string)                (* Found device at ${ip} *)
| FoundThermalPrinter (ip : string) (port : Z)     (* Found thermal printer at ${ip}:${port} *)
| ConnectingUsing (type identifier : string)       (* Connecting using ${type}: ${identifier} *)
| ResolvedIP (ip : string)                 (* Resolved IP: ${ip} *)
| ConnectionSuccessful                     (* Connection successful! *)
| TestPrintCompleted                       (* Test print completed! *)
| ConnectionFailed                         (* Connection failed *)
| ConnectionFailedWith (msg : string)      (* Connection failed: ${error.message} *)
| MethodTitle (n : Z)                      (* Method ${n}: ... (the title of example n) *)
| MethodRule (n : Z)                       (* ======== (the rule under that title) *)
| TryingIP (ip : string)                   (* Trying ${ip}... *)
| FoundPrinterAt (ip : string)             (* Found printer at ${ip}! *)
| NoPrintersFound                          (* No printers found in common ranges *)
| TryingMethod (name : string)             (* Trying ${method.name}... *)
| ConnectedVia (name : string)             (* Connected via ${method.name}! *)
| MethodFailed (name msg : string)         (* ${method.name} failed: ${error.message} *)
| AllMethodsFailed                         (* All connection methods failed *)
| NetConnSuccessful (host : string) (port : Z)     (* Network connection to ${host}:${port} successful *)
| NetConnTimedOut (host : string) (port : Z)       (* Network connection to ${host}:${port} timed out *)
| NetConnFailed (host : string) (port : Z) (msg : string).
                                           (* Network connection to ${host}:${port} failed: ${error.message} *)

Inductive Effect : Type :=
| Log (l : Line)                           (* console.log *)
| LogError (l : Line)                      (* console.error *)
| Exec (cmd : string)                      (* execAsync(cmd) *)
| NewPrinter (p : PrinterConfig)           (* new ThermalPrinter(...) *)
| IsPrinterConnected (p : PrinterConfig)   (* printer.isPrinterConnected() *)
| Println (p : PrinterConfig) (text : string)      (* printer.println(text) *)
| Cut (p : PrinterConfig)                  (* printer.cut() *)
| Execute (p : PrinterConfig).             (* printer.execute() *)

Definition Script (A : Type) : Type := (list Effect * Completion A)%type.

Definition ret {A} (a : A) : Script A := ([], Normal a).

Definition bind {A B} (m : Script A) (f : A -> Script B) : Script B :=
  match m with
  | (t, Normal a) => let (t', r) := f a in ((t ++ t')%list, r)
  | (t, Throw e) => (t, Throw e)
  end.

Definition emit (e : Effect) : Script unit := ([e], Normal tt).

Definition throw {A} (e : JsError) : Script A := ([], Throw e).

(** [try { body } catch (error) { handler }] *)
Definition tryCatch {A} (body : Script A) (handler : JsError -> Script A) : Script A :=
  match body with
  | (t, Normal a) => (t, Normal a)
  | (t, Throw e) => let (t', r) := handler e in ((t ++ t')%list, r)
  end.

Declare Scope script_scope.
Delimit Scope script_scope with script.
Notation "x <- m ;; k" := (bind m (fun x => k))
  (at level 61, m at next level, right associativity) : script_scope.
Notation "m ;; k" := (bind m (fun _ => k))
  (at level 61, right associativity) : script_scope.
Local Open Scope script_scope.

Definition effects {A} (s : Script A) : list Effect := fst s.
Definition completion {A} (s : Script A) : Completion A := snd s.

(** [for (const x of xs) { body }] followed by [after]; the body answers
    [Some v] when it executes [return v] and [None] when it falls through to
    the next iteration. *)
Fixpoint forOf {X R} (xs : list X) (body : X -> Script (option R))
         (after : Script R) : Script R :=
  match xs with
  | [] => after
  | x :: xs' =>
      r <- body x ;;
      match r with
      | Some v => ret v
      | None => forOf xs' body after
      end
  end.

(** What the iterations of a loop over [xs] do when each of them runs. *)
Definition bodyTraces {X R} (body : X -> Script (option R)) (xs : list X) : list Effect :=
  concat (map (fun x => effects (body x)) xs).

(** [for (let i = start; i <= end; i++) { acc = body(i, acc) }]: the guard is
    tested before every iteration; [fuel] counts the iterations left.  The
    counter is an integer: the loop of the script is this one as long as
    every value the counter takes is a safe integer, that is for bounds
    between [- Js.MAX_SAFE_INTEGER] and [Js.MAX_SAFE_INTEGER] (beyond them
    [i++] no longer advances and the loop of the script does not end). *)
Fixpoint forUpto {St} (fuel : nat) (i end_ : Z) (body : Z -> St -> Script St)
         (acc : St) : Script St :=
  match fuel with
  | O => ret acc
  | S fuel' =>
      if i <=? end_
      then acc' <- body i acc ;; forUpto fuel' (i + 1) end_ body acc'
      else ret acc
  end.

Definition forRange {St} (start end_ : Z) (body : Z -> St -> Script St)
           (acc : St) : Script St :=
  forUpto (Z.to_nat (end_ + 1 - start)) start end_ body acc.

(** What lies outside the scripts. *)
Record Env : Type := mkEnv {
  (** [util.promisify(child_process.exec)]: the standard output of the
      command, or the rejection when it cannot be run or exits non-zero. *)
  exec : string -> Completion string;
  (** [printer.isPrinterConnected()] of the printer library. *)
  printerConnected : PrinterConfig -> Completion bool;
  (** [printer.execute()] of the printer library. *)
  printerExecuted : PrinterConfig -> Completion unit;
  (** [new Date().toLocaleString()] *)
  localeNow : string
}.

Definition execAsync (env : Env) (cmd : string) : Script string :=
  ([Exec cmd], exec env cmd).

Definition newThermalPrinter (p : PrinterConfig) : Script PrinterConfig :=
  emit (NewPrinter p) ;; ret p.

Definition isPrinterConnected (env : Env) (p : PrinterConfig) : Script bool :=
  ([IsPrinterConnected p], printerConnected env p).

Definition println (p : PrinterConfig) (text : string) : Script unit :=
  emit (Println p text).

Definition cut (p : PrinterConfig) : Script unit := emit (Cut p).

Definition execute (env : Env) (p : PrinterConfig) : Script unit :=
  ([Execute p], printerExecuted env p).

Definition consoleLog (l : Line) : Script unit := emit (Log l).
Definition consoleError (l : Line) : Script unit := emit (LogError l).

(** [match[i]] *)
Definition group (m : list string) (i : nat) : string := nth i m "".

(* ------------------------------------------------------------------------- *)
(** ** Sockets and promises

    A [net.Socket] as a script configures it inside [new Promise(...)], and
    the part of Node's event loop that decides which of its events comes
    first.  A handler is the list of what its callback does.  The model
    follows the socket up to its first event: every handler of the scripts
    destroys the socket there, after which Node emits none of these events. *)

Module Net.

(** What the remote end does with a connection attempt: the handshake
    completes after [t] ms, the attempt fails after [t] ms, or nothing ever
    comes back. *)
Inductive Behaviour : Type :=
| Connects (t : Z)
| Fails (t : Z) (e : JsError)
| Silent.

Definition Network : Type := string -> Z -> Behaviour.

Inductive Action : Type :=
| Say (l : Line)          (* console.log *)
| Destroy                 (* socket.destroy() *)
| Resolve (v : bool).     (* resolve(v) *)

Definition Handler : Type := list Action.

Record Socket : Type := mkSocket {
  idle : Z;                          (* idle timeout in ms; 0 when there is none *)
  connectHandler : Handler;          (* socket.on('connect', ...) *)
  timeoutHandler : Handler;          (* socket.on('timeout', ...) *)
  errorHandler : JsError -> Handler; (* socket.on('error', ...) *)
  target : option (Z * string)       (* socket.connect(port, host) *)
}.

(** [new net.Socket()] *)
Definition newSocket : Socket := mkSocket 0 [] [] (fun _ => []) None.

Definition TIMEOUT_MAX : Z := 2147483647.

Definition SocketOp : Type := Socket -> Completion Socket.

(** [socket.setTimeout(msecs)]: a negative duration throws, 0 disables the
    idle timer, a duration above [TIMEOUT_MAX] is cut down to it. *)
Definition setTimeout (msecs : Z) : SocketOp := fun s =>
  if msecs <? 0
  then Throw (mkJsError (Some "ERR_OUT_OF_RANGE") "The value of msecs is out of range.")
  else Normal (mkSocket (Z.min msecs TIMEOUT_MAX) (connectHandler s)
                        (timeoutHandler s) (errorHandler s) (target s)).

Definition on_connect (h : Handler) : SocketOp := fun s =>
  Normal (mkSocket (idle s) h (timeoutHandler s) (errorHandler s) (target s)).

Definition on_timeout (h : Handler) : SocketOp := fun s =>
  Normal (mkSocket (idle s) (connectHandler s) h (errorHandler s) (target s)).

Definition on_error (h : JsError -> Handler) : SocketOp := fun s =>
  Normal (mkSocket (idle s) (connectHandler s) (timeoutHandler s) h (target s)).

(** [socket.connect(port, host)]: a port outside 0..65535 throws. *)
Definition connect (port : Z) (host : string) : SocketOp := fun s =>
  if (0 <=? port) && (port <=? 65535)
  then Normal (mkSocket (idle s) (connectHandler s) (timeoutHandler s)
                        (errorHandler s) (Some (port, host)))
  else Throw (mkJsError (Some "ERR_SOCKET_BAD_PORT") "Port should be >= 0 and < 65536.").

(** The statements of a promise executor, in order: the socket as they
    leave it, and the error of the first statement that throws, which ends
    the executor with the statements before it done and none after it. *)
Fixpoint configure (ops : list SocketOp) (s : Socket) : Socket * option JsError :=
  match ops with
  | [] => (s, None)
  | op :: ops' =>
      match op s with
      | Normal s' => configure ops' s'
      | Throw e => (s, Some e)
      end
  end.

Inductive Event : Type :=
| EvConnect
| EvTimeout
| EvError (e : JsError).

(** The first event of a configured socket and the time it is emitted at:
    the answer of the remote end when it comes before the idle timer runs
    out, the timer otherwise. *)
Definition nextEvent (net : Network) (s : Socket) : option (Z * Event) :=
  let timer := if idle s =? 0 then None else Some (idle s) in
  let io :=
    match target s with
    | Some (port, host) =>
        match net host port with
        | Connects t => Some (t, EvConnect)
        | Fails t e => Some (t, EvError e)
        | Silent => None
        end
    | None => None
    end in
  match io, timer with
  | Some (t, ev), Some limit => if t <? limit then Some (t, ev) else Some (limit, EvTimeout)
  | Some (t, ev), None => Some (t, ev)
  | None, Some limit => Some (limit, EvTimeout)
  | None, None => None
  end.

Definition handlerOf (s : Socket) (ev : Event) : Handler :=
  match ev with
  | EvConnect => connectHandler s
  | EvTimeout => timeoutHandler s
  | EvError e => errorHandler s e
  end.

Inductive PromiseState : Type :=
| Pending
| Resolved (v : bool)
| Rejected (e : JsError).

(** A promise settles once: the first [resolve] wins. *)
Fixpoint settle (acts : list Action) : PromiseState :=
  match acts with
  | [] => Pending
  | Resolve v :: _ => Resolved v
  | _ :: acts' => settle acts'
  end.

(** One run of [new Promise((resolve) => { ... })]: what the handler that
    ran did, when it ran, and the state the promise is left in.  An executor
    that throws rejects the promise at once; what it has set up before
    stays: an idle timer it has armed still runs out, and the handler of
    'timeout', if registered by then, still runs, its [resolve] without
    effect on the promise. *)
Record Run : Type := mkRun {
  trace : list Action;
  settledAt : option Z;
  promise : PromiseState
}.

Definition newPromise (net : Network) (executor : list SocketOp) : Run :=
  match configure executor newSocket with
  | (s, Some e) =>
      match nextEvent net s with
      | None => mkRun [] None (Rejected e)
      | Some (t, ev) => mkRun (handlerOf s ev) (Some t) (Rejected e)
      end
  | (s, None) =>
      match nextEvent net s with
      | None => mkRun [] None Pending
      | Some (t, ev) => mkRun (handlerOf s ev) (Some t) (settle (handlerOf s ev))
      end
  end.

(** The number of calls of [resolve]. *)
Fixpoint resolveCalls (acts : list Action) : nat :=
  match acts with
  | [] => O
  | Resolve _ :: acts' => S (resolveCalls acts')
  | _ :: acts' => resolveCalls acts'
  end.

(** Whether the socket has been destroyed when [resolve] is first called. *)
Fixpoint destroyedAtResolve (acts : list Action) : bool :=
  match acts with
  | [] => false
  | Destroy :: _ => match settle acts with Pending => false | _ => true end
  | Resolve _ :: _ => false
  | Say _ :: acts' => destroyedAtResolve acts'
  end.

Fixpoint console (acts : list Action) : list Line :=
  match acts with
  | [] => []
  | Say l :: acts' => l :: console acts'
  | _ :: acts' => console acts'
  end.

End Net.

(* ------------------------------------------------------------------------- *)
(** ** The robust status checker *)

Module StatusRobust.

Import Net.

(** [testNetworkConnectivity(host, port, timeout = 5000)] *)
Definition testNetworkConnectivity (net : Network) (host : string) (port timeout : Z) : Run :=
  newPromise net
    [ setTimeout timeout;
      on_connect [Say (NetConnSuccessful host port); Destroy; Resolve true];
      on_timeout [Say (NetConnTimedOut host port); Destroy; Resolve false];
      on_error (fun error =>
        [Say (NetConnFailed host port (message error)); Destroy; Resolve false]);
      connect port host ].

Definition testNetworkConnectivityDefault (net : Network) (host : string) (port : Z) : Run :=
  testNetworkConnectivity net host port 5000.

End StatusRobust.

(* ------------------------------------------------------------------------- *)
(** ** The ethernet discovery script *)

Module EthernetDiscovery.

Record Device : Type := mkDevice { ip : string; mac : string; vendor : string }.

(** [/^(\d+\.\d+\.\d+\.\d+)\s+([0-9a-fA-F:]+)\s+(.+)$/] *)
Definition arpScanLine : regex :=
  sequence [Bol; Grp dottedQuad; Plus (Cls Js.isSpace);
       Grp (Plus (Cls Js.isHexColon)); Plus (Cls Js.isSpace);
       Grp (Plus (Cls Js.isDot)); Eol].

(** The loop over the lines of the arp-scan output. *)
Fixpoint parseArpScan (lines : list string) (devices : list Device) : list Device :=
  match lines with
  | [] => devices
  | line :: rest =>
      match jsMatch arpScanLine line with
      | Some m =>
          parseArpScan rest
            (devices ++ [mkDevice (group m 1) (group m 2) (Js.trim (group m 3))])
      | None => parseArpScan rest devices
      end
  end.

Definition discoverNetworkDevices (env : Env) : Script (list Device) :=
  consoleLog DiscoveringDevices ;;
  tryCatch
    (stdout <- execAsync env "arp-scan --localnet" ;;
     let lines := Js.split_nl stdout in
     ret (parseArpScan lines []))
    (fun error =>
       consoleLog ArpScanUnavailable ;;
       ret []).

(** One iteration of the loop of [pingRange]. *)
Definition pingOne (env : Env) (baseIP : string) (i : Z)
           (reachable : list string) : Script (list string) :=
  let ip := baseIP ++ "." ++ Js.ofInt i in
  tryCatch
    (execAsync env ("ping -c 1 -W 1 " ++ ip) ;;
     consoleLog (FoundDevice ip) ;;
     ret (reachable ++ [ip])%list)
    (fun error => ret reachable).

(** [pingRange(baseIP, start = 1, end = 254)] *)
Definition pingRange (env : Env) (baseIP : string) (start end_ : Z)
  : Script (list string) :=
  consoleLog (PingingRange baseIP start end_) ;;
  reachable <- forRange start end_ (pingOne env baseIP) [] ;;
  ret reachable.

Definition pingRangeDefault (env : Env) (baseIP : string) : Script (list string) :=
  pingRange env baseIP 1 254.

(** [testThermalPrinter(ip, port = 9100)] *)
Definition testThermalPrinter (net : Net.Network) (ip : string) (port : Z) : Net.Run :=
  Net.newPromise net
    [ Net.setTimeout 3000;
      Net.on_connect [Net.Say (FoundThermalPrinter ip port); Net.Destroy; Net.Resolve true];
      Net.on_timeout [Net.Destroy; Net.Resolve false];
      Net.on_error (fun _ => [Net.Destroy; Net.Resolve false]);
      Net.connect port ip ].

Definition testThermalPrinterDefault (net : Net.Network) (ip : string) : Net.Run :=
  testThermalPrinter net ip 9100.

(** [/\((\d+\.\d+\.\d+\.\d+)\) at ([0-9a-fA-F:]+)/] *)
Definition arpLine : regex :=
  sequence ([Chr "("; Grp dottedQuad] ++ lit (Js.chars ") at ")
         ++ [Grp (Plus (Cls Js.isHexColon))]).

(** The loop of [connectByMAC] over the lines of the ARP table, up to the
    [throw] that follows it. *)
Fixpoint lookupMAC (lines : list string) (macAddress : string) : Script string :=
  match lines with
  | [] => throw (newError "MAC address not found in ARP table")
  | line :: rest =>
      match jsMatch arpLine line with
      | Some m =>
          if String.eqb (Js.toLowerCase (group m 2)) (Js.toLowerCase macAddress)
          then ret (group m 1)
          else lookupMAC rest macAddress
      | None => lookupMAC rest macAddress
      end
  end.

Definition connectByMAC (env : Env) (macAddress : string) : Script string :=
  tryCatch
    (stdout <- execAsync env "arp -a" ;;
     let lines := Js.split_nl stdout in
     lookupMAC lines macAddress)
    (fun error =>
       throw (newError ("Could not resolve MAC address: " ++ message error))).

(** [/Address:\s*(\d+\.\d+\.\d+\.\d+)/] *)
Definition nslookupAddress : regex :=
  sequence (lit (Js.chars "Address:") ++ [Star (Cls Js.isSpace); Grp dottedQuad]).

Definition connectByHostname (env : Env) (hostname : string) : Script string :=
  tryCatch
    (stdout <- execAsync env ("nslookup " ++ hostname) ;;
     match jsMatch nslookupAddress stdout with
     | Some m => ret (group m 1)
     | None => throw (newError "Hostname not found")
     end)
    (fun error =>
       throw (newError ("Could not resolve hostname: " ++ message error))).

(** The [switch (type)] of [connectByIdentifier], which computes [ip]. *)
Definition resolveIdentifier (env : Env) (identifier type : string) : Script string :=
  if String.eqb type "mac" then connectByMAC env identifier
  else if String.eqb type "hostname" then connectByHostname env identifier
  else if String.eqb type "ip" then ret identifier
  else throw (newError ("Unknown identifier type: " ++ type)).

(** [connectByIdentifier(identifier, type = 'ip')] *)
Definition connectByIdentifier (env : Env) (identifier type : string) : Script unit :=
  consoleLog (ConnectingUsing type identifier) ;;
  tryCatch
    (ip <- resolveIdentifier env identifier type ;;
     consoleLog (ResolvedIP ip) ;;
     printer <- newThermalPrinter
                  (mkPrinter EPSON ("tcp://" ++ ip ++ ":9100") 10000 true) ;;
     isConnected <- isPrinterConnected env printer ;;
     if isConnected then
       consoleLog ConnectionSuccessful ;;
       println printer "=== ETHERNET TEST ===" ;;
       println printer ("Connected via: " ++ type) ;;
       println printer ("Identifier: " ++ identifier) ;;
       println printer ("IP: " ++ ip) ;;
       println printer ("Time: " ++ localeNow env) ;;
       cut printer ;;
       execute env printer ;;
       consoleLog TestPrintCompleted
     else
       consoleLog ConnectionFailed)
    (fun error => consoleError (ConnectionFailedWith (message error))).

End EthernetDiscovery.

(* ------------------------------------------------------------------------- *)
(** ** The connection examples *)

Module ConnectByEthernet.

(** [networkRanges] of [connectByNetworkRange] *)
Definition networkRanges : list string :=
  ["192.168.1.87"; "192.168.1.100"; "192.168.1.200"; "192.168.0.100"; "10.0.0.100"].

(** The configuration [connectByNetworkRange] gives the printer at [ip]. *)
Definition printerAt (ip : string) : PrinterConfig :=
  mkPrinter EPSON ("tcp://" ++ ip ++ ":9100") 5000 false.

(** The body of the loop of [connectByNetworkRange]. *)
Definition tryAddress (env : Env) (ip : string) : Script (option unit) :=
  consoleLog (TryingIP ip) ;;
  printer <- newThermalPrinter (printerAt ip) ;;
  tryCatch
    (isConnected <- isPrinterConnected env printer ;;
     if isConnected then
       consoleLog (FoundPrinterAt ip) ;;
       println printer "=== NETWORK SCAN TEST ===" ;;
       println printer "Connected via: Network Scan" ;;
       println printer ("IP: " ++ ip) ;;
       println printer ("Time: " ++ localeNow env) ;;
       cut printer ;;
       execute env printer ;;
       consoleLog TestPrintCompleted ;;
       ret (Some tt)
     else ret None)
    (fun error => ret None).

(** The loop of [connectByNetworkRange] and the line after it, over any list
    of addresses. *)
Definition scanAddresses (env : Env) (ips : list string) : Script unit :=
  forOf ips (tryAddress env) (consoleLog NoPrintersFound).

Definition connectByNetworkRange (env : Env) : Script unit :=
  consoleLog (MethodTitle 3) ;;
  consoleLog (MethodRule 3) ;;
  scanAddresses env networkRanges.

(** What an iteration of [connectByNetworkRange] does up to the connection
    test, and from the announcement of the printer to its test print. *)
Definition addressHead (ip : string) : list Effect :=
  [Log (TryingIP ip); NewPrinter (printerAt ip); IsPrinterConnected (printerAt ip)].

Definition addressPrint (env : Env) (ip : string) : list Effect :=
  [Log (FoundPrinterAt ip);
   Println (printerAt ip) "=== NETWORK SCAN TEST ===";
   Println (printerAt ip) "Connected via: Network Scan";
   Println (printerAt ip) ("IP: " ++ ip);
   Println (printerAt ip) ("Time: " ++ localeNow env);
   Cut (printerAt ip);
   Execute (printerAt ip)].

(** An element of [connectionMethods]. *)
Record Method : Type := mkMethod {
  name : string;
  minterface : string;
  mtimeout : Z
}.

Definition connectionMethods : list Method :=
  [ mkMethod "Primary IP" "tcp://192.168.1.87:9100" 10000;
    mkMethod "Alternative IP" "tcp://192.168.1.100:9100" 10000;
    mkMethod "Hostname" "tcp://thermal-printer.local:9100" 10000 ].

Definition printerOf (method : Method) : PrinterConfig :=
  mkPrinter EPSON (minterface method) (mtimeout method) true.

(** The body of the loop of [connectWithFallback]. *)
Definition tryMethod (env : Env) (method : Method) : Script (option unit) :=
  consoleLog (TryingMethod (name method)) ;;
  printer <- newThermalPrinter (printerOf method) ;;
  tryCatch
    (isConnected <- isPrinterConnected env printer ;;
     if isConnected then
       consoleLog (ConnectedVia (name method)) ;;
       println printer "=== FALLBACK CONNECTION TEST ===" ;;
       println printer ("Connected via: " ++ name method) ;;
       println printer ("Interface: " ++ minterface method) ;;
       println printer ("Time: " ++ localeNow env) ;;
       cut printer ;;
       execute env printer ;;
       consoleLog TestPrintCompleted ;;
       ret (Some tt)
     else ret None)
    (fun error =>
       consoleLog (MethodFailed (name method) (message error)) ;;
       ret None).

(** What an iteration of [connectWithFallback] does up to the connection
    test, and from the announcement of the connection to its test print. *)
Definition methodHead (method : Method) : list Effect :=
  [Log (TryingMethod (name method)); NewPrinter (printerOf method);
   IsPrinterConnected (printerOf method)].

Definition methodPrint (env : Env) (method : Method) : list Effect :=
  [Log (ConnectedVia (name method));
   Println (printerOf method) "=== FALLBACK CONNECTION TEST ===";
   Println (printerOf method) ("Connected via: " ++ name method);
   Println (printerOf method) ("Interface: " ++ minterface method);
   Println (printerOf method) ("Time: " ++ localeNow env);
   Cut (printerOf method);
   Execute (printerOf method)].

(** The loop of [connectWithFallback] and the line after it, over any list
    of methods. *)
Definition tryMethods (env : Env) (methods : list Method) : Script unit :=
  forOf methods (tryMethod env) (consoleLog AllMethodsFailed).

Definition connectWithFallback (env : Env) : Script unit :=
  consoleLog (MethodTitle 4) ;;
  consoleLog (MethodRule 4) ;;
  tryMethods env connectionMethods.

End ConnectByEthernet.

(* ------------------------------------------------------------------------- *)
(** ** What the specification words

    The two definitions of this module follow the specification, not the
    scripts; the scripts are compared with them below. *)

Module Specified.

(** The outcome of a probe (specification, section 3). *)
Inductive Outcome : Type := Reachable | Refused | TimedOut | Unresolved | Error.

Record ProbeResult : Type := mkProbeResult {
  outcome : Outcome;
  detail : option string
}.

(** The classification of section 4.1: [Reachable] on a successful connect,
    [Refused] on an OS-level refusal, [Unresolved] on a resolution failure,
    [Error] with the message kept on any other transport error, [TimedOut]
    when nothing happens within [timeoutMillis]. *)
Definition classifyError (e : JsError) : ProbeResult :=
  match code e with
  | Some c =>
      if String.eqb c "ECONNREFUSED" then mkProbeResult Refused None
      else if String.eqb c "ENOTFOUND" then mkProbeResult Unresolved None
      else mkProbeResult Error (Some (message e))
  | None => mkProbeResult Error (Some (message e))
  end.

Definition classify (timeoutMillis : Z) (b : Net.Behaviour) : ProbeResult :=
  match b with
  | Net.Connects t =>
      if t <? timeoutMillis then mkProbeResult Reachable None
      else mkProbeResult TimedOut None
  | Net.Fails t e =>
      if t <? timeoutMillis then classifyError e
      else mkProbeResult TimedOut None
  | Net.Silent => mkProbeResult TimedOut None
  end.

Fixpoint decimalValue (acc : N) (l : list ascii) : N :=
  match l with
  | [] => acc
  | c :: l' => decimalValue (acc * 10 + (Js.codeUnit c - 48))%N l'
  end.

Definition isOctet (part : string) : bool :=
  let l := Js.chars part in
  negb (Nat.eqb (length l) 0) && Nat.leb (length l) 3
  && forallb Js.isDigit l && (decimalValue 0 l <=? 255)%N.

(** A well-formed IPv4 literal (section 4.2): four decimal octets, each in
    0..255, separated by dots. *)
Definition wellFormedIPv4 (s : string) : bool :=
  let parts := Js.split "." s in
  Nat.eqb (length parts) 4 && forallb isOctet parts.

End Specified.

(* ------------------------------------------------------------------------- *)
(** ** Observations on a run *)

(** The printers [isPrinterConnected] was called on, in order. *)
Fixpoint probed (t : list Effect) : list PrinterConfig :=
  match t with
  | [] => []
  | IsPrinterConnected p :: t' => p :: probed t'
  | _ :: t' => probed t'
  end.

(** The commands run as child processes, in order. *)
Fixpoint commands (t : list Effect) : list string :=
  match t with
  | [] => []
  | Exec cmd :: t' => cmd :: commands t'
  | _ :: t' => commands t'
  end.

(** The lines written with [console.log], in order. *)
Fixpoint logged (t : list Effect) : list Line :=
  match t with
  | [] => []
  | Log l :: t' => l :: logged t'
  | _ :: t' => logged t'
  end.

(** The methods announced with "Trying ...", in order. *)
Fixpoint tried (t : list Effect) : list string :=
  match t with
  | [] => []
  | Log (TryingMethod n) :: t' => n :: tried t'
  | _ :: t' => tried t'
  end.

(** The failure records written to the console: the method and the message
    of every "... failed: ..." line, in order. *)
Fixpoint failures (t : list Effect) : list (string * string) :=
  match t with
  | [] => []
  | Log (MethodFailed n msg) :: t' => (n, msg) :: failures t'
  | _ :: t' => failures t'
  end.

(** An attempt on a printer succeeds when the printer answers the
    connection test with [true] and the test print completes. *)
Definition succeeds (env : Env) (p : PrinterConfig) : bool :=
  match printerConnected env p, printerExecuted env p with
  | Normal true, Normal _ => true
  | _, _ => false
  end.

(** The error an attempt on a printer raises, if any: the rejection of the
    connection test, or of the test print when the printer answered [true]. *)
Definition attemptError (env : Env) (p : PrinterConfig) : option JsError :=
  match printerConnected env p with
  | Throw e => Some e
  | Normal false => None
  | Normal true =>
      match printerExecuted env p with
      | Throw e => Some e
      | Normal _ => None
      end
  end.

(** Whether the remote end completes the handshake before an idle timer of
    [limit] ms, as [socket.setTimeout(limit)] arms it, runs out. *)
Definition connectsWithin (net : Net.Network) (host : string) (port limit : Z) : bool :=
  match net host port with
  | Net.Connects t => t <? Z.min limit Net.TIMEOUT_MAX
  | _ => false
  end.

(** Whether a ping of [ip] exits with status 0. *)
Definition answersPing (env : Env) (ip : string) : bool :=
  match exec env ("ping -c 1 -W 1 " ++ ip) with
  | Normal _ => true
  | Throw _ => false
  end.


(** Comparison of hardware addresses without regard to case. *)
Definition sameHardwareAddress (a b : string) : bool :=
  String.eqb (Js.toLowerCase a) (Js.toLowerCase b).

(** The integers [i], [i + 1], ..., [n] of them. *)
Fixpoint upFrom (i : Z) (n : nat) : list Z :=
  match n with
  | O => []
  | S n' => i :: upFrom (i + 1) n'
  end.

Definition pingCommand (baseIP : string) (i : Z) : string :=
  "ping -c 1 -W 1 " ++ baseIP ++ "." ++ Js.ofInt i.

Definition hostAddress (baseIP : string) (i : Z) : string :=
  baseIP ++ "." ++ Js.ofInt i.

(* ------------------------------------------------------------------------- *)
(** ** Scenarios: concrete environments *)

Module Scenario.

Definition nl : string := String (ascii_of_N 10) "".

Definition commandFailed : JsError := mkJsError None "Command failed".

Definition clock : string := "1/1/2025, 12:00:00 PM".

(** No tool is installed and no printer answers. *)
Definition offline : Env :=
  mkEnv (fun _ => Throw commandFailed) (fun _ => Normal false)
        (fun _ => Normal tt) clock.

(** Of all addresses only 192.168.1.11 answers a ping. *)
Definition only11 : Env :=
  mkEnv (fun cmd => if String.eqb cmd "ping -c 1 -W 1 192.168.1.11"
                    then Normal "1 packets transmitted, 1 received"
                    else Throw commandFailed)
        (fun _ => Normal false) (fun _ => Normal tt) clock.

(** Every command succeeds and prints nothing. *)
Definition online : Env :=
  mkEnv (fun _ => Normal "") (fun _ => Normal false) (fun _ => Normal tt) clock.

Definition tab : string := String (ascii_of_N 9) "".

Definition arpScanOutput : string :=
  "Interface: eth0, type: EN10MB, IPv4: 192.168.1.10" ++ nl ++
  "192.168.1.1" ++ tab ++ "00:11:22:33:44:55" ++ tab ++ "Router Corp. " ++ nl ++
  "192.168.1.87" ++ tab ++ "aa:bb:cc:dd:ee:ff" ++ tab ++ "Seiko Epson" ++ nl ++
  nl ++
  "2 packets received by filter, 0 packets dropped by kernel" ++ nl.

(** [arp-scan --localnet] prints [arpScanOutput]. *)
Definition withArpScan : Env :=
  mkEnv (fun cmd => if String.eqb cmd "arp-scan --localnet" then Normal arpScanOutput
                    else Throw commandFailed)
        (fun _ => Normal false) (fun _ => Normal tt) clock.

Definition arpOutput : string :=
  "? (192.168.1.1) at 00:11:22:33:44:55 [ether] on eth0" ++ nl ++
  "? (192.168.1.50) at (incomplete) on eth0" ++ nl ++
  "? (192.168.1.87) at AA:BB:CC:DD:EE:FF [ether] on eth0" ++ nl.

(** [arp -a] prints [arpOutput]; nothing else can be run. *)
Definition withArpTable : Env :=
  mkEnv (fun cmd => if String.eqb cmd "arp -a" then Normal arpOutput
                    else Throw commandFailed)
        (fun _ => Normal false) (fun _ => Normal tt) clock.

Definition socketTimeout : JsError := mkJsError None "Socket timeout".

Definition refused : JsError :=
  mkJsError (Some "ECONNREFUSED") "connect ECONNREFUSED 192.168.0.105:9100".

Definition notFound : JsError :=
  mkJsError (Some "ENOTFOUND") "getaddrinfo ENOTFOUND 192.168.0.105".

(** Every endpoint answers in the same way. *)
Definition always (b : Net.Behaviour) : Net.Network := fun _ _ => b.

(** Every printer answers the connection test with [true]; the test print
    fails on the interface [iface] and completes on every other one. *)
Definition printFailsOn (iface : string) : Env :=
  mkEnv (fun _ => Throw commandFailed) (fun _ => Normal true)
        (fun p => if String.eqb (interface p) iface then Throw socketTimeout
                  else Normal tt)
        clock.

End Scenario.

(* ------------------------------------------------------------------------- *)
(** ** Procedures: the callers of the helpers

    The functions that call the helpers above write more lines, await socket
    probes and ask the printer for its status.  A [Proc] is a [Script] with
    these further steps, and with one more way to end: an [await] of a
    promise that never settles blocks for ever. *)

(** The blocks of fixed lines the callers write, a line per [console] call. *)
Inductive Block : Type :=
| ExamplesIntro        (* connect-by-ethernet.js, runAllExamples: the 6 opening lines *)
| ExamplesSummary      (* runAllExamples: the 14 lines of the summary and the tips *)
| ExamplesUsage        (* connect-by-ethernet.js: the 7 lines of the usage *)
| DiscoveryNoPrinters  (* discoverAndTest: "No thermal printers found ..." and the 5 lines under it *)
| DiscoveryUsage       (* ethernet discovery: the 5 lines of the usage *)
| NetworkUnreachable   (* status-robust.js: "Basic network connectivity failed!" and the 6 lines under it *)
| PrinterNotResponding (* status-robust.js: "Printer connection test failed!" and the 6 lines under it *)
| AdviceRefused        (* status-robust.js: "Connection Refused - Troubleshooting:" and its 4 hints *)
| AdviceTimedOut       (* "Connection Timeout - Troubleshooting:" and its 4 hints *)
| AdviceNotFound       (* "Host Not Found - Troubleshooting:" and its 3 hints *)
| AdviceSocketTimeout  (* "Socket Timeout - Troubleshooting:" and its 4 hints *)
| AdviceGeneral.       (* "General Error - Troubleshooting:" and its 3 hints *)

Definition blockSize (b : Block) : nat :=
  match b with
  | ExamplesIntro => 6
  | ExamplesSummary => 14
  | ExamplesUsage => 7
  | DiscoveryNoPrinters => 6
  | DiscoveryUsage => 5
  | NetworkUnreachable => 7
  | PrinterNotResponding => 7
  | AdviceRefused => 5
  | AdviceTimedOut => 5
  | AdviceNotFound => 4
  | AdviceSocketTimeout => 5
  | AdviceGeneral => 4
  end%nat.

(** The lines of the callers, one constructor per template; the comment
    gives the text without its leading pictogram. *)
Inductive Text : Type :=
| Fixed (b : Block) (i : nat)                (* line i of a block of fixed lines *)
| ConnectedByIP                              (* Connected by IP successfully! *)
| ConnectedByHostname                        (* Connected by hostname successfully! *)
| UsingInterface (iface : string)            (* Using interface: ${interface} *)
| ConnectedViaEnvironment                    (* Connected via environment variables! *)
| DiscoveryTitle                             (* Thermal Printer Network Discovery *)
| DiscoveryRule                              (* ==================================== *)
| DiscoveryMethod (n : Z)                    (* Method ${n}: Scanning ... / Discovering ... *)
| ResultsTitle                               (* Discovery Results: *)
| ResultsRule                                (* ===================== *)
| PrinterFoundVia (index : nat) (method : string)  (* ${index + 1}. Printer found via ${printer.method}: *)
| PrinterIP (ip : string)                    (*    IP: ${printer.ip} *)
| PrinterMAC (mac : string)                  (*    MAC: ${printer.mac} *)
| PrinterVendor (vendor : string)            (*    Vendor: ${printer.vendor} *)
| TestingConnectionTo (ip : string)          (* Testing connection to ${firstPrinter.ip}... *)
| ExampleCode (i : nat) (ip : string)        (* line i of the 6 lines of the example code, the 4th with the ip *)
| StatusTitle                                (* Network Thermal Printer Status Checker *)
| StatusRule                                 (* ========================================== *)
| Target (ip : string) (port : Z)            (* Target: ${printerIP}:${printerPort} *)
| Blank                                      (* the empty line *)
| StepLine (n : Z)                           (* Step ${n}: ... *)
| PrinterTestSuccessful                      (* Printer connection test successful! *)
| StatusReceived                             (* Printer status received successfully! *)
| RawStatus (status : list Z)                (* Raw status data: <the buffer> *)
| StatusAsHex (hex : string)                 (* Status as hex: ${status.toString('hex')} *)
| StatusByte (bits : string)                 (* Status byte: ${statusByte.toString(2).padStart(8, '0')} *)
| StatusInterpretation                       (* Status interpretation: *)
| StatusRow (ok : bool) (key value : string) (*    ${icon} ${key}: ${value}, the icon a check mark or a warning sign *)
| OperationFailed (msg : string).            (* Printer operation failed: ${e.message} *)

Inductive Step : Type :=
| Eff (e : Effect)                           (* an effect of a script *)
| Print (l : Text)                           (* console.log *)
| PrintError (l : Text)                      (* console.error *)
| Probe (host : string) (port : Z) (acts : list Net.Action)
                                             (* a socket probe and what its handler did *)
| GetStatus (p : PrinterConfig)              (* printer.getStatus() *)
| ExecuteForResponse (p : PrinterConfig).    (* printer.execute({ waitForResponse: true }) *)

Inductive Outcome (A : Type) : Type :=
| Done (a : A)
| Raised (e : JsError)
| Blocked.
Arguments Done {A} a.
Arguments Raised {A} e.
Arguments Blocked {A}.

Definition Proc (A : Type) : Type := (list Step * Outcome A)%type.

Definition steps {A} (m : Proc A) : list Step := fst m.
Definition outcome {A} (m : Proc A) : Outcome A := snd m.

Definition pure {A} (a : A) : Proc A := ([], Done a).

Definition andThen {A B} (m : Proc A) (f : A -> Proc B) : Proc B :=
  match m with
  | (t, Done a) => let (t', r) := f a in ((t ++ t')%list, r)
  | (t, Raised e) => (t, Raised e)
  | (t, Blocked) => (t, Blocked)
  end.

(** [try { body } catch (error) { handler }] *)
Definition attempt {A} (body : Proc A) (handler : JsError -> Proc A) : Proc A :=
  match body with
  | (t, Raised e) => let (t', r) := handler e in ((t ++ t')%list, r)
  | _ => body
  end.

(** A script run as a part of a procedure. *)
Definition lift {A} (s : Script A) : Proc A :=
  (map Eff (effects s),
   match completion s with
   | Normal a => Done a
   | Throw e => Raised e
   end).

(** [await] of the promise of a socket probe. *)
Definition await (host : string) (port : Z) (r : Net.Run) : Proc bool :=
  ([Probe host port (Net.trace r)],
   match Net.promise r with
   | Net.Resolved v => Done v
   | Net.Rejected e => Raised e
   | Net.Pending => Blocked
   end).

Definition print (l : Text) : Proc unit := ([Print l], Done tt).
Definition printError (l : Text) : Proc unit := ([PrintError l], Done tt).

(** The [console.log] calls of a block of fixed lines, one after the other. *)
Definition printBlock (b : Block) : Proc unit :=
  (map (fun i => Print (Fixed b i)) (seq 1 (blockSize b)), Done tt).

(** The same with [console.error]. *)
Definition printErrorBlock (b : Block) : Proc unit :=
  (map (fun i => PrintError (Fixed b i)) (seq 1 (blockSize b)), Done tt).

Declare Scope proc_scope.
Delimit Scope proc_scope with proc.
Notation "x <- m ;; k" := (andThen m (fun x => k))
  (at level 61, m at next level, right associativity) : proc_scope.
Notation "m ;; k" := (andThen m (fun _ => k))
  (at level 61, right associativity) : proc_scope.

(** What lies outside the callers: the environment of the scripts, the
    network the sockets connect to, the answer of the printer to a status
    request, and the variables of [process.env]. *)
Record World : Type := mkWorld {
  env : Env;
  net : Net.Network;
  statusReply : PrinterConfig -> Completion (list Z);
  processEnv : string -> option string
}.

(** Truthiness of a string that may be [undefined]. *)
Definition truthy (v : option string) : bool :=
  match v with
  | Some s => negb (String.eqb s "")
  | None => false
  end.

(** [v || fallback] *)
Definition orDefault (v : option string) (fallback : string) : string :=
  match v with
  | Some s => if String.eqb s "" then fallback else s
  | None => fallback
  end.

(* ------------------------------------------------------------------------- *)
(** ** The connection examples: the other examples and the entry point *)

Module Examples.

Local Open Scope proc_scope.

(** [connectByIP()] *)
Definition connectByIP (w : World) : Proc unit :=
  lift (consoleLog (MethodTitle 1)) ;;
  lift (consoleLog (MethodRule 1)) ;;
  printer <- lift (newThermalPrinter
                     (mkPrinter EPSON "tcp://192.168.0.201:9100" 10000 true)) ;;
  attempt
    (isConnected <- lift (isPrinterConnected (env w) printer) ;;
     if isConnected then
       print ConnectedByIP ;;
       lift (println printer "=== IP CONNECTION TEST ===") ;;
       lift (println printer "Connected via: IP Address") ;;
       lift (println printer "IP: 192.168.1.87") ;;
       lift (println printer ("Time: " ++ localeNow (env w))) ;;
       lift (cut printer) ;;
       lift (execute (env w) printer) ;;
       lift (consoleLog TestPrintCompleted)
     else
       lift (consoleLog ConnectionFailed))
    (fun error => lift (consoleError (ConnectionFailedWith (message error)))).

(** [connectByHostname()] *)
Definition connectByHostname (w : World) : Proc unit :=
  lift (consoleLog (MethodTitle 2)) ;;
  lift (consoleLog (MethodRule 2)) ;;
  printer <- lift (newThermalPrinter
                     (mkPrinter EPSON "tcp://thermal-printer.local:9100" 10000 true)) ;;
  attempt
    (isConnected <- lift (isPrinterConnected (env w) printer) ;;
     if isConnected then
       print ConnectedByHostname ;;
       lift (println printer "=== HOSTNAME CONNECTION TEST ===") ;;
       lift (println printer "Connected via: Hostname") ;;
       lift (println printer "Hostname: thermal-printer.local") ;;
       lift (println printer ("Time: " ++ localeNow (env w))) ;;
       lift (cut printer) ;;
       lift (execute (env w) printer) ;;
       lift (consoleLog TestPrintCompleted)
     else
       lift (consoleLog ConnectionFailed))
    (fun error => lift (consoleError (ConnectionFailedWith (message error)))).

(** The interface [connectByEnvironment] computes from [process.env]: the
    hostname first if there is one, the IP address otherwise. *)
Definition environmentInterface (w : World) : string :=
  let printerIP := orDefault (processEnv w "PRINTER_IP") "192.168.1.87" in
  let printerHostname := processEnv w "PRINTER_HOSTNAME" in
  let printerPort := orDefault (processEnv w "PRINTER_PORT") "9100" in
  if truthy printerHostname
  then "tcp://" ++ orDefault printerHostname "" ++ ":" ++ printerPort
  else "tcp://" ++ printerIP ++ ":" ++ printerPort.

(** [connectByEnvironment()] *)
Definition connectByEnvironment (w : World) : Proc unit :=
  lift (consoleLog (MethodTitle 5)) ;;
  lift (consoleLog (MethodRule 5)) ;;
  let interface := environmentInterface w in
  print (UsingInterface interface) ;;
  printer <- lift (newThermalPrinter (mkPrinter EPSON interface 10000 true)) ;;
  attempt
    (isConnected <- lift (isPrinterConnected (env w) printer) ;;
     if isConnected then
       print ConnectedViaEnvironment ;;
       lift (println printer "=== ENVIRONMENT CONNECTION TEST ===") ;;
       lift (println printer "Connected via: Environment Variables") ;;
       lift (println printer ("Interface: " ++ interface)) ;;
       lift (println printer ("Time: " ++ localeNow (env w))) ;;
       lift (cut printer) ;;
       lift (execute (env w) printer) ;;
       lift (consoleLog TestPrintCompleted)
     else
       lift (consoleLog ConnectionFailed))
    (fun error => lift (consoleError (ConnectionFailedWith (message error)))).

(** [runAllExamples()] *)
Definition runAllExamples (w : World) : Proc unit :=
  printBlock ExamplesIntro ;;
  connectByIP w ;;
  connectByHostname w ;;
  lift (ConnectByEthernet.connectByNetworkRange (env w)) ;;
  lift (ConnectByEthernet.connectWithFallback (env w)) ;;
  connectByEnvironment w ;;
  printBlock ExamplesSummary.

(** The entry point: [args] is [process.argv.slice(2)]. *)
Definition main (w : World) (args : list string) : Proc unit :=
  match args with
  | [] => runAllExamples w
  | method :: _ =>
      if String.eqb method "ip" then connectByIP w
      else if String.eqb method "hostname" then connectByHostname w
      else if String.eqb method "scan" then lift (ConnectByEthernet.connectByNetworkRange (env w))
      else if String.eqb method "fallback" then lift (ConnectByEthernet.connectWithFallback (env w))
      else if String.eqb method "env" then connectByEnvironment w
      else printBlock ExamplesUsage
  end.

End Examples.

(* ------------------------------------------------------------------------- *)
(** ** The ethernet discovery script: the discovery itself and the entry point *)

Module Discovery.

Local Open Scope proc_scope.

(** An element of [foundPrinters]. *)
Record Found : Type := mkFound {
  ip : string;
  method : string;
  mac : option string;
  vendor : option string
}.

Definition commonIPs : list string :=
  ["192.168.1.87"; "192.168.1.100"; "192.168.1.101"; "192.168.1.200"; "192.168.1.201";
   "192.168.0.100"; "192.168.0.101"; "10.0.0.100"; "10.0.0.101"].

(** [await testThermalPrinter(ip)] *)
Definition probe (w : World) (ip : string) : Proc bool :=
  await ip 9100 (EthernetDiscovery.testThermalPrinterDefault (net w) ip).

(** The loop each method ends with:
    [for (const x of xs) if (await testThermalPrinter(ip of x)) foundPrinters.push(record of x)]. *)
Fixpoint probeEach {X} (w : World) (ipOf : X -> string) (record : X -> Found)
         (xs : list X) (foundPrinters : list Found) : Proc (list Found) :=
  match xs with
  | [] => pure foundPrinters
  | x :: xs' =>
      isPrinter <- probe w (ipOf x) ;;
      probeEach w ipOf record xs'
                (if isPrinter then (foundPrinters ++ [record x])%list else foundPrinters)
  end.

(** The body of [foundPrinters.forEach((printer, index) => ...)]. *)
Definition listPrinter (index : nat) (printer : Found) : Proc unit :=
  print (PrinterFoundVia index (method printer)) ;;
  print (PrinterIP (ip printer)) ;;
  (if truthy (mac printer) then print (PrinterMAC (orDefault (mac printer) "")) else pure tt) ;;
  (if truthy (vendor printer) then print (PrinterVendor (orDefault (vendor printer) "")) else pure tt).

Fixpoint listPrinters (index : nat) (printers : list Found) : Proc unit :=
  match printers with
  | [] => pure tt
  | printer :: rest => listPrinter index printer ;; listPrinters (S index) rest
  end.

(** The test of the first printer found. *)
Definition testFirst (w : World) (firstPrinter : Found) : Proc unit :=
  print (TestingConnectionTo (ip firstPrinter)) ;;
  attempt
    (printer <- lift (newThermalPrinter
                        (mkPrinter EPSON ("tcp://" ++ ip firstPrinter ++ ":9100") 10000 true)) ;;
     isConnected <- lift (isPrinterConnected (env w) printer) ;;
     if isConnected then
       lift (consoleLog ConnectionSuccessful) ;;
       print (ExampleCode 1 (ip firstPrinter)) ;;
       print (ExampleCode 2 (ip firstPrinter)) ;;
       print (ExampleCode 3 (ip firstPrinter)) ;;
       print (ExampleCode 4 (ip firstPrinter)) ;;
       print (ExampleCode 5 (ip firstPrinter)) ;;
       print (ExampleCode 6 (ip firstPrinter))
     else
       lift (consoleLog ConnectionFailed))
    (fun error => lift (consoleLog (ConnectionFailedWith (message error)))).

(** [discoverAndTest()] *)
Definition discoverAndTest (w : World) : Proc unit :=
  print DiscoveryTitle ;;
  print DiscoveryRule ;;
  print (DiscoveryMethod 1) ;;
  foundPrinters <- probeEach w (fun ip => ip)
                     (fun ip => mkFound ip "common IP" None None) commonIPs [] ;;
  print (DiscoveryMethod 2) ;;
  localIPs <- lift (EthernetDiscovery.pingRange (env w) "192.168.1" 80 120) ;;
  foundPrinters <- probeEach w (fun ip => ip)
                     (fun ip => mkFound ip "network scan" None None) localIPs foundPrinters ;;
  print (DiscoveryMethod 3) ;;
  devices <- lift (EthernetDiscovery.discoverNetworkDevices (env w)) ;;
  foundPrinters <- probeEach w EthernetDiscovery.ip
                     (fun device => mkFound (EthernetDiscovery.ip device) "device discovery"
                                            (Some (EthernetDiscovery.mac device))
                                            (Some (EthernetDiscovery.vendor device)))
                     devices foundPrinters ;;
  print ResultsTitle ;;
  print ResultsRule ;;
  match foundPrinters with
  | [] => printBlock DiscoveryNoPrinters
  | firstPrinter :: _ =>
      listPrinters 0 foundPrinters ;;
      testFirst w firstPrinter
  end.

(** The entry point: [args] is [process.argv.slice(2)]. *)
Definition main (w : World) (args : list string) : Proc unit :=
  match args with
  | [] => discoverAndTest w
  | identifier :: type :: _ => lift (EthernetDiscovery.connectByIdentifier (env w) identifier type)
  | [_] => printBlock DiscoveryUsage
  end.

End Discovery.

(* ------------------------------------------------------------------------- *)
(** ** The robust status checker: the check itself *)

Module JsText.

(** [hay.includes(needle)] *)
Fixpoint includes (needle hay : string) : bool :=
  String.prefix needle hay
  || match hay with
     | EmptyString => false
     | String _ hay' => includes needle hay'
     end.

(** The binary digits of a positive integer, the most significant first. *)
Fixpoint binaryDigits (p : positive) : string :=
  match p with
  | xH => "1"
  | xO p' => binaryDigits p' ++ "0"
  | xI p' => binaryDigits p' ++ "1"
  end.

(** [n.toString(2)] of an integer. *)
Definition toBinary (n : Z) : string :=
  match n with
  | Z0 => "0"
  | Zpos p => binaryDigits p
  | Zneg p => "-" ++ binaryDigits p
  end.

Fixpoint repeatChar (c : ascii) (n : nat) : string :=
  match n with
  | O => EmptyString
  | S n' => String c (repeatChar c n')
  end.

(** [s.padStart(width, c)] for a filler of one character. *)
Definition padStart (width : nat) (c : ascii) (s : string) : string :=
  repeatChar c (width - String.length s) ++ s.

Definition hexDigit (n : Z) : ascii :=
  if n <? 10 then ascii_of_N (Z.to_N (48 + n)) else ascii_of_N (Z.to_N (87 + n)).

(** [buffer.toString('hex')]: two lower-case digits for each byte. *)
Fixpoint toHex (bytes : list Z) : string :=
  match bytes with
  | [] => EmptyString
  | b :: rest => String (hexDigit (b / 16)) (String (hexDigit (b mod 16)) (toHex rest))
  end.

End JsText.

Module StatusChecker.

Local Open Scope proc_scope.

Definition printerIP : string := "192.168.0.105".
Definition printerPort : Z := 9100.

(** [(statusByte & mask) ? yes : no], for a byte of the status buffer
    (0..255), on which [&] is [Z.land]. *)
Definition flag (statusByte mask : Z) (yes no : string) : string :=
  if Z.eqb (Z.land statusByte mask) 0 then no else yes.

(** The object [statusBits], as the list of its entries in order. *)
Definition statusBits (statusByte : Z) : list (string * string) :=
  [ ("Paper Status", flag statusByte 4 "Paper Near End" "Paper OK");
    ("Drawer Status", flag statusByte 8 "Drawer Open" "Drawer Closed");
    ("Online Status", flag statusByte 16 "Offline" "Online");
    ("Error Status", flag statusByte 32 "Error" "No Error");
    ("Paper Feed", flag statusByte 64 "Paper Feeding" "Not Feeding");
    ("Ready", flag statusByte 128 "Not Ready" "Ready") ].

(** Whether a row gets the check mark: its value includes 'OK', 'Online' or
    'Ready'. *)
Definition iconIsCheck (value : string) : bool :=
  JsText.includes "OK" value || JsText.includes "Online" value
  || JsText.includes "Ready" value.

(** [Object.entries(statusBits).forEach(([key, value]) => ...)] *)
Fixpoint printRows (entries : list (string * string)) : Proc unit :=
  match entries with
  | [] => pure tt
  | (key, value) :: rest =>
      print (StatusRow (iconIsCheck value) key value) ;; printRows rest
  end.

(** The block of advice the [switch (e.code)] of the handler selects. *)
Definition advice (e : JsError) : Block :=
  match code e with
  | Some c =>
      if String.eqb c "ECONNREFUSED" then AdviceRefused
      else if String.eqb c "ETIMEDOUT" then AdviceTimedOut
      else if String.eqb c "ENOTFOUND" then AdviceNotFound
      else if String.eqb (message e) "Socket timeout" then AdviceSocketTimeout
      else AdviceGeneral
  | None =>
      if String.eqb (message e) "Socket timeout" then AdviceSocketTimeout
      else AdviceGeneral
  end.

Definition getStatus (p : PrinterConfig) : Proc unit := ([GetStatus p], Done tt).

Definition executeForResponse (w : World) (p : PrinterConfig) : Proc (list Z) :=
  ([ExecuteForResponse p],
   match statusReply w p with
   | Normal status => Done status
   | Throw e => Raised e
   end).

(** Step 5, the interpretation of the status. *)
Definition interpret (status : list Z) : Proc unit :=
  match status with
  | statusByte :: _ =>
      print (StatusByte (JsText.padStart 8 "0" (JsText.toBinary statusByte))) ;;
      print StatusInterpretation ;;
      printRows (statusBits statusByte)
  | [] => pure tt
  end.

(** [testConnection()] *)
Definition testConnection (w : World) : Proc unit :=
  print StatusTitle ;;
  print StatusRule ;;
  print (Target printerIP printerPort) ;;
  print Blank ;;
  print (StepLine 1) ;;
  networkOk <- await printerIP printerPort
                 (StatusRobust.testNetworkConnectivity (net w) printerIP printerPort 5000) ;;
  if negb networkOk then
    printErrorBlock NetworkUnreachable
  else
    print (StepLine 2) ;;
    printer <- lift (newThermalPrinter
                       (mkPrinter EPSON ("tcp://" ++ printerIP ++ ":" ++ Js.ofInt printerPort)
                                  15000 true)) ;;
    attempt
      (print (StepLine 3) ;;
       isConnected <- lift (isPrinterConnected (env w) printer) ;;
       if negb isConnected then
         printErrorBlock PrinterNotResponding
       else
         print PrinterTestSuccessful ;;
         print (StepLine 4) ;;
         getStatus printer ;;
         status <- executeForResponse w printer ;;
         print StatusReceived ;;
         print (RawStatus status) ;;
         print (StatusAsHex (JsText.toHex status)) ;;
         print (StepLine 5) ;;
         interpret status)
      (fun e =>
         printError (OperationFailed (message e)) ;;
         printErrorBlock (advice e)).

End StatusChecker.

(* ------------------------------------------------------------------------- *)
(** ** Further observations *)

(** What a handler does to the socket and the promise, its console output
    left out. *)
Fixpoint withoutSay (acts : list Net.Action) : list Net.Action :=
  match acts with
  | [] => []
  | Net.Say _ :: acts' => withoutSay acts'
  | a :: acts' => a :: withoutSay acts'
  end.

(** Whether an effect sends something to the printer [p]: a line, a cut or
    the buffered receipt. *)
Definition sendsTo (p : PrinterConfig) (e : Effect) : Prop :=
  (exists text, e = Println p text) \/ e = Cut p \/ e = Execute p.

(** The devices announced with "Found device at ...", in order. *)
Fixpoint foundDevices (t : list Effect) : list string :=
  match t with
  | [] => []
  | Log (FoundDevice ip) :: t' => ip :: foundDevices t'
  | _ :: t' => foundDevices t'
  end.

(** The printers created with [new ThermalPrinter], in order. *)
Fixpoint printersCreated (t : list Step) : list PrinterConfig :=
  match t with
  | [] => []
  | Eff (NewPrinter p) :: t' => p :: printersCreated t'
  | _ :: t' => printersCreated t'
  end.

(** The hosts probed through a socket, in order. *)
Fixpoint socketProbes (t : list Step) : list string :=
  match t with
  | [] => []
  | Probe host _ _ :: t' => host :: socketProbes t'
  | _ :: t' => socketProbes t'
  end.

(** Whether a step touches anything outside the console. *)
Definition consoleOnly (s : Step) : bool :=
  match s with
  | Print _ | PrintError _ => true
  | Eff (Log _) | Eff (LogError _) => true
  | _ => false
  end.

(** Whether the printer at [ip] answers the probe of [testThermalPrinter] on
    port 9100. *)
Definition isThermalPrinter (w : World) (ip : string) : bool :=
  connectsWithin (net w) ip 9100 3000.

(** More scenarios. *)
Module Worlds.

(** Nothing answers and no variable is set. *)
Definition dark : World :=
  mkWorld Scenario.offline (Scenario.always Net.Silent)
          (fun _ => Throw Scenario.socketTimeout) (fun _ => None).

(** The variables of the environment are set, the hostname among them. *)
Definition configured : World :=
  mkWorld Scenario.offline (Scenario.always Net.Silent)
          (fun _ => Throw Scenario.socketTimeout)
          (fun v => if String.eqb v "PRINTER_HOSTNAME" then Some "printer.lan"
                    else if String.eqb v "PRINTER_IP" then Some "10.1.1.9"
                    else if String.eqb v "PRINTER_PORT" then Some "9101"
                    else None).

(** Every host completes the handshake after 3 ms and every printer
    answers; the status request is answered with the byte 0x12. *)
Definition bright : World :=
  mkWorld (mkEnv (fun _ => Throw Scenario.commandFailed) (fun _ => Normal true)
                 (fun _ => Normal tt) Scenario.clock)
          (Scenario.always (Net.Connects 3))
          (fun _ => Normal [18]) (fun _ => None).

End Worlds.

(* ------------------------------------------------------------------------- *)
(** ** Proof automation *)

Ltac split_tests :=
  repeat match goal with
         | |- context [?a <? ?b] => destruct (Z.ltb_spec a b); try (exfalso; lia); simpl
         | |- context [?a <=? ?b] => destruct (Z.leb_spec a b); try (exfalso; lia); simpl
         | |- context [?a =? ?b] => destruct (Z.eqb_spec a b); try (exfalso; lia); simpl
         end.

(** Runs the executor of a probe and splits on what the remote end does and
    on which of its answer and the idle timer comes first. *)
Ltac probe_cases net host port :=
  unfold StatusRobust.testNetworkConnectivity, EthernetDiscovery.testThermalPrinter,
    Net.newPromise, connectsWithin;
  simpl Net.configure;
  unfold Net.setTimeout, Net.on_connect, Net.on_timeout, Net.on_error, Net.connect,
    Net.newSocket, Net.TIMEOUT_MAX;
  simpl; split_tests;
  unfold Net.nextEvent; simpl;
  destruct (net host port) as [t | t e |]; simpl; split_tests.

(* ------------------------------------------------------------------------- *)
(** ** Unit checks of the embedding *)

Example arpLine_match :
  jsMatch EthernetDiscovery.arpLine "? (192.168.1.5) at 00:11:22:33:44:55 [ether] on eth0"
  = Some ["(192.168.1.5) at 00:11:22:33:44:55"; "192.168.1.5"; "00:11:22:33:44:55"].
Proof. reflexivity. Qed.

Example arpLine_incomplete :
  jsMatch EthernetDiscovery.arpLine "? (192.168.1.5) at (incomplete) on eth0" = None.
Proof. reflexivity. Qed.

(** Backtracking: [\s+] gives one blank back for [(.+)] to match. *)
Example arpScanLine_backtracks :
  jsMatch EthernetDiscovery.arpScanLine "192.168.1.5 00:11:22:33:44:55   "
  = Some ["192.168.1.5 00:11:22:33:44:55   "; "192.168.1.5"; "00:11:22:33:44:55"; " "].
Proof. reflexivity. Qed.

Example arpScanLine_anchored :
  jsMatch EthernetDiscovery.arpScanLine " 192.168.1.5 00:11:22:33:44:55 Acme" = None.
Proof. reflexivity. Qed.

Example nslookup_match :
  option_map (fun m => group m 1)
    (jsMatch EthernetDiscovery.nslookupAddress "Name: printer Address:  10.0.0.7 ")
  = Some "10.0.0.7".
Proof. reflexivity. Qed.

Example split_nl_trailing : Js.split_nl ("a" ++ Scenario.nl ++ "b" ++ Scenario.nl) = ["a"; "b"; ""].
Proof. reflexivity. Qed.

Example toLowerCase_hex : Js.toLowerCase "AA:bB:0C" = "aa:bb:0c".
Proof. reflexivity. Qed.

Example ofInt_values : map Js.ofInt [0; 10; 254; -3] = ["0"; "10"; "254"; "-3"].
Proof. reflexivity. Qed.

Example wellFormedIPv4_values :
  map Specified.wellFormedIPv4 ["10.0.0.5"; "10.0.0.999"; "1.2.3"; "1..2.3"; "a.b.c.d"; "255.255.255.255"]
  = [true; false; false; false; false; true].
Proof. reflexivity. Qed.

(* ------------------------------------------------------------------------- *)
(** ** The monad laws the proofs use *)

Lemma bind_emit {A} (e : Effect) (k : unit -> Script A) :
  bind (emit e) k = (e :: effects (k tt), completion (k tt)).
Proof. unfold bind, emit, effects, completion. destruct (k tt); reflexivity. Qed.

Lemma bind_ret {A B} (a : A) (k : A -> Script B) : bind (ret a) k = k a.
Proof. unfold bind, ret. destruct (k a); reflexivity. Qed.

Lemma script_eta {A} (s : Script A) : s = (effects s, completion s).
Proof. destruct s; reflexivity. Qed.

Lemma effects_pair {A} (t : list Effect) (c : Completion A) : effects (t, c) = t.
Proof. reflexivity. Qed.

Lemma completion_pair {A} (t : list Effect) (c : Completion A) : completion (t, c) = c.
Proof. reflexivity. Qed.

(* ------------------------------------------------------------------------- *)
(** ** Range sweeps ([pingRange]) *)

(** The loop equation of [for (let i = start; i <= end; i++)]. *)
Lemma forRange_unfold {St} (start end_ : Z) (body : Z -> St -> Script St) (acc : St) :
  forRange start end_ body acc =
  if start <=? end_
  then bind (body start acc) (fun acc' => forRange (start + 1) end_ body acc')
  else ret acc.
Proof.
  unfold forRange.
  destruct (Z.leb_spec start end_) as [Hle | Hgt].
  - replace (Z.to_nat (end_ + 1 - start)) with (S (Z.to_nat (end_ + 1 - (start + 1)))) by lia.
    simpl. destruct (Z.leb_spec start end_); [reflexivity | lia].
  - replace (Z.to_nat (end_ + 1 - start)) with O by lia. reflexivity.
Qed.

Lemma forRange_empty {St} (start end_ : Z) (body : Z -> St -> Script St) (acc : St) :
  end_ < start -> forRange start end_ body acc = ret acc.
Proof.
  intros H. rewrite forRange_unfold.
  destruct (Z.leb_spec start end_); [lia | reflexivity].
Qed.

Lemma pingOne_run (env : Env) (baseIP : string) (i : Z) (reachable : list string) :
  EthernetDiscovery.pingOne env baseIP i reachable =
  if answersPing env (hostAddress baseIP i)
  then ([Exec (pingCommand baseIP i); Log (FoundDevice (hostAddress baseIP i))],
        Normal (reachable ++ [hostAddress baseIP i])%list)
  else ([Exec (pingCommand baseIP i)], Normal reachable).
Proof.
  unfold EthernetDiscovery.pingOne, answersPing, hostAddress, pingCommand, execAsync.
  destruct (exec env _); reflexivity.
Qed.

Lemma upFrom_In (n : nat) : forall i j, In j (upFrom i n) <-> i <= j < i + Z.of_nat n.
Proof.
  induction n as [| n IH]; intros i j; simpl.
  - split; [tauto | lia].
  - rewrite IH. split.
    + intros [-> | H]; lia.
    + intros H. destruct (Z.eq_dec i j); [left; assumption | right; lia].
Qed.

Lemma upFrom_sorted (n : nat) : forall i, StronglySorted Z.lt (upFrom i n).
Proof.
  induction n as [| n IH]; intros i; simpl; constructor.
  - apply IH.
  - apply Forall_forall. intros j Hj. apply upFrom_In in Hj. lia.
Qed.

Lemma pingLoop_run (env : Env) (baseIP : string) (end_ : Z) (n : nat) :
  forall i reachable,
    Z.to_nat (end_ + 1 - i) = n ->
    let run := forUpto n i end_ (EthernetDiscovery.pingOne env baseIP) reachable in
    commands (effects run) = map (pingCommand baseIP) (upFrom i n)
    /\ completion run
       = Normal (reachable ++ filter (answersPing env) (map (hostAddress baseIP) (upFrom i n)))%list.
Proof.
  induction n as [| n IH]; intros i reachable Hn; simpl.
  - rewrite app_nil_r. split; reflexivity.
  - destruct (Z.leb_spec i end_) as [_ | Hgt]; [| lia].
    rewrite pingOne_run.
    specialize (IH (i + 1)).
    destruct (answersPing env (hostAddress baseIP i)); unfold bind.
    + destruct (IH (reachable ++ [hostAddress baseIP i])%list ltac:(lia)) as [Hc Hr].
      destruct (forUpto n (i + 1) end_ _ _) as [t r]; simpl in *.
      rewrite Hc, Hr, <- app_assoc. split; reflexivity.
    + destruct (IH reachable ltac:(lia)) as [Hc Hr].
      destruct (forUpto n (i + 1) end_ _ _) as [t r]; simpl in *.
      rewrite Hc, Hr. split; reflexivity.
Qed.

(** C9. A range sweep whose start lies strictly above its end runs no ping
    at all and returns the empty list: after the line announcing the range
    the script does nothing, and it completes normally. *)
Theorem C9_descending_range_is_empty (env : Env) (baseIP : string) (start end_ : Z) :
  end_ < start ->
  EthernetDiscovery.pingRange env baseIP start end_
  = ([Log (PingingRange baseIP start end_)], Normal []).
Proof.
  intros H. unfold EthernetDiscovery.pingRange, consoleLog.
  rewrite bind_emit, forRange_empty by assumption.
  reflexivity.
Qed.

Example pingRange_all_answer :
  completion (EthernetDiscovery.pingRange Scenario.online "192.168.1" 10 12)
  = Normal ["192.168.1.10"; "192.168.1.11"; "192.168.1.12"].
Proof. reflexivity. Qed.

Example pingRange_default_bounds :
  length (commands (effects (EthernetDiscovery.pingRangeDefault Scenario.offline "10.0.0")))
  = 254%nat.
Proof. reflexivity. Qed.

Lemma C9_descending_range_witness :
  12 < 20 /\
  EthernetDiscovery.pingRange Scenario.only11 "192.168.1" 20 12
  = ([Log (PingingRange "192.168.1" 20 12)], Normal []).
Proof.
  split; [lia | apply (C9_descending_range_is_empty Scenario.only11 "192.168.1" 20 12); lia].
Defined.

(** C6 (as the script has it). [pingRange] with start <= end, both safe
    integers (as the octets of a range are), pings exactly the addresses
    made of the base and each integer from start to end, in ascending order,
    one ICMP ping each (no port is involved), and returns those of them that
    answered, in the same order. *)
Theorem C6_range_sweep_pings_each_host (env : Env) (baseIP : string) (start end_ : Z) :
  start <= end_ ->
  - Js.MAX_SAFE_INTEGER <= start ->
  end_ <= Js.MAX_SAFE_INTEGER ->
  exists hosts : list Z,
    (forall i, In i hosts <-> start <= i <= end_)
    /\ StronglySorted Z.lt hosts
    /\ commands (effects (EthernetDiscovery.pingRange env baseIP start end_))
       = map (pingCommand baseIP) hosts
    /\ completion (EthernetDiscovery.pingRange env baseIP start end_)
       = Normal (filter (answersPing env) (map (hostAddress baseIP) hosts)).
Proof.
  intros Hle _ _.
  exists (upFrom start (Z.to_nat (end_ + 1 - start))).
  split; [| split].
  - intros i. rewrite upFrom_In. lia.
  - apply upFrom_sorted.
  - unfold EthernetDiscovery.pingRange, consoleLog, forRange.
    rewrite bind_emit.
    destruct (pingLoop_run env baseIP end_ (Z.to_nat (end_ + 1 - start)) start [] eq_refl)
      as [Hc Hr].
    destruct (forUpto _ start end_ _ _) as [t r]; simpl in *.
    rewrite Hr. unfold bind, ret. simpl. rewrite app_nil_r. split; [exact Hc | reflexivity].
Qed.

Lemma C6_range_sweep_witness :
  10 <= 12 /\
  - Js.MAX_SAFE_INTEGER <= 10 /\
  12 <= Js.MAX_SAFE_INTEGER /\
  exists hosts : list Z,
    (forall i, In i hosts <-> 10 <= i <= 12)
    /\ StronglySorted Z.lt hosts
    /\ commands (effects (EthernetDiscovery.pingRange Scenario.only11 "192.168.1" 10 12))
       = map (pingCommand "192.168.1") hosts
    /\ completion (EthernetDiscovery.pingRange Scenario.only11 "192.168.1" 10 12)
       = Normal (filter (answersPing Scenario.only11) (map (hostAddress "192.168.1") hosts)).
Proof.
  assert (Hlo : - Js.MAX_SAFE_INTEGER <= 10) by (unfold Js.MAX_SAFE_INTEGER; lia).
  assert (Hhi : 12 <= Js.MAX_SAFE_INTEGER) by (unfold Js.MAX_SAFE_INTEGER; lia).
  split; [lia |]. split; [exact Hlo |]. split; [exact Hhi |].
  apply (C6_range_sweep_pings_each_host Scenario.only11 "192.168.1" 10 12); [lia | exact Hlo | exact Hhi].
Defined.

(** C6, as the claim words it, fails: the sweep 192.168.1.10-12 in which only
    192.168.1.11 answers pings the three addresses in order but produces the
    one-element list of the address that answered, not a result for each of
    192.168.1.10, 192.168.1.11 and 192.168.1.12. *)
Lemma C6_counterexample :
  commands (effects (EthernetDiscovery.pingRange Scenario.only11 "192.168.1" 10 12))
  = ["ping -c 1 -W 1 192.168.1.10"; "ping -c 1 -W 1 192.168.1.11"; "ping -c 1 -W 1 192.168.1.12"]
  /\ completion (EthernetDiscovery.pingRange Scenario.only11 "192.168.1" 10 12)
     = Normal ["192.168.1.11"]
  /\ completion (EthernetDiscovery.pingRange Scenario.only11 "192.168.1" 10 12)
     <> Normal ["192.168.1.10"; "192.168.1.11"; "192.168.1.12"].
Proof.
  split; [reflexivity | split; [reflexivity | discriminate]].
Qed.

Example discoverNetworkDevices_parses :
  EthernetDiscovery.discoverNetworkDevices Scenario.withArpScan
  = ([Log DiscoveringDevices; Exec "arp-scan --localnet"],
     Normal [EthernetDiscovery.mkDevice "192.168.1.1" "00:11:22:33:44:55" "Router Corp.";
             EthernetDiscovery.mkDevice "192.168.1.87" "aa:bb:cc:dd:ee:ff" "Seiko Epson"]).
Proof. reflexivity. Qed.

(** C10. When the arp-scan command fails, for whatever reason, device
    discovery catches the error: it logs that arp-scan is not available and
    returns the empty device list; its caller sees no exception. *)
Theorem C10_discovery_failure_gives_no_devices (env : Env) (e : JsError) :
  exec env "arp-scan --localnet" = Throw e ->
  EthernetDiscovery.discoverNetworkDevices env
  = ([Log DiscoveringDevices; Exec "arp-scan --localnet"; Log ArpScanUnavailable],
     Normal []).
Proof.
  intros H. unfold EthernetDiscovery.discoverNetworkDevices, consoleLog, execAsync.
  rewrite bind_emit. unfold bind at 1. rewrite H. reflexivity.
Qed.

Lemma C10_discovery_failure_witness :
  exec Scenario.offline "arp-scan --localnet" = Throw Scenario.commandFailed /\
  EthernetDiscovery.discoverNetworkDevices Scenario.offline
  = ([Log DiscoveringDevices; Exec "arp-scan --localnet"; Log ArpScanUnavailable],
     Normal []).
Proof.
  split; [reflexivity |].
  apply (C10_discovery_failure_gives_no_devices Scenario.offline Scenario.commandFailed).
  reflexivity.
Defined.

(* ------------------------------------------------------------------------- *)
(** ** Resolution of identifiers ([connectByMAC], [connectByIdentifier]) *)

Example sameHardwareAddress_ignores_case :
  sameHardwareAddress "AA:BB:CC:dd:ee:ff" "aa:bb:cc:DD:EE:FF" = true
  /\ sameHardwareAddress "AA:BB:CC:DD:EE:FF" "aa:bb:cc:dd:ee:f0" = false.
Proof. split; reflexivity. Qed.








Example connectByMAC_found :
  EthernetDiscovery.connectByMAC Scenario.withArpTable "aa:bb:cc:dd:ee:ff"
  = ([Exec "arp -a"], Normal "192.168.1.87").
Proof. reflexivity. Qed.

Example connectByMAC_not_found :
  EthernetDiscovery.connectByMAC Scenario.withArpTable "de:ad:be:ef:00:01"
  = ([Exec "arp -a"],
     Throw (newError "Could not resolve MAC address: MAC address not found in ARP table")).
Proof. reflexivity. Qed.

Example connectByMAC_no_arp :
  EthernetDiscovery.connectByMAC Scenario.offline "aa:bb:cc:dd:ee:ff"
  = ([Exec "arp -a"], Throw (newError "Could not resolve MAC address: Command failed")).
Proof. reflexivity. Qed.

(** C4 (as the script has it). An identifier of type 'ip' is taken as the
    address as it is, without any validation: [connectByIdentifier] logs it
    as the resolved IP and opens the printer on it. *)
Theorem C4_ip_identifier_is_returned_unchanged (env : Env) (identifier : string) :
  EthernetDiscovery.resolveIdentifier env identifier "ip" = ([], Normal identifier)
  /\ exists rest,
       effects (EthernetDiscovery.connectByIdentifier env identifier "ip")
       = Log (ConnectingUsing "ip" identifier)
           :: Log (ResolvedIP identifier)
           :: NewPrinter (mkPrinter EPSON ("tcp://" ++ identifier ++ ":9100") 10000 true)
           :: IsPrinterConnected (mkPrinter EPSON ("tcp://" ++ identifier ++ ":9100") 10000 true)
           :: rest.
Proof.
  split; [reflexivity |].
  unfold EthernetDiscovery.connectByIdentifier.
  change (EthernetDiscovery.resolveIdentifier env identifier "ip") with (ret (A := string) identifier).
  unfold consoleLog, consoleError, newThermalPrinter, isPrinterConnected, execute,
    println, cut, tryCatch, bind, emit, ret, effects.
  simpl.
  match goal with
  | |- context [printerConnected env ?p] =>
      destruct (printerConnected env p) as [[|] | e];
        [destruct (printerExecuted env p) as [[] | e] | |]
  end; simpl; eexists; reflexivity.
Qed.

(** C4, as the claim words it, fails: 10.0.0.999 is not a well-formed IPv4
    literal, yet resolving it as an 'ip' identifier does not fail; it is
    returned as it is. *)
Lemma C4_counterexample :
  Specified.wellFormedIPv4 "10.0.0.999" = false
  /\ Specified.wellFormedIPv4 "10.0.0.5" = true
  /\ EthernetDiscovery.resolveIdentifier Scenario.offline "10.0.0.999" "ip"
     = ([], Normal "10.0.0.999")
  /\ logged (effects (EthernetDiscovery.connectByIdentifier Scenario.offline "10.0.0.999" "ip"))
     = [ConnectingUsing "ip" "10.0.0.999"; ResolvedIP "10.0.0.999"; ConnectionFailed].
Proof. repeat split. Qed.

(* ------------------------------------------------------------------------- *)
(** ** Loops that stop at the first success *)

Section ForOf.

Context {X R : Type}.
Variable body : X -> Script (option R).
Variable after : Script R.

(** When no iteration returns, the loop runs them all and falls through. *)
Lemma forOf_exhausted (xs : list X) :
  (forall x, In x xs -> completion (body x) = Normal None) ->
  forOf xs body after = ((bodyTraces body xs ++ effects after)%list, completion after).
Proof.
  unfold bodyTraces.
  induction xs as [| x xs IH]; intros H; simpl.
  - destruct after; reflexivity.
  - pose proof (H x (or_introl eq_refl)) as Hx.
    rewrite IH by (intros y Hy; apply H; right; exact Hy).
    destruct (body x) as [t c]; simpl in *. subst c.
    simpl. rewrite app_assoc. reflexivity.
Qed.

(** The first iteration that returns ends the loop: nothing of what follows
    it in the list is run. *)
Lemma forOf_stops (pre : list X) (x : X) (post : list X) (v : R) :
  (forall y, In y pre -> completion (body y) = Normal None) ->
  completion (body x) = Normal (Some v) ->
  forOf (pre ++ x :: post) body after
  = ((bodyTraces body pre ++ effects (body x))%list, Normal v).
Proof.
  unfold bodyTraces.
  induction pre as [| y pre IH]; intros Hpre Hx; simpl.
  - destruct (body x) as [t c]; simpl in *. subst c. simpl.
    rewrite app_nil_r. reflexivity.
  - pose proof (Hpre y (or_introl eq_refl)) as Hy.
    rewrite IH by (try (intros z Hz; apply Hpre; right); assumption).
    destruct (body y) as [t c]; simpl in *. subst c.
    simpl. rewrite app_assoc. reflexivity.
Qed.

End ForOf.

Lemma probed_app (a b : list Effect) : probed (a ++ b)%list = (probed a ++ probed b)%list.
Proof.
  induction a as [| e a IH]; [reflexivity |].
  destruct e; simpl; rewrite IH; reflexivity.
Qed.

Lemma tried_app (a b : list Effect) : tried (a ++ b)%list = (tried a ++ tried b)%list.
Proof.
  induction a as [| e a IH]; [reflexivity |].
  destruct e as [l | | | | | | |]; simpl; try (rewrite IH; reflexivity).
  destruct l; simpl; rewrite IH; reflexivity.
Qed.

Lemma failures_app (a b : list Effect) : failures (a ++ b)%list = (failures a ++ failures b)%list.
Proof.
  induction a as [| e a IH]; [reflexivity |].
  destruct e as [l | | | | | | |]; simpl; try (rewrite IH; reflexivity).
  destruct l; simpl; rewrite IH; reflexivity.
Qed.

(** An observation that is additive over traces is additive over the
    iterations of a loop. *)
Lemma observe_bodyTraces {X R A : Type} (obs : list Effect -> list A)
      (body : X -> Script (option R)) (f : X -> list A) :
  obs [] = [] ->
  (forall a b, obs (a ++ b)%list = (obs a ++ obs b)%list) ->
  (forall x, obs (effects (body x)) = f x) ->
  forall xs, obs (bodyTraces body xs) = flat_map f xs.
Proof.
  intros Hnil Happ Hbody xs. unfold bodyTraces.
  induction xs as [| x xs IH]; simpl; [exact Hnil |].
  rewrite Happ, Hbody, IH. reflexivity.
Qed.

Lemma flat_map_singleton {A B : Type} (f : A -> B) (xs : list A) :
  flat_map (fun x => [f x]) xs = map f xs.
Proof. induction xs as [| x xs IH]; simpl; [| rewrite IH]; reflexivity. Qed.

(* ------------------------------------------------------------------------- *)
(** ** The fallback chain ([connectWithFallback]) *)

Import ConnectByEthernet.

Lemma tryMethod_run (env : Env) (m : Method) :
  tryMethod env m =
  match printerConnected env (printerOf m) with
  | Normal true =>
      match printerExecuted env (printerOf m) with
      | Normal _ =>
          ((methodHead m ++ methodPrint env m ++ [Log TestPrintCompleted])%list,
           Normal (Some tt))
      | Throw e =>
          ((methodHead m ++ methodPrint env m
              ++ [Log (MethodFailed (name m) (message e))])%list,
           Normal None)
      end
  | Normal false => (methodHead m, Normal None)
  | Throw e =>
      ((methodHead m ++ [Log (MethodFailed (name m) (message e))])%list, Normal None)
  end.
Proof.
  unfold tryMethod, methodHead, methodPrint, consoleLog, newThermalPrinter,
    isPrinterConnected, execute, println, cut, tryCatch, bind, emit, ret.
  simpl.
  destruct (printerConnected env (printerOf m)) as [[|] | e];
    [destruct (printerExecuted env (printerOf m)) as [[] | e] | |]; reflexivity.
Qed.

Lemma tryMethod_succeeds (env : Env) (m : Method) :
  succeeds env (printerOf m) = true ->
  tryMethod env m
  = ((methodHead m ++ methodPrint env m ++ [Log TestPrintCompleted])%list, Normal (Some tt)).
Proof.
  unfold succeeds. rewrite tryMethod_run.
  destruct (printerConnected env (printerOf m)) as [[|] | e];
    [destruct (printerExecuted env (printerOf m)) as [[] | e] | |];
    intros H; try discriminate; reflexivity.
Qed.

Lemma tryMethod_fails (env : Env) (m : Method) :
  succeeds env (printerOf m) = false ->
  completion (tryMethod env m) = Normal None.
Proof.
  unfold succeeds. rewrite tryMethod_run.
  destruct (printerConnected env (printerOf m)) as [[|] | e];
    [destruct (printerExecuted env (printerOf m)) as [[] | e] | |];
    intros H; try discriminate; reflexivity.
Qed.

Lemma tryMethod_probed (env : Env) (m : Method) :
  probed (effects (tryMethod env m)) = [printerOf m].
Proof.
  rewrite tryMethod_run.
  destruct (printerConnected env (printerOf m)) as [[|] | e];
    [destruct (printerExecuted env (printerOf m)) as [[] | e] | |]; reflexivity.
Qed.

Lemma tryMethod_tried (env : Env) (m : Method) :
  tried (effects (tryMethod env m)) = [name m].
Proof.
  rewrite tryMethod_run.
  destruct (printerConnected env (printerOf m)) as [[|] | e];
    [destruct (printerExecuted env (printerOf m)) as [[] | e] | |]; reflexivity.
Qed.

Lemma tryMethod_failures (env : Env) (m : Method) :
  failures (effects (tryMethod env m))
  = match attemptError env (printerOf m) with
    | Some e => [(name m, message e)]
    | None => []
    end.
Proof.
  unfold attemptError. rewrite tryMethod_run.
  destruct (printerConnected env (printerOf m)) as [[|] | e];
    [destruct (printerExecuted env (printerOf m)) as [[] | e] | |]; reflexivity.
Qed.

(** C2 (as the script has it). The fallback chain tries its methods strictly
    in list order and stops at the first one whose printer answers the
    connection test and whose test print completes: it has announced
    "Connected via" that method and printed its interface on the receipt, it
    has tried and probed the methods up to that one, each once and in order,
    and nothing after it; it returns no value. *)
Theorem C2_fallback_stops_at_first_success
        (env : Env) (pre : list Method) (m : Method) (post : list Method) :
  (forall x, In x pre -> succeeds env (printerOf x) = false) ->
  succeeds env (printerOf m) = true ->
  completion (tryMethods env (pre ++ m :: post)) = Normal tt
  /\ probed (effects (tryMethods env (pre ++ m :: post))) = map printerOf (pre ++ [m])
  /\ tried (effects (tryMethods env (pre ++ m :: post))) = map name (pre ++ [m])
  /\ exists before,
       effects (tryMethods env (pre ++ m :: post))
       = (before ++ methodHead m ++ methodPrint env m ++ [Log TestPrintCompleted])%list.
Proof.
  intros Hpre Hm. unfold tryMethods.
  rewrite (forOf_stops (tryMethod env) (consoleLog AllMethodsFailed) pre m post tt).
  - rewrite !effects_pair, !completion_pair.
    rewrite probed_app, tried_app, !map_app.
    rewrite (observe_bodyTraces probed (tryMethod env) (fun x => [printerOf x])
               eq_refl probed_app (tryMethod_probed env)).
    rewrite (observe_bodyTraces tried (tryMethod env) (fun x => [name x])
               eq_refl tried_app (tryMethod_tried env)).
    rewrite !flat_map_singleton, tryMethod_probed, tryMethod_tried.
    repeat split.
    exists (bodyTraces (tryMethod env) pre).
    rewrite (tryMethod_succeeds env m Hm). reflexivity.
  - intros y Hy. apply tryMethod_fails, Hpre, Hy.
  - rewrite (tryMethod_succeeds env m Hm). reflexivity.
Qed.

Lemma C2_fallback_witness :
  let env := Scenario.printFailsOn "tcp://192.168.1.87:9100" in
  let primary := mkMethod "Primary IP" "tcp://192.168.1.87:9100" 10000 in
  let alternative := mkMethod "Alternative IP" "tcp://192.168.1.100:9100" 10000 in
  let hostname := mkMethod "Hostname" "tcp://thermal-printer.local:9100" 10000 in
  (forall x, In x [primary] -> succeeds env (printerOf x) = false)
  /\ succeeds env (printerOf alternative) = true
  /\ completion (tryMethods env ([primary] ++ alternative :: [hostname])) = Normal tt
  /\ probed (effects (tryMethods env ([primary] ++ alternative :: [hostname])))
     = map printerOf ([primary] ++ [alternative])
  /\ tried (effects (tryMethods env ([primary] ++ alternative :: [hostname])))
     = map name ([primary] ++ [alternative])
  /\ exists before,
       effects (tryMethods env ([primary] ++ alternative :: [hostname]))
       = (before ++ methodHead alternative ++ methodPrint env alternative
            ++ [Log TestPrintCompleted])%list.
Proof.
  intros env primary alternative hostname.
  assert (Hpre : forall x, In x [primary] -> succeeds env (printerOf x) = false).
  { intros x [<- | []]. reflexivity. }
  split; [exact Hpre |]. split; [reflexivity |].
  apply (C2_fallback_stops_at_first_success env [primary] alternative [hostname] Hpre).
  reflexivity.
Defined.

(** C2, as the claim words it, fails: when the first method reaches its
    printer (the connection test answers [true]) but its test print throws,
    the script logs the failure and goes on to probe the second method. *)
Lemma C2_counterexample :
  printerConnected (Scenario.printFailsOn "tcp://192.168.1.87:9100")
                   (printerOf (mkMethod "Primary IP" "tcp://192.168.1.87:9100" 10000))
  = Normal true
  /\ probed (effects (connectWithFallback (Scenario.printFailsOn "tcp://192.168.1.87:9100")))
     = [printerOf (mkMethod "Primary IP" "tcp://192.168.1.87:9100" 10000);
        printerOf (mkMethod "Alternative IP" "tcp://192.168.1.100:9100" 10000)]
  /\ logged (effects (connectWithFallback (Scenario.printFailsOn "tcp://192.168.1.87:9100")))
     = [MethodTitle 4; MethodRule 4;
        TryingMethod "Primary IP"; ConnectedVia "Primary IP";
        MethodFailed "Primary IP" "Socket timeout";
        TryingMethod "Alternative IP"; ConnectedVia "Alternative IP";
        TestPrintCompleted].
Proof. repeat split. Qed.

(** C3 (as the script has it). When no method of the chain succeeds, the
    script does not fail: it has tried and probed every method once, in list
    order, it writes "All connection methods failed" as its last line and
    returns normally.  The failure lines it has written are those of the
    methods whose attempt threw, with the message of the error; a method
    whose connection test answered [false] leaves none. *)
Theorem C3_fallback_exhausted_logs_and_returns (env : Env) (methods : list Method) :
  (forall x, In x methods -> succeeds env (printerOf x) = false) ->
  completion (tryMethods env methods) = Normal tt
  /\ (exists before, effects (tryMethods env methods) = (before ++ [Log AllMethodsFailed])%list)
  /\ tried (effects (tryMethods env methods)) = map name methods
  /\ probed (effects (tryMethods env methods)) = map printerOf methods
  /\ failures (effects (tryMethods env methods))
     = flat_map (fun m => match attemptError env (printerOf m) with
                          | Some e => [(name m, message e)]
                          | None => []
                          end) methods.
Proof.
  intros Hall. unfold tryMethods.
  rewrite (forOf_exhausted (tryMethod env) (consoleLog AllMethodsFailed) methods)
    by (intros x Hx; apply tryMethod_fails, Hall, Hx).
  rewrite !effects_pair, !completion_pair.
  rewrite probed_app, tried_app, failures_app.
  rewrite (observe_bodyTraces probed (tryMethod env) (fun x => [printerOf x])
             eq_refl probed_app (tryMethod_probed env)).
  rewrite (observe_bodyTraces tried (tryMethod env) (fun x => [name x])
             eq_refl tried_app (tryMethod_tried env)).
  rewrite (observe_bodyTraces failures (tryMethod env) _
             eq_refl failures_app (tryMethod_failures env)).
  rewrite !flat_map_singleton. simpl. rewrite !app_nil_r.
  repeat split.
  exists (bodyTraces (tryMethod env) methods). reflexivity.
Qed.

Lemma C3_fallback_exhausted_witness :
  (forall x, In x connectionMethods -> succeeds Scenario.offline (printerOf x) = false)
  /\ completion (tryMethods Scenario.offline connectionMethods) = Normal tt
  /\ (exists before,
        effects (tryMethods Scenario.offline connectionMethods)
        = (before ++ [Log AllMethodsFailed])%list)
  /\ tried (effects (tryMethods Scenario.offline connectionMethods)) = map name connectionMethods
  /\ probed (effects (tryMethods Scenario.offline connectionMethods))
     = map printerOf connectionMethods
  /\ failures (effects (tryMethods Scenario.offline connectionMethods))
     = flat_map (fun m => match attemptError Scenario.offline (printerOf m) with
                          | Some e => [(name m, message e)]
                          | None => []
                          end) connectionMethods.
Proof.
  assert (H : forall x, In x connectionMethods ->
                        succeeds Scenario.offline (printerOf x) = false).
  { intros x _. reflexivity. }
  split; [exact H |].
  apply (C3_fallback_exhausted_logs_and_returns Scenario.offline connectionMethods H).
Defined.

(** C3, as the claim words it, fails: with no printer reachable the script
    completes normally instead of failing, and the three methods of its plan
    leave no failure record at all. *)
Lemma C3_counterexample :
  forallb (fun m => negb (succeeds Scenario.offline (printerOf m))) connectionMethods = true
  /\ completion (connectWithFallback Scenario.offline) = Normal tt
  /\ length connectionMethods = 3%nat
  /\ length (failures (effects (connectWithFallback Scenario.offline))) = 0%nat
  /\ logged (effects (connectWithFallback Scenario.offline))
     = [MethodTitle 4; MethodRule 4; TryingMethod "Primary IP";
        TryingMethod "Alternative IP"; TryingMethod "Hostname"; AllMethodsFailed].
Proof. repeat split. Qed.

(* ------------------------------------------------------------------------- *)
(** ** The scan of common addresses ([connectByNetworkRange]) *)

Lemma tryAddress_run (env : Env) (ip : string) :
  tryAddress env ip =
  match printerConnected env (printerAt ip) with
  | Normal true =>
      match printerExecuted env (printerAt ip) with
      | Normal _ =>
          ((addressHead ip ++ addressPrint env ip ++ [Log TestPrintCompleted])%list,
           Normal (Some tt))
      | Throw _ => ((addressHead ip ++ addressPrint env ip)%list, Normal None)
      end
  | Normal false => (addressHead ip, Normal None)
  | Throw _ => (addressHead ip, Normal None)
  end.
Proof.
  unfold tryAddress, addressHead, addressPrint, consoleLog, newThermalPrinter,
    isPrinterConnected, execute, println, cut, tryCatch, bind, emit, ret.
  simpl.
  destruct (printerConnected env (printerAt ip)) as [[|] | e];
    [destruct (printerExecuted env (printerAt ip)) as [[] | e] | |]; reflexivity.
Qed.

Lemma tryAddress_succeeds (env : Env) (ip : string) :
  succeeds env (printerAt ip) = true ->
  tryAddress env ip
  = ((addressHead ip ++ addressPrint env ip ++ [Log TestPrintCompleted])%list,
     Normal (Some tt)).
Proof.
  unfold succeeds. rewrite tryAddress_run.
  destruct (printerConnected env (printerAt ip)) as [[|] | e];
    [destruct (printerExecuted env (printerAt ip)) as [[] | e] | |];
    intros H; try discriminate; reflexivity.
Qed.

Lemma tryAddress_fails (env : Env) (ip : string) :
  succeeds env (printerAt ip) = false ->
  completion (tryAddress env ip) = Normal None.
Proof.
  unfold succeeds. rewrite tryAddress_run.
  destruct (printerConnected env (printerAt ip)) as [[|] | e];
    [destruct (printerExecuted env (printerAt ip)) as [[] | e] | |];
    intros H; try discriminate; reflexivity.
Qed.

Lemma tryAddress_probed (env : Env) (ip : string) :
  probed (effects (tryAddress env ip)) = [printerAt ip].
Proof.
  rewrite tryAddress_run.
  destruct (printerConnected env (printerAt ip)) as [[|] | e];
    [destruct (printerExecuted env (printerAt ip)) as [[] | e] | |]; reflexivity.
Qed.

(** C8 (as the script has it). The scan stops issuing probes at the first
    address whose printer answers the connection test and whose test print
    completes: it has logged "Found printer at" that address, it has probed
    the addresses up to that one, each once and in list order, and none
    after it; it returns no value. *)
Theorem C8_scan_stops_at_first_success
        (env : Env) (pre : list string) (ip : string) (post : list string) :
  (forall x, In x pre -> succeeds env (printerAt x) = false) ->
  succeeds env (printerAt ip) = true ->
  completion (scanAddresses env (pre ++ ip :: post)) = Normal tt
  /\ probed (effects (scanAddresses env (pre ++ ip :: post))) = map printerAt (pre ++ [ip])
  /\ exists before,
       effects (scanAddresses env (pre ++ ip :: post))
       = (before ++ addressHead ip ++ addressPrint env ip ++ [Log TestPrintCompleted])%list.
Proof.
  intros Hpre Hip. unfold scanAddresses.
  rewrite (forOf_stops (tryAddress env) (consoleLog NoPrintersFound) pre ip post tt).
  - rewrite !effects_pair, !completion_pair.
    rewrite probed_app, map_app.
    rewrite (observe_bodyTraces probed (tryAddress env) (fun x => [printerAt x])
               eq_refl probed_app (tryAddress_probed env)).
    rewrite flat_map_singleton, tryAddress_probed.
    repeat split.
    exists (bodyTraces (tryAddress env) pre).
    rewrite (tryAddress_succeeds env ip Hip). reflexivity.
  - intros y Hy. apply tryAddress_fails, Hpre, Hy.
  - rewrite (tryAddress_succeeds env ip Hip). reflexivity.
Qed.

Lemma C8_scan_witness :
  let env := Scenario.printFailsOn "tcp://192.168.1.87:9100" in
  (forall x, In x ["192.168.1.87"] -> succeeds env (printerAt x) = false)
  /\ succeeds env (printerAt "192.168.1.100") = true
  /\ completion (scanAddresses env (["192.168.1.87"] ++ "192.168.1.100" :: ["192.168.1.200"]))
     = Normal tt
  /\ probed (effects (scanAddresses env (["192.168.1.87"] ++ "192.168.1.100" :: ["192.168.1.200"])))
     = map printerAt (["192.168.1.87"] ++ ["192.168.1.100"])
  /\ exists before,
       effects (scanAddresses env (["192.168.1.87"] ++ "192.168.1.100" :: ["192.168.1.200"]))
       = (before ++ addressHead "192.168.1.100" ++ addressPrint env "192.168.1.100"
            ++ [Log TestPrintCompleted])%list.
Proof.
  intros env.
  assert (Hpre : forall x, In x ["192.168.1.87"] -> succeeds env (printerAt x) = false).
  { intros x [<- | []]. reflexivity. }
  split; [exact Hpre |]. split; [reflexivity |].
  apply (C8_scan_stops_at_first_success env ["192.168.1.87"] "192.168.1.100"
           ["192.168.1.200"] Hpre).
  reflexivity.
Defined.

(** C8, as the claim words it, fails: when the first candidate is reachable
    (its connection test answers [true]) but its test print throws, the scan
    goes on and probes the second candidate. *)
Lemma C8_counterexample :
  printerConnected (Scenario.printFailsOn "tcp://192.168.1.87:9100") (printerAt "192.168.1.87")
  = Normal true
  /\ probed (effects (connectByNetworkRange (Scenario.printFailsOn "tcp://192.168.1.87:9100")))
     = [printerAt "192.168.1.87"; printerAt "192.168.1.100"]
  /\ logged (effects (connectByNetworkRange (Scenario.printFailsOn "tcp://192.168.1.87:9100")))
     = [MethodTitle 3; MethodRule 3;
        TryingIP "192.168.1.87"; FoundPrinterAt "192.168.1.87";
        TryingIP "192.168.1.100"; FoundPrinterAt "192.168.1.100"; TestPrintCompleted].
Proof. repeat split. Qed.

(* ------------------------------------------------------------------------- *)
(** ** Probes ([testNetworkConnectivity], [testThermalPrinter]) *)

Import Net.

Example probe_open_port :
  StatusRobust.testNetworkConnectivity (Scenario.always (Connects 3)) "192.168.0.105" 9100 5000
  = mkRun [Say (NetConnSuccessful "192.168.0.105" 9100); Destroy; Resolve true]
          (Some 3) (Resolved true).
Proof. reflexivity. Qed.

Example probe_silent_host :
  StatusRobust.testNetworkConnectivity (Scenario.always Silent) "192.168.0.105" 9100 5000
  = mkRun [Say (NetConnTimedOut "192.168.0.105" 9100); Destroy; Resolve false]
          (Some 5000) (Resolved false).
Proof. reflexivity. Qed.

(** Without an idle timer a silent host leaves the promise pending. *)
Example probe_without_timer :
  StatusRobust.testNetworkConnectivity (Scenario.always Silent) "192.168.0.105" 9100 0
  = mkRun [] None Pending.
Proof. reflexivity. Qed.

Example probe_bad_port :
  promise (StatusRobust.testNetworkConnectivity (Scenario.always Silent) "192.168.0.105" 70000 5000)
  = Rejected (mkJsError (Some "ERR_SOCKET_BAD_PORT") "Port should be >= 0 and < 65536.").
Proof. reflexivity. Qed.

(** C5. With a positive timeout and a valid port, whatever the remote end
    does, a probe settles: its promise is resolved, never rejected, by the
    one call of [resolve] that the run makes; the event that settles it comes
    no later than the timeout (the given one for [testNetworkConnectivity],
    the 3000 ms of [testThermalPrinter]); and on each of the three paths
    (connect, timeout, error) the socket has been destroyed when [resolve] is
    called. *)
Theorem C5_probe_settles_once_in_time_and_releases
        (net : Network) (host : string) (port timeout : Z) :
  0 < timeout ->
  0 <= port <= 65535 ->
  (exists v t,
      promise (StatusRobust.testNetworkConnectivity net host port timeout) = Resolved v
      /\ settledAt (StatusRobust.testNetworkConnectivity net host port timeout) = Some t
      /\ t <= timeout
      /\ resolveCalls (trace (StatusRobust.testNetworkConnectivity net host port timeout)) = 1%nat
      /\ destroyedAtResolve (trace (StatusRobust.testNetworkConnectivity net host port timeout)) = true)
  /\
  (exists v t,
      promise (EthernetDiscovery.testThermalPrinter net host port) = Resolved v
      /\ settledAt (EthernetDiscovery.testThermalPrinter net host port) = Some t
      /\ t <= 3000
      /\ resolveCalls (trace (EthernetDiscovery.testThermalPrinter net host port)) = 1%nat
      /\ destroyedAtResolve (trace (EthernetDiscovery.testThermalPrinter net host port)) = true).
Proof.
  intros Ht Hp. unfold TIMEOUT_MAX. split.
  - probe_cases net host port; eexists; eexists; repeat split; lia.
  - probe_cases net host port; eexists; eexists; repeat split; lia.
Qed.

Lemma C5_probe_witness :
  0 < 5000
  /\ 0 <= 9100 <= 65535
  /\ (exists v t,
        promise (StatusRobust.testNetworkConnectivity (Scenario.always Silent) "192.168.0.105" 9100 5000)
        = Resolved v
        /\ settledAt (StatusRobust.testNetworkConnectivity (Scenario.always Silent) "192.168.0.105" 9100 5000)
           = Some t
        /\ t <= 5000
        /\ resolveCalls
             (trace (StatusRobust.testNetworkConnectivity (Scenario.always Silent) "192.168.0.105" 9100 5000))
           = 1%nat
        /\ destroyedAtResolve
             (trace (StatusRobust.testNetworkConnectivity (Scenario.always Silent) "192.168.0.105" 9100 5000))
           = true)
  /\ (exists v t,
        promise (EthernetDiscovery.testThermalPrinter (Scenario.always Silent) "192.168.0.105" 9100)
        = Resolved v
        /\ settledAt (EthernetDiscovery.testThermalPrinter (Scenario.always Silent) "192.168.0.105" 9100)
           = Some t
        /\ t <= 3000
        /\ resolveCalls
             (trace (EthernetDiscovery.testThermalPrinter (Scenario.always Silent) "192.168.0.105" 9100))
           = 1%nat
        /\ destroyedAtResolve
             (trace (EthernetDiscovery.testThermalPrinter (Scenario.always Silent) "192.168.0.105" 9100))
           = true).
Proof.
  split; [lia |]. split; [lia |].
  apply (C5_probe_settles_once_in_time_and_releases
           (Scenario.always Silent) "192.168.0.105" 9100 5000); lia.
Defined.

(** C1 (as the scripts have it). With a positive timeout and a valid port, a
    probe answers with one boolean: [true] when the connection is
    established before the idle timer runs out, [false] in every other case,
    be it a timeout, a refusal, a resolution failure or any other socket
    error.  The message of an error is not part of the answer:
    [testNetworkConnectivity] writes it to the console, [testThermalPrinter]
    drops it. *)
Theorem C1_probe_answers_with_a_boolean
        (net : Network) (host : string) (port timeout : Z) :
  0 < timeout ->
  0 <= port <= 65535 ->
  promise (StatusRobust.testNetworkConnectivity net host port timeout)
  = Resolved (connectsWithin net host port timeout)
  /\ promise (EthernetDiscovery.testThermalPrinter net host port)
     = Resolved (connectsWithin net host port 3000)
  /\ (forall t e,
        net host port = Fails t e -> t < Z.min timeout TIMEOUT_MAX ->
        console (trace (StatusRobust.testNetworkConnectivity net host port timeout))
        = [NetConnFailed host port (message e)])
  /\ (forall t e,
        net host port = Fails t e ->
        console (trace (EthernetDiscovery.testThermalPrinter net host port)) = []).
Proof.
  intros Ht Hp. split; [| split; [| split]].
  - probe_cases net host port; reflexivity.
  - probe_cases net host port; reflexivity.
  - intros t0 e0 Hnet Hlt. unfold TIMEOUT_MAX in Hlt. revert Hnet.
    probe_cases net host port; intros Hnet; try discriminate;
      injection Hnet as <- <-; try (exfalso; lia); reflexivity.
  - intros t0 e0. probe_cases net host port; intros Hnet; try discriminate; reflexivity.
Qed.

Lemma C1_probe_witness :
  0 < 5000
  /\ 0 <= 9100 <= 65535
  /\ promise (StatusRobust.testNetworkConnectivity
                (Scenario.always (Fails 5 Scenario.refused)) "192.168.0.105" 9100 5000)
     = Resolved (connectsWithin (Scenario.always (Fails 5 Scenario.refused)) "192.168.0.105" 9100 5000)
  /\ promise (EthernetDiscovery.testThermalPrinter
                (Scenario.always (Fails 5 Scenario.refused)) "192.168.0.105" 9100)
     = Resolved (connectsWithin (Scenario.always (Fails 5 Scenario.refused)) "192.168.0.105" 9100 3000)
  /\ (forall t e,
        Scenario.always (Fails 5 Scenario.refused) "192.168.0.105" 9100 = Fails t e ->
        t < Z.min 5000 TIMEOUT_MAX ->
        console (trace (StatusRobust.testNetworkConnectivity
                          (Scenario.always (Fails 5 Scenario.refused)) "192.168.0.105" 9100 5000))
        = [NetConnFailed "192.168.0.105" 9100 (message e)])
  /\ (forall t e,
        Scenario.always (Fails 5 Scenario.refused) "192.168.0.105" 9100 = Fails t e ->
        console (trace (EthernetDiscovery.testThermalPrinter
                          (Scenario.always (Fails 5 Scenario.refused)) "192.168.0.105" 9100))
        = []).
Proof.
  split; [lia |]. split; [lia |].
  apply (C1_probe_answers_with_a_boolean
           (Scenario.always (Fails 5 Scenario.refused)) "192.168.0.105" 9100 5000); lia.
Defined.

(** C1, as the claim words it, fails: a refused connection, a host that
    cannot be resolved and a silent host are three different outcomes for
    the specification, and both probes answer the three with the same
    [false]; no reading of the answer gives the outcome back. *)
Lemma C1_counterexample :
  map (fun b => Specified.outcome (Specified.classify 5000 b))
      [Fails 5 Scenario.refused; Fails 5 Scenario.notFound; Silent]
  = [Specified.Refused; Specified.Unresolved; Specified.TimedOut]
  /\ map (fun b => promise (StatusRobust.testNetworkConnectivity
                              (Scenario.always b) "192.168.0.105" 9100 5000))
         [Fails 5 Scenario.refused; Fails 5 Scenario.notFound; Silent]
     = [Resolved false; Resolved false; Resolved false]
  /\ map (fun b => promise (EthernetDiscovery.testThermalPrinter
                              (Scenario.always b) "192.168.0.105" 9100))
         [Fails 5 Scenario.refused; Fails 5 Scenario.notFound; Silent]
     = [Resolved false; Resolved false; Resolved false]
  /\ ~ (exists read : PromiseState -> Specified.Outcome,
          forall b,
            read (promise (StatusRobust.testNetworkConnectivity
                             (Scenario.always b) "192.168.0.105" 9100 5000))
            = Specified.outcome (Specified.classify 5000 b)).
Proof.
  split; [reflexivity |]. split; [reflexivity |]. split; [reflexivity |].
  intros [read H].
  pose proof (H (Fails 5 Scenario.refused)) as H1.
  pose proof (H (Fails 5 Scenario.notFound)) as H2.
  change (read (Resolved false) = Specified.Refused) in H1.
  change (read (Resolved false) = Specified.Unresolved) in H2.
  rewrite H1 in H2. discriminate.
Qed.

(* ------------------------------------------------------------------------- *)
(** ** Probes: arguments outside the expected domain *)

(** X1. Neither probe checks its arguments, and an executor that throws
    rejects the promise.  A negative timeout makes [socket.setTimeout] throw
    before anything is set up: no handler ever runs.  A port outside
    0..65535 makes [socket.connect] throw after the idle timer has been armed
    and the handlers registered: the promise is rejected at once, and when
    the timer runs out the handler of 'timeout' still runs; it writes its
    line (for [testNetworkConnectivity]), destroys the socket and calls
    [resolve], which no longer changes the promise.  With a timeout of 0
    there is no timer and nothing follows the rejection. *)
Theorem probe_rejects_invalid_arguments
        (net : Network) (host : string) (port timeout : Z) :
  (timeout < 0 ->
   exists e, StatusRobust.testNetworkConnectivity net host port timeout
             = mkRun [] None (Rejected e))
  /\ (0 < timeout -> port < 0 \/ 65535 < port ->
      exists e, StatusRobust.testNetworkConnectivity net host port timeout
                = mkRun [Say (NetConnTimedOut host port); Destroy; Resolve false]
                        (Some (Z.min timeout TIMEOUT_MAX)) (Rejected e))
  /\ (port < 0 \/ 65535 < port ->
      exists e, StatusRobust.testNetworkConnectivity net host port 0
                = mkRun [] None (Rejected e))
  /\ (port < 0 \/ 65535 < port ->
      exists e, EthernetDiscovery.testThermalPrinter net host port
                = mkRun [Destroy; Resolve false] (Some 3000) (Rejected e)).
Proof.
  unfold StatusRobust.testNetworkConnectivity, EthernetDiscovery.testThermalPrinter,
    newPromise; simpl configure;
    unfold setTimeout, on_connect, on_timeout, on_error, connect, TIMEOUT_MAX; simpl.
  split; [| split; [| split]].
  - intros H. destruct (Z.ltb_spec timeout 0); [| exfalso; lia].
    simpl. eexists; reflexivity.
  - intros Ht Hp. destruct (Z.ltb_spec timeout 0); [exfalso; lia |]. simpl.
    assert (Hbad : (0 <=? port) && (port <=? 65535) = false).
    { destruct (Z.leb_spec 0 port); destruct (Z.leb_spec port 65535);
        simpl; try reflexivity; exfalso; lia. }
    rewrite Hbad. unfold nextEvent. simpl.
    destruct (Z.eqb_spec (Z.min timeout 2147483647) 0); [exfalso; lia |].
    eexists; reflexivity.
  - intros Hp.
    assert (Hbad : (0 <=? port) && (port <=? 65535) = false).
    { destruct (Z.leb_spec 0 port); destruct (Z.leb_spec port 65535);
        simpl; try reflexivity; exfalso; lia. }
    rewrite Hbad. eexists; reflexivity.
  - intros Hp.
    assert (Hbad : (0 <=? port) && (port <=? 65535) = false).
    { destruct (Z.leb_spec 0 port); destruct (Z.leb_spec port 65535);
        simpl; try reflexivity; exfalso; lia. }
    rewrite Hbad. eexists; reflexivity.
Qed.

Lemma probe_rejects_invalid_arguments_witness :
  0 < 5000
  /\ (70000 < 0 \/ 65535 < 70000)
  /\ (exists e, StatusRobust.testNetworkConnectivity (Scenario.always Silent) "192.168.0.105" 70000 5000
                = mkRun [Say (NetConnTimedOut "192.168.0.105" 70000); Destroy; Resolve false]
                        (Some (Z.min 5000 TIMEOUT_MAX)) (Rejected e))
  /\ (exists e, EthernetDiscovery.testThermalPrinter (Scenario.always Silent) "192.168.0.105" 70000
                = mkRun [Destroy; Resolve false] (Some 3000) (Rejected e)).
Proof.
  split; [lia |]. split; [right; lia |]. split.
  - apply (probe_rejects_invalid_arguments (Scenario.always Silent) "192.168.0.105" 70000 5000);
      [lia | right; lia].
  - apply (probe_rejects_invalid_arguments (Scenario.always Silent) "192.168.0.105" 70000 5000).
    right; lia.
Defined.

Example probe_bad_port_then_timeout :
  StatusRobust.testNetworkConnectivity (Scenario.always (Connects 3)) "192.168.0.105" 70000 5000
  = mkRun [Say (NetConnTimedOut "192.168.0.105" 70000); Destroy; Resolve false] (Some 5000)
          (Rejected (mkJsError (Some "ERR_SOCKET_BAD_PORT") "Port should be >= 0 and < 65536.")).
Proof. reflexivity. Qed.

(** X2. A timeout of 0 switches the idle timer off, and
    [testNetworkConnectivity] then waits for the remote end without any
    bound: it answers [true] at whatever time the handshake completes, and
    when nothing ever comes back its promise stays pending for ever. *)
Theorem probe_without_timeout_is_unbounded
        (net : Network) (host : string) (port : Z) :
  0 <= port <= 65535 ->
  (forall t, net host port = Connects t ->
             StatusRobust.testNetworkConnectivity net host port 0
             = mkRun [Say (NetConnSuccessful host port); Destroy; Resolve true]
                     (Some t) (Resolved true))
  /\ (net host port = Silent ->
      StatusRobust.testNetworkConnectivity net host port 0 = mkRun [] None Pending).
Proof.
  intros Hp.
  unfold StatusRobust.testNetworkConnectivity, newPromise; simpl configure.
  unfold setTimeout, on_connect, on_timeout, on_error, connect; simpl.
  destruct (Z.leb_spec 0 port); simpl; [| exfalso; lia].
  destruct (Z.leb_spec port 65535); simpl; [| exfalso; lia].
  unfold nextEvent; simpl.
  split; [intros t Hnet | intros Hnet]; rewrite Hnet; reflexivity.
Qed.

Lemma probe_without_timeout_witness :
  0 <= 9100 <= 65535
  /\ (forall t, Scenario.always Silent "192.168.0.105" 9100 = Connects t ->
                StatusRobust.testNetworkConnectivity (Scenario.always Silent) "192.168.0.105" 9100 0
                = mkRun [Say (NetConnSuccessful "192.168.0.105" 9100); Destroy; Resolve true]
                        (Some t) (Resolved true))
  /\ (Scenario.always Silent "192.168.0.105" 9100 = Silent ->
      StatusRobust.testNetworkConnectivity (Scenario.always Silent) "192.168.0.105" 9100 0
      = mkRun [] None Pending).
Proof.
  split; [lia |].
  apply (probe_without_timeout_is_unbounded (Scenario.always Silent) "192.168.0.105" 9100). lia.
Defined.

(** X3. The two probes are one probe: on every network, host and port,
    [testThermalPrinter] leaves its promise in the state in which
    [testNetworkConnectivity] with a timeout of 3000 ms leaves its own, at
    the same time and after the same socket operations; they differ in what
    they write to the console only. *)
Theorem testThermalPrinter_is_testNetworkConnectivity_3000
        (net : Network) (host : string) (port : Z) :
  promise (EthernetDiscovery.testThermalPrinter net host port)
  = promise (StatusRobust.testNetworkConnectivity net host port 3000)
  /\ settledAt (EthernetDiscovery.testThermalPrinter net host port)
     = settledAt (StatusRobust.testNetworkConnectivity net host port 3000)
  /\ withoutSay (trace (EthernetDiscovery.testThermalPrinter net host port))
     = withoutSay (trace (StatusRobust.testNetworkConnectivity net host port 3000)).
Proof.
  unfold StatusRobust.testNetworkConnectivity, EthernetDiscovery.testThermalPrinter,
    newPromise; simpl configure.
  unfold setTimeout, on_connect, on_timeout, on_error, connect; simpl.
  destruct (0 <=? port); simpl; [| repeat split].
  destruct (port <=? 65535); simpl; [| repeat split].
  unfold nextEvent; simpl.
  change (Z.min 3000 TIMEOUT_MAX) with 3000.
  destruct (net host port) as [t | t e |]; simpl;
    try destruct (t <? 3000); repeat split.
Qed.

(* ------------------------------------------------------------------------- *)
(** ** Loops over methods and addresses: what holds on every run *)

Lemma first_true_split {A : Type} (f : A -> bool) (l : list A) :
  (forall x, In x l -> f x = false)
  \/ exists pre x post,
       l = (pre ++ x :: post)%list /\ f x = true /\ (forall y, In y pre -> f y = false).
Proof.
  induction l as [| a l IH].
  - left. intros x [].
  - destruct (f a) eqn:Ha.
    + right. exists [], a, l. repeat split; [assumption | intros y []].
    + destruct IH as [Hall | (pre & x & post & -> & Hx & Hpre)].
      * left. intros x [<- | Hin]; [assumption | apply Hall; assumption].
      * right. exists (a :: pre), x, post. repeat split; [assumption |].
        intros y [<- | Hin]; [assumption | apply Hpre; assumption].
Qed.

Lemma In_bodyTraces {X R : Type} (body : X -> Script (option R)) (e : Effect) (xs : list X) :
  In e (bodyTraces body xs) -> exists x, In x xs /\ In e (effects (body x)).
Proof.
  unfold bodyTraces. induction xs as [| x xs IH]; simpl; [intros [] |].
  intros H. apply in_app_or in H. destruct H as [H | H].
  - exists x. split; [left; reflexivity | exact H].
  - destruct (IH H) as (y & Hy & He). exists y. split; [right; exact Hy | exact He].
Qed.

Lemma tryMethod_sends (env : Env) (m : Method) (p : PrinterConfig) (e : Effect) :
  In e (effects (tryMethod env m)) -> sendsTo p e ->
  p = printerOf m /\ printerConnected env p = Normal true.
Proof.
  rewrite tryMethod_run. unfold sendsTo, methodHead, methodPrint.
  destruct (printerConnected env (printerOf m)) as [[|] | err] eqn:Hc;
    [destruct (printerExecuted env (printerOf m)) as [[] | err] | |];
    simpl; intros Hin [[text ->] | [-> | ->]];
    repeat (destruct Hin as [Hin | Hin]; [try discriminate |]); try contradiction;
      injection Hin as <-; split; (reflexivity || exact Hc).
Qed.

Lemma tryAddress_sends (env : Env) (ip : string) (p : PrinterConfig) (e : Effect) :
  In e (effects (tryAddress env ip)) -> sendsTo p e ->
  p = printerAt ip /\ printerConnected env p = Normal true.
Proof.
  rewrite tryAddress_run. unfold sendsTo, addressHead, addressPrint.
  destruct (printerConnected env (printerAt ip)) as [[|] | err] eqn:Hc;
    [destruct (printerExecuted env (printerAt ip)) as [[] | err] | |];
    simpl; intros Hin [[text ->] | [-> | ->]];
    repeat (destruct Hin as [Hin | Hin]; [try discriminate |]); try contradiction;
      injection Hin as <-; split; (reflexivity || exact Hc).
Qed.

(** A run of a loop is the run of its iterations up to the first that
    returns, followed by the code after the loop if none does. *)
Lemma forOf_effects_in {X R : Type} (body : X -> Script (option R)) (after : Script R)
      (e : Effect) (xs : list X) :
  (forall x, exists r, completion (body x) = Normal r) ->
  In e (effects (forOf xs body after)) ->
  (exists x, In x xs /\ In e (effects (body x))) \/ In e (effects after).
Proof.
  intros Htotal.
  induction xs as [| x xs IH]; simpl; [right; assumption |].
  destruct (Htotal x) as [r Hr].
  destruct (body x) as [t c] eqn:Hb. simpl in Hr. subst c.
  unfold bind. destruct r as [v |].
  - simpl. rewrite app_nil_r. intros H. left. exists x.
    split; [left; reflexivity | rewrite Hb; exact H].
  - destruct (forOf xs body after) as [t' c'] eqn:Hf. simpl. intros H.
    apply in_app_or in H. destruct H as [H | H].
    + left. exists x. split; [left; reflexivity | rewrite Hb; exact H].
    + destruct (IH H) as [(y & Hy & He) | Ha].
      * left. exists y. split; [right; exact Hy | exact He].
      * right. exact Ha.
Qed.

Lemma tryMethod_returns (env : Env) (m : Method) :
  exists r, completion (tryMethod env m) = Normal r.
Proof.
  rewrite tryMethod_run.
  destruct (printerConnected env (printerOf m)) as [[|] | err];
    [destruct (printerExecuted env (printerOf m)) as [[] | err] | |];
    eexists; reflexivity.
Qed.

Lemma tryAddress_returns (env : Env) (ip : string) :
  exists r, completion (tryAddress env ip) = Normal r.
Proof.
  rewrite tryAddress_run.
  destruct (printerConnected env (printerAt ip)) as [[|] | err];
    [destruct (printerExecuted env (printerAt ip)) as [[] | err] | |];
    eexists; reflexivity.
Qed.

Lemma forOf_returns {X : Type} (body : X -> Script (option unit)) (after : Script unit)
      (xs : list X) :
  (forall x, exists r, completion (body x) = Normal r) ->
  completion after = Normal tt ->
  completion (forOf xs body after) = Normal tt.
Proof.
  intros Htotal Hafter.
  induction xs as [| x xs IH]; simpl; [assumption |].
  destruct (Htotal x) as [r Hr].
  destruct (body x) as [t c]. simpl in Hr. subst c.
  unfold bind. destruct r as [[] |]; [reflexivity |].
  destruct (forOf xs body after) as [t' c']. simpl in *. assumption.
Qed.

(** X4. Whatever the printer library answers or throws, the fallback chain
    and the scan of common addresses complete normally, for every list of
    methods and of addresses: every rejection of a connection test or of a
    test print is caught inside the loop. *)
Theorem fallback_and_scan_never_throw (env : Env) :
  completion (connectWithFallback env) = Normal tt
  /\ completion (connectByNetworkRange env) = Normal tt
  /\ (forall methods, completion (tryMethods env methods) = Normal tt)
  /\ (forall ips, completion (scanAddresses env ips) = Normal tt).
Proof.
  assert (Hm : forall methods, completion (tryMethods env methods) = Normal tt).
  { intros methods. apply forOf_returns; [apply tryMethod_returns | reflexivity]. }
  assert (Hs : forall ips, completion (scanAddresses env ips) = Normal tt).
  { intros ips. apply forOf_returns; [apply tryAddress_returns | reflexivity]. }
  repeat split; try assumption.
  - unfold connectWithFallback, consoleLog. rewrite !bind_emit, completion_pair. apply Hm.
  - unfold connectByNetworkRange, consoleLog. rewrite !bind_emit, completion_pair. apply Hs.
Qed.

(** X5. Nothing is sent to a printer that has not answered the connection
    test with [true]: in every run of the fallback chain and of the scan, a
    line, a cut or a receipt goes to a printer only if its
    [isPrinterConnected] answers [true] in that environment. *)
Theorem receipts_go_to_connected_printers_only
        (env : Env) (p : PrinterConfig) (e : Effect) :
  sendsTo p e ->
  (forall methods, In e (effects (tryMethods env methods)) ->
                   printerConnected env p = Normal true)
  /\ (forall ips, In e (effects (scanAddresses env ips)) ->
                  printerConnected env p = Normal true).
Proof.
  intros Hsend. split.
  - intros methods Hin. unfold tryMethods in Hin.
    apply forOf_effects_in in Hin; [| apply tryMethod_returns].
    destruct Hin as [(m & _ & He) | Ha].
    + exact (proj2 (tryMethod_sends env m p e He Hsend)).
    + destruct Ha as [<- | []]. destruct Hsend as [[text H] | [H | H]]; discriminate.
  - intros ips Hin. unfold scanAddresses in Hin.
    apply forOf_effects_in in Hin; [| apply tryAddress_returns].
    destruct Hin as [(ip & _ & He) | Ha].
    + exact (proj2 (tryAddress_sends env ip p e He Hsend)).
    + destruct Ha as [<- | []]. destruct Hsend as [[text H] | [H | H]]; discriminate.
Qed.

Lemma receipts_go_to_connected_printers_witness :
  sendsTo (printerAt "192.168.1.100") (Execute (printerAt "192.168.1.100"))
  /\ (forall methods,
        In (Execute (printerAt "192.168.1.100"))
           (effects (tryMethods (Scenario.printFailsOn "tcp://192.168.1.87:9100") methods)) ->
        printerConnected (Scenario.printFailsOn "tcp://192.168.1.87:9100")
                         (printerAt "192.168.1.100") = Normal true)
  /\ (forall ips,
        In (Execute (printerAt "192.168.1.100"))
           (effects (scanAddresses (Scenario.printFailsOn "tcp://192.168.1.87:9100") ips)) ->
        printerConnected (Scenario.printFailsOn "tcp://192.168.1.87:9100")
                         (printerAt "192.168.1.100") = Normal true).
Proof.
  assert (H : sendsTo (printerAt "192.168.1.100") (Execute (printerAt "192.168.1.100"))).
  { right; right; reflexivity. }
  split; [exact H |].
  apply (receipts_go_to_connected_printers_only
           (Scenario.printFailsOn "tcp://192.168.1.87:9100") (printerAt "192.168.1.100")
           (Execute (printerAt "192.168.1.100")) H).
Defined.

Lemma tryMethod_has_no_exhaustion_line (env : Env) (m : Method) :
  ~ In (Log AllMethodsFailed) (effects (tryMethod env m)).
Proof.
  rewrite tryMethod_run. unfold methodHead, methodPrint.
  destruct (printerConnected env (printerOf m)) as [[|] | err];
    [destruct (printerExecuted env (printerOf m)) as [[] | err] | |];
    simpl; intros H; repeat (destruct H as [H | H]; [discriminate |]); contradiction.
Qed.

Lemma tryAddress_has_no_exhaustion_line (env : Env) (ip : string) :
  ~ In (Log NoPrintersFound) (effects (tryAddress env ip)).
Proof.
  rewrite tryAddress_run. unfold addressHead, addressPrint.
  destruct (printerConnected env (printerAt ip)) as [[|] | err];
    [destruct (printerExecuted env (printerAt ip)) as [[] | err] | |];
    simpl; intros H; repeat (destruct H as [H | H]; [discriminate |]); contradiction.
Qed.

(** X6. The closing line of a loop tells exactly whether it found a
    printer: the fallback chain writes "All connection methods failed" if
    and only if no method of its list succeeded, and the scan writes "No
    printers found in common ranges" if and only if no address of its list
    succeeded (to succeed is to answer the connection test with [true] and
    to complete the test print). *)
Theorem exhaustion_line_exactly_when_nothing_succeeded (env : Env) :
  (forall methods,
      In (Log AllMethodsFailed) (effects (tryMethods env methods))
      <-> (forall m, In m methods -> succeeds env (printerOf m) = false))
  /\ (forall ips,
        In (Log NoPrintersFound) (effects (scanAddresses env ips))
        <-> (forall ip, In ip ips -> succeeds env (printerAt ip) = false)).
Proof.
  split.
  - intros methods. split.
    + intros Hin.
      destruct (first_true_split (fun m => succeeds env (printerOf m)) methods)
        as [Hall | (pre & m & post & -> & Hm & Hpre)]; [exact Hall | exfalso].
      unfold tryMethods in Hin.
      rewrite (forOf_stops (tryMethod env) (consoleLog AllMethodsFailed) pre m post tt) in Hin;
        [| intros y Hy; apply tryMethod_fails, Hpre, Hy
         | rewrite (tryMethod_succeeds env m Hm); reflexivity].
      rewrite effects_pair in Hin. apply in_app_or in Hin. destruct Hin as [Hin | Hin].
      * apply In_bodyTraces in Hin. destruct Hin as (x & _ & Hx).
        exact (tryMethod_has_no_exhaustion_line env x Hx).
      * exact (tryMethod_has_no_exhaustion_line env m Hin).
    + intros Hall. unfold tryMethods.
      rewrite (forOf_exhausted (tryMethod env) (consoleLog AllMethodsFailed) methods)
        by (intros x Hx; apply tryMethod_fails, Hall, Hx).
      rewrite effects_pair. apply in_or_app. right. left. reflexivity.
  - intros ips. split.
    + intros Hin.
      destruct (first_true_split (fun ip => succeeds env (printerAt ip)) ips)
        as [Hall | (pre & ip & post & -> & Hip & Hpre)]; [exact Hall | exfalso].
      unfold scanAddresses in Hin.
      rewrite (forOf_stops (tryAddress env) (consoleLog NoPrintersFound) pre ip post tt) in Hin;
        [| intros y Hy; apply tryAddress_fails, Hpre, Hy
         | rewrite (tryAddress_succeeds env ip Hip); reflexivity].
      rewrite effects_pair in Hin. apply in_app_or in Hin. destruct Hin as [Hin | Hin].
      * apply In_bodyTraces in Hin. destruct Hin as (x & _ & Hx).
        exact (tryAddress_has_no_exhaustion_line env x Hx).
      * exact (tryAddress_has_no_exhaustion_line env ip Hin).
    + intros Hall. unfold scanAddresses.
      rewrite (forOf_exhausted (tryAddress env) (consoleLog NoPrintersFound) ips)
        by (intros x Hx; apply tryAddress_fails, Hall, Hx).
      rewrite effects_pair. apply in_or_app. right. left. reflexivity.
Qed.

(* ------------------------------------------------------------------------- *)
(** ** [connectByIdentifier]: failures of the resolution *)

Lemma connectByIdentifier_resolution_run (env : Env) (identifier type : string) (e : JsError) :
  completion (EthernetDiscovery.resolveIdentifier env identifier type) = Throw e ->
  EthernetDiscovery.connectByIdentifier env identifier type
  = (Log (ConnectingUsing type identifier)
       :: effects (EthernetDiscovery.resolveIdentifier env identifier type)
       ++ [LogError (ConnectionFailedWith (message e))],
     Normal tt)%list.
Proof.
  intros H. unfold EthernetDiscovery.connectByIdentifier, consoleLog, consoleError.
  rewrite bind_emit.
  destruct (EthernetDiscovery.resolveIdentifier env identifier type) as [t c].
  simpl in H. subst c. reflexivity.
Qed.

(** X7. When the identifier cannot be resolved, whatever its type,
    [connectByIdentifier] stops there: it writes the message of the error to
    the error console and returns normally, and no printer is created,
    probed or printed to. *)
Theorem connectByIdentifier_unresolved_touches_no_printer
        (env : Env) (identifier type : string) (e : JsError) :
  completion (EthernetDiscovery.resolveIdentifier env identifier type) = Throw e ->
  completion (EthernetDiscovery.connectByIdentifier env identifier type) = Normal tt
  /\ (exists before,
        effects (EthernetDiscovery.connectByIdentifier env identifier type)
        = (before ++ [LogError (ConnectionFailedWith (message e))])%list)
  /\ probed (effects (EthernetDiscovery.connectByIdentifier env identifier type)) = []
  /\ (forall p, ~ In (NewPrinter p)
                     (effects (EthernetDiscovery.connectByIdentifier env identifier type))).
Proof.
  intros H. rewrite (connectByIdentifier_resolution_run env identifier type e H).
  rewrite effects_pair, completion_pair.
  assert (Hres : forall x, In x (effects (EthernetDiscovery.resolveIdentifier env identifier type)) ->
                           exists cmd, x = Exec cmd).
  { unfold EthernetDiscovery.resolveIdentifier.
    destruct (String.eqb type "mac").
    { unfold EthernetDiscovery.connectByMAC, execAsync, tryCatch, bind.
      destruct (exec env "arp -a") as [stdout | err]; simpl.
      - destruct (EthernetDiscovery.lookupMAC (Js.split_nl stdout) identifier) as [t c] eqn:Hl.
        assert (Ht : t = []).
        { clear - Hl. revert Hl. generalize (Js.split_nl stdout). intros lines.
          induction lines as [| line rest IH]; simpl.
          - intros Hl. injection Hl as <- _. reflexivity.
          - destruct (jsMatch EthernetDiscovery.arpLine line);
              [destruct (String.eqb _ _) |]; try exact IH.
            intros Hl. injection Hl as <- _. reflexivity. }
        subst t. destruct c; simpl; intros x [<- | []]; eexists; reflexivity.
      - intros x [<- | []]; eexists; reflexivity. }
    destruct (String.eqb type "hostname").
    { unfold EthernetDiscovery.connectByHostname, execAsync, tryCatch, bind.
      destruct (exec env _) as [stdout | err]; simpl.
      - destruct (jsMatch EthernetDiscovery.nslookupAddress stdout); simpl;
          intros x [<- | []]; eexists; reflexivity.
      - intros x [<- | []]; eexists; reflexivity. }
    destruct (String.eqb type "ip"); simpl; intros x []. }
  repeat split.
  - eexists (_ :: _). reflexivity.
  - simpl. rewrite probed_app. simpl. rewrite app_nil_r.
    induction (effects (EthernetDiscovery.resolveIdentifier env identifier type)) as [| x t IH];
      [reflexivity |].
    destruct (Hres x (or_introl eq_refl)) as [cmd ->]. simpl.
    apply IH. intros y Hy. apply Hres. right; exact Hy.
  - intros p [Hin | Hin]; [discriminate |].
    apply in_app_or in Hin. destruct Hin as [Hin | [Hin | []]]; [| discriminate].
    destruct (Hres _ Hin) as [cmd Hc]. discriminate.
Qed.

Lemma connectByIdentifier_unresolved_witness :
  completion (EthernetDiscovery.resolveIdentifier Scenario.withArpTable "de:ad:be:ef:00:01" "mac")
  = Throw (newError "Could not resolve MAC address: MAC address not found in ARP table")
  /\ completion (EthernetDiscovery.connectByIdentifier Scenario.withArpTable "de:ad:be:ef:00:01" "mac")
     = Normal tt
  /\ (exists before,
        effects (EthernetDiscovery.connectByIdentifier Scenario.withArpTable "de:ad:be:ef:00:01" "mac")
        = (before ++ [LogError (ConnectionFailedWith
                                  (message (newError "Could not resolve MAC address: MAC address not found in ARP table")))])%list)
  /\ probed (effects (EthernetDiscovery.connectByIdentifier Scenario.withArpTable "de:ad:be:ef:00:01" "mac"))
     = []
  /\ (forall p, ~ In (NewPrinter p)
                     (effects (EthernetDiscovery.connectByIdentifier Scenario.withArpTable
                                 "de:ad:be:ef:00:01" "mac"))).
Proof.
  split; [reflexivity |].
  apply (connectByIdentifier_unresolved_touches_no_printer Scenario.withArpTable
           "de:ad:be:ef:00:01" "mac"
           (newError "Could not resolve MAC address: MAC address not found in ARP table")).
  reflexivity.
Defined.

(** X8. An identifier type other than 'mac', 'hostname' and 'ip' is
    reported, not raised: [connectByIdentifier] runs no command and creates
    no printer, writes "Connection failed: Unknown identifier type: <type>"
    to the error console and returns normally. *)
Theorem connectByIdentifier_unknown_type (env : Env) (identifier type : string) :
  type <> "mac" -> type <> "hostname" -> type <> "ip" ->
  EthernetDiscovery.connectByIdentifier env identifier type
  = ([Log (ConnectingUsing type identifier);
      LogError (ConnectionFailedWith ("Unknown identifier type: " ++ type))],
     Normal tt).
Proof.
  intros Hmac Hhost Hip.
  assert (H : EthernetDiscovery.resolveIdentifier env identifier type
              = throw (newError ("Unknown identifier type: " ++ type))).
  { unfold EthernetDiscovery.resolveIdentifier.
    apply String.eqb_neq in Hmac, Hhost, Hip. rewrite Hmac, Hhost, Hip. reflexivity. }
  rewrite (connectByIdentifier_resolution_run env identifier type
             (newError ("Unknown identifier type: " ++ type)))
    by (rewrite H; reflexivity).
  rewrite H. reflexivity.
Qed.

Lemma connectByIdentifier_unknown_type_witness :
  "usb" <> "mac" /\ "usb" <> "hostname" /\ "usb" <> "ip"
  /\ EthernetDiscovery.connectByIdentifier Scenario.offline "printer-1" "usb"
     = ([Log (ConnectingUsing "usb" "printer-1");
         LogError (ConnectionFailedWith ("Unknown identifier type: " ++ "usb"))],
        Normal tt).
Proof.
  assert (H1 : "usb" <> "mac") by discriminate.
  assert (H2 : "usb" <> "hostname") by discriminate.
  assert (H3 : "usb" <> "ip") by discriminate.
  split; [exact H1 |]. split; [exact H2 |]. split; [exact H3 |].
  exact (connectByIdentifier_unknown_type Scenario.offline "printer-1" "usb" H1 H2 H3).
Defined.

(** X9. [connectByIdentifier] never throws: whatever the identifier, its
    type, the commands and the printer library do, every error is caught and
    the function returns normally. *)
Theorem connectByIdentifier_never_throws (env : Env) (identifier type : string) :
  completion (EthernetDiscovery.connectByIdentifier env identifier type) = Normal tt.
Proof.
  unfold EthernetDiscovery.connectByIdentifier, consoleLog, consoleError.
  rewrite bind_emit, completion_pair.
  match goal with
  | |- completion (tryCatch ?body _) = _ => destruct body as [t [[] | e]]; reflexivity
  end.
Qed.

(* ------------------------------------------------------------------------- *)
(** ** Resolution by hostname and by hardware address *)

(** The usual output of nslookup names the server first: the address the
    leftmost "Address:" carries is the server's. *)
Example connectByHostname_leftmost_address :
  completion
    (EthernetDiscovery.connectByHostname
       (mkEnv (fun _ => Normal ("Server:  192.168.1.1" ++ Scenario.nl ++
                                "Address: 192.168.1.1#53" ++ Scenario.nl ++ Scenario.nl ++
                                "Name: thermal-printer.local" ++ Scenario.nl ++
                                "Address: 192.168.1.87" ++ Scenario.nl))
              (fun _ => Normal false) (fun _ => Normal tt) Scenario.clock)
       "thermal-printer.local")
  = Normal "192.168.1.1".
Proof. reflexivity. Qed.

(** X10. [connectByHostname] runs the one command [nslookup <hostname>] and
    answers in one of three ways: with the first group of the match when the
    output holds "Address:" followed by a dotted quad; with the error "Could
    not resolve hostname: Hostname not found" when it holds none; with the
    error "Could not resolve hostname: " followed by the message of the
    failure when the command fails.  The error it throws is a fresh one: the
    code of the original error is not kept. *)
Theorem connectByHostname_outcomes (env : Env) (hostname : string) :
  effects (EthernetDiscovery.connectByHostname env hostname) = [Exec ("nslookup " ++ hostname)]
  /\ (forall stdout m,
        exec env ("nslookup " ++ hostname) = Normal stdout ->
        jsMatch EthernetDiscovery.nslookupAddress stdout = Some m ->
        completion (EthernetDiscovery.connectByHostname env hostname) = Normal (group m 1))
  /\ (forall stdout,
        exec env ("nslookup " ++ hostname) = Normal stdout ->
        jsMatch EthernetDiscovery.nslookupAddress stdout = None ->
        completion (EthernetDiscovery.connectByHostname env hostname)
        = Throw (mkJsError None "Could not resolve hostname: Hostname not found"))
  /\ (forall e,
        exec env ("nslookup " ++ hostname) = Throw e ->
        completion (EthernetDiscovery.connectByHostname env hostname)
        = Throw (mkJsError None ("Could not resolve hostname: " ++ message e))).
Proof.
  unfold EthernetDiscovery.connectByHostname, execAsync, tryCatch, bind.
  destruct (exec env ("nslookup " ++ hostname)) as [out | err].
  - destruct (jsMatch EthernetDiscovery.nslookupAddress out) as [m0 |] eqn:Hm; simpl.
    + split; [reflexivity |]. split; [| split].
      * intros stdout m Hout Hmatch. injection Hout as <-.
        rewrite Hm in Hmatch. injection Hmatch as <-. reflexivity.
      * intros stdout Hout Hmatch. injection Hout as <-.
        rewrite Hm in Hmatch. discriminate.
      * intros e He. discriminate.
    + split; [reflexivity |]. split; [| split].
      * intros stdout m Hout Hmatch. injection Hout as <-.
        rewrite Hm in Hmatch. discriminate.
      * intros stdout Hout Hmatch. reflexivity.
      * intros e He. discriminate.
  - simpl. split; [reflexivity |]. split; [| split].
    + intros stdout m Hout. discriminate.
    + intros stdout Hout. discriminate.
    + intros e He. injection He as <-. reflexivity.
Qed.

Lemma lookupMAC_same_address (lines : list string) (a b : string) :
  sameHardwareAddress a b = true ->
  EthernetDiscovery.lookupMAC lines a = EthernetDiscovery.lookupMAC lines b.
Proof.
  unfold sameHardwareAddress. intros H. apply String.eqb_eq in H.
  induction lines as [| line rest IH]; simpl; [reflexivity |].
  rewrite H, IH. reflexivity.
Qed.

(** X11. The answer of [connectByMAC] does not depend on the case in which
    the requested address is written: two requests that are equal up to case
    get the same run, be it an address or an error. *)
Theorem connectByMAC_ignores_case_of_request (env : Env) (a b : string) :
  sameHardwareAddress a b = true ->
  EthernetDiscovery.connectByMAC env a = EthernetDiscovery.connectByMAC env b.
Proof.
  intros H. unfold EthernetDiscovery.connectByMAC, execAsync, tryCatch, bind.
  destruct (exec env "arp -a") as [stdout | e]; [| reflexivity].
  rewrite (lookupMAC_same_address (Js.split_nl stdout) a b H). reflexivity.
Qed.

Lemma connectByMAC_ignores_case_witness :
  sameHardwareAddress "AA:bb:CC:dd:EE:ff" "aa:BB:cc:DD:ee:FF" = true
  /\ EthernetDiscovery.connectByMAC Scenario.withArpTable "AA:bb:CC:dd:EE:ff"
     = EthernetDiscovery.connectByMAC Scenario.withArpTable "aa:BB:cc:DD:ee:FF".
Proof.
  split; [reflexivity |].
  apply (connectByMAC_ignores_case_of_request Scenario.withArpTable
           "AA:bb:CC:dd:EE:ff" "aa:BB:cc:DD:ee:FF").
  reflexivity.
Defined.

Lemma lookupMAC_outcome (lines : list string) (macAddress : string) :
  (exists ip, EthernetDiscovery.lookupMAC lines macAddress = ret ip)
  \/ EthernetDiscovery.lookupMAC lines macAddress
     = throw (newError "MAC address not found in ARP table").
Proof.
  induction lines as [| line rest IH]; simpl; [right; reflexivity |].
  destruct (jsMatch EthernetDiscovery.arpLine line); [| exact IH].
  destruct (String.eqb _ _); [left; eexists; reflexivity | exact IH].
Qed.

(** X12. [connectByMAC] runs the one command [arp -a], and every error it
    throws is a fresh error whose message starts with "Could not resolve MAC
    address: ": when the command itself fails, the message of that failure
    follows the prefix, and the code of the original error is not kept. *)
Theorem connectByMAC_errors_are_wrapped (env : Env) (macAddress : string) :
  effects (EthernetDiscovery.connectByMAC env macAddress) = [Exec "arp -a"]
  /\ (forall e,
        completion (EthernetDiscovery.connectByMAC env macAddress) = Throw e ->
        exists msg, e = mkJsError None ("Could not resolve MAC address: " ++ msg))
  /\ (forall e,
        exec env "arp -a" = Throw e ->
        completion (EthernetDiscovery.connectByMAC env macAddress)
        = Throw (mkJsError None ("Could not resolve MAC address: " ++ message e))).
Proof.
  unfold EthernetDiscovery.connectByMAC, execAsync, tryCatch, bind.
  destruct (exec env "arp -a") as [stdout | err].
  - destruct (lookupMAC_outcome (Js.split_nl stdout) macAddress) as [[ip ->] | ->]; simpl.
    + split; [reflexivity |]. split; intros e He; discriminate.
    + split; [reflexivity |]. split; intros e He; [| discriminate].
      injection He as <-. eexists. reflexivity.
  - simpl. split; [reflexivity |]. split; intros e He; injection He as <-.
    + eexists. reflexivity.
    + reflexivity.
Qed.

(* ------------------------------------------------------------------------- *)
(** ** Device discovery ([discoverNetworkDevices]) *)

Lemma parseArpScan_acc (lines : list string) :
  forall devices,
    EthernetDiscovery.parseArpScan lines devices
    = (devices ++ EthernetDiscovery.parseArpScan lines [])%list.
Proof.
  induction lines as [| line rest IH]; intros devices; simpl.
  - rewrite app_nil_r. reflexivity.
  - destruct (jsMatch EthernetDiscovery.arpScanLine line) as [m |].
    + rewrite IH, (IH [_]), app_assoc. reflexivity.
    + apply IH.
Qed.

Lemma dropSpaces_idempotent (l : list ascii) :
  Js.dropSpaces (Js.dropSpaces l) = Js.dropSpaces l.
Proof.
  induction l as [| c l IH]; simpl; [reflexivity |].
  destruct (Js.isSpace c) eqn:E; [exact IH |]. simpl. rewrite E. reflexivity.
Qed.

Lemma dropSpaces_suffix (l : list ascii) :
  exists pre, l = (pre ++ Js.dropSpaces l)%list.
Proof.
  induction l as [| c l [pre IH]]; simpl.
  - exists []. reflexivity.
  - destruct (Js.isSpace c).
    + exists (c :: pre). simpl. rewrite <- IH. reflexivity.
    + exists []. reflexivity.
Qed.

Lemma dropSpaces_fixed (l : list ascii) :
  match l with [] => True | c :: _ => Js.isSpace c = false end ->
  Js.dropSpaces l = l.
Proof. destruct l as [| c l]; simpl; [reflexivity | intros ->; reflexivity]. Qed.

Lemma dropSpaces_head (l : list ascii) :
  match Js.dropSpaces l with [] => True | c :: _ => Js.isSpace c = false end.
Proof.
  induction l as [| c l IH]; simpl; [exact I |].
  destruct (Js.isSpace c) eqn:E; [exact IH | exact E].
Qed.

Lemma trim_idempotent (s : string) : Js.trim (Js.trim s) = Js.trim s.
Proof.
  unfold Js.trim, Js.chars, Js.str.
  rewrite list_ascii_of_string_of_list_ascii.
  set (a := Js.dropSpaces (list_ascii_of_string s)).
  set (b := rev (Js.dropSpaces (rev a))).
  assert (Hb : Js.dropSpaces b = b).
  { apply dropSpaces_fixed.
    destruct (dropSpaces_suffix (rev a)) as [pre Hpre].
    assert (Ha : a = (b ++ rev pre)%list).
    { unfold b. rewrite <- rev_app_distr, <- Hpre, rev_involutive. reflexivity. }
    destruct b as [| c b']; [exact I |].
    pose proof (dropSpaces_head (list_ascii_of_string s)) as Hh.
    fold a in Hh. rewrite Ha in Hh. exact Hh. }
  rewrite Hb. unfold b at 1. rewrite rev_involutive, dropSpaces_idempotent.
  reflexivity.
Qed.

Lemma search_anchored (r : regex) (s : list ascii) :
  forall n, search (Cat Bol r) (S n) s = None.
Proof.
  induction s as [| c s IH]; intros n; simpl; [reflexivity | apply IH].
Qed.

Lemma arpScanLine_needs_leading_digit (line : string) :
  match line with
  | EmptyString => True
  | String c _ => Js.isDigit c = false
  end ->
  jsMatch EthernetDiscovery.arpScanLine line = None.
Proof.
  unfold jsMatch, Js.chars.
  change EthernetDiscovery.arpScanLine
    with (Cat Bol (sequence [Grp dottedQuad; Plus (Cls Js.isSpace);
                             Grp (Plus (Cls Js.isHexColon)); Plus (Cls Js.isSpace);
                             Grp (Plus (Cls Js.isDot)); Eol])).
  destruct line as [| c rest]; intros H.
  - reflexivity.
  - cbn [list_ascii_of_string search].
    rewrite search_anchored.
    cbn. rewrite H. reflexivity.
Qed.

(** X13. Device discovery never throws and runs the one command
    [arp-scan --localnet]; the devices it returns are at most as many as the
    lines of the output, each is read from a line the pattern matches, in
    the order of the lines, and each vendor is trimmed: trimming it again
    changes nothing. *)
Theorem discoverNetworkDevices_returns_parsed_devices (env : Env) :
  commands (effects (EthernetDiscovery.discoverNetworkDevices env)) = ["arp-scan --localnet"]
  /\ exists devices,
       completion (EthernetDiscovery.discoverNetworkDevices env) = Normal devices
       /\ (forall d, In d devices -> Js.trim (EthernetDiscovery.vendor d) = EthernetDiscovery.vendor d)
       /\ (forall stdout,
             exec env "arp-scan --localnet" = Normal stdout ->
             (length devices <= length (Js.split_nl stdout))%nat
             /\ devices
                = flat_map (fun line =>
                              match jsMatch EthernetDiscovery.arpScanLine line with
                              | Some m => [EthernetDiscovery.mkDevice
                                             (group m 1) (group m 2) (Js.trim (group m 3))]
                              | None => []
                              end) (Js.split_nl stdout)).
Proof.
  assert (Hflat : forall lines,
             EthernetDiscovery.parseArpScan lines []
             = flat_map (fun line =>
                           match jsMatch EthernetDiscovery.arpScanLine line with
                           | Some m => [EthernetDiscovery.mkDevice
                                          (group m 1) (group m 2) (Js.trim (group m 3))]
                           | None => []
                           end) lines).
  { induction lines as [| line rest IH]; simpl; [reflexivity |].
    destruct (jsMatch EthernetDiscovery.arpScanLine line) as [m |]; [| exact IH].
    rewrite parseArpScan_acc, IH. reflexivity. }
  assert (Hlen : forall lines,
             (length (EthernetDiscovery.parseArpScan lines []) <= length lines)%nat).
  { intros lines. rewrite Hflat.
    induction lines as [| line rest IH]; simpl; [lia |].
    destruct (jsMatch EthernetDiscovery.arpScanLine line); simpl; lia. }
  assert (Htrim : forall lines d,
             In d (EthernetDiscovery.parseArpScan lines []) ->
             Js.trim (EthernetDiscovery.vendor d) = EthernetDiscovery.vendor d).
  { intros lines d. rewrite Hflat. intros Hin. apply in_flat_map in Hin.
    destruct Hin as (line & _ & Hin).
    destruct (jsMatch EthernetDiscovery.arpScanLine line) as [m |]; [| destruct Hin].
    destruct Hin as [<- | []]. simpl. apply trim_idempotent. }
  unfold EthernetDiscovery.discoverNetworkDevices, consoleLog, execAsync.
  rewrite bind_emit. unfold tryCatch, bind.
  destruct (exec env "arp-scan --localnet") as [out | err]; simpl.
  - split; [reflexivity |].
    exists (EthernetDiscovery.parseArpScan (Js.split_nl out) []).
    split; [reflexivity |]. split; [apply Htrim |].
    intros stdout Hout. injection Hout as <-. split; [apply Hlen | apply Hflat].
  - split; [reflexivity |]. exists []. split; [reflexivity |].
    split; [intros d [] | intros stdout Hout; discriminate].
Qed.

(** X14. The pattern of device discovery is anchored at the start of the
    line: a line that is empty or whose first character is not a digit (a
    header, a summary, an indented line) adds no device. *)
Theorem parseArpScan_skips_lines_without_leading_digit
        (line : string) (rest : list string) (devices : list EthernetDiscovery.Device) :
  match line with
  | EmptyString => True
  | String c _ => Js.isDigit c = false
  end ->
  EthernetDiscovery.parseArpScan (line :: rest) devices
  = EthernetDiscovery.parseArpScan rest devices.
Proof.
  intros H. simpl. rewrite (arpScanLine_needs_leading_digit line H). reflexivity.
Qed.

Lemma parseArpScan_skips_witness :
  match " 192.168.1.5 00:11:22:33:44:55 Acme" with
  | EmptyString => True
  | String c _ => Js.isDigit c = false
  end
  /\ EthernetDiscovery.parseArpScan [" 192.168.1.5 00:11:22:33:44:55 Acme"] []
     = EthernetDiscovery.parseArpScan [] [].
Proof.
  split; [reflexivity |].
  apply (parseArpScan_skips_lines_without_leading_digit
           " 192.168.1.5 00:11:22:33:44:55 Acme" [] []).
  reflexivity.
Defined.

(* ------------------------------------------------------------------------- *)
(** ** Range sweeps: composition and console *)

Lemma upFrom_app (n1 n2 : nat) :
  forall i, upFrom i (n1 + n2) = (upFrom i n1 ++ upFrom (i + Z.of_nat n1) n2)%list.
Proof.
  induction n1 as [| n1 IH]; intros i; simpl.
  - replace (i + 0) with i by lia. reflexivity.
  - rewrite IH. replace (i + 1 + Z.of_nat n1) with (i + Z.pos (Pos.of_succ_nat n1)) by lia.
    reflexivity.
Qed.

Lemma pingRange_result (env : Env) (baseIP : string) (start end_ : Z) :
  commands (effects (EthernetDiscovery.pingRange env baseIP start end_))
  = map (pingCommand baseIP) (upFrom start (Z.to_nat (end_ + 1 - start)))
  /\ completion (EthernetDiscovery.pingRange env baseIP start end_)
     = Normal (filter (answersPing env)
                      (map (hostAddress baseIP) (upFrom start (Z.to_nat (end_ + 1 - start))))).
Proof.
  unfold EthernetDiscovery.pingRange, consoleLog, forRange.
  rewrite bind_emit.
  destruct (pingLoop_run env baseIP end_ (Z.to_nat (end_ + 1 - start)) start [] eq_refl)
    as [Hc Hr].
  destruct (forUpto _ start end_ _ _) as [t r]; simpl in *.
  rewrite Hr. unfold bind, ret. simpl. rewrite app_nil_r. split; [exact Hc | reflexivity].
Qed.

(** X15. Sweeps compose: for safe integers start and end, a sweep of
    start..end pings what a sweep of start..mid and then a sweep of
    mid+1..end ping, and finds what the two find, in that order (for
    start <= mid + 1 and mid <= end). *)
Theorem pingRange_splits (env : Env) (baseIP : string) (start mid end_ : Z) :
  - Js.MAX_SAFE_INTEGER <= start ->
  end_ <= Js.MAX_SAFE_INTEGER ->
  start <= mid + 1 ->
  mid <= end_ ->
  exists found1 found2,
    completion (EthernetDiscovery.pingRange env baseIP start mid) = Normal found1
    /\ completion (EthernetDiscovery.pingRange env baseIP (mid + 1) end_) = Normal found2
    /\ completion (EthernetDiscovery.pingRange env baseIP start end_)
       = Normal (found1 ++ found2)%list
    /\ commands (effects (EthernetDiscovery.pingRange env baseIP start end_))
       = (commands (effects (EthernetDiscovery.pingRange env baseIP start mid))
            ++ commands (effects (EthernetDiscovery.pingRange env baseIP (mid + 1) end_)))%list.
Proof.
  intros _ _ H1 H2.
  destruct (pingRange_result env baseIP start mid) as [Hc1 Hr1].
  destruct (pingRange_result env baseIP (mid + 1) end_) as [Hc2 Hr2].
  destruct (pingRange_result env baseIP start end_) as [Hc Hr].
  assert (Hsplit : upFrom start (Z.to_nat (end_ + 1 - start))
                   = (upFrom start (Z.to_nat (mid + 1 - start))
                        ++ upFrom (mid + 1) (Z.to_nat (end_ + 1 - (mid + 1))))%list).
  { replace (Z.to_nat (end_ + 1 - start))
      with (Z.to_nat (mid + 1 - start) + Z.to_nat (end_ + 1 - (mid + 1)))%nat by lia.
    rewrite upFrom_app.
    replace (start + Z.of_nat (Z.to_nat (mid + 1 - start))) with (mid + 1) by lia.
    reflexivity. }
  eexists. eexists. split; [exact Hr1 |]. split; [exact Hr2 |]. split.
  - rewrite Hr, Hsplit, map_app, filter_app. reflexivity.
  - rewrite Hc, Hc1, Hc2, Hsplit, map_app. reflexivity.
Qed.

Lemma pingRange_splits_witness :
  - Js.MAX_SAFE_INTEGER <= 10
  /\ 12 <= Js.MAX_SAFE_INTEGER
  /\ 10 <= 10 + 1
  /\ 10 <= 12
  /\ exists found1 found2,
       completion (EthernetDiscovery.pingRange Scenario.only11 "192.168.1" 10 10) = Normal found1
       /\ completion (EthernetDiscovery.pingRange Scenario.only11 "192.168.1" (10 + 1) 12)
          = Normal found2
       /\ completion (EthernetDiscovery.pingRange Scenario.only11 "192.168.1" 10 12)
          = Normal (found1 ++ found2)%list
       /\ commands (effects (EthernetDiscovery.pingRange Scenario.only11 "192.168.1" 10 12))
          = (commands (effects (EthernetDiscovery.pingRange Scenario.only11 "192.168.1" 10 10))
               ++ commands (effects (EthernetDiscovery.pingRange Scenario.only11 "192.168.1"
                                       (10 + 1) 12)))%list.
Proof.
  assert (Hlo : - Js.MAX_SAFE_INTEGER <= 10) by (unfold Js.MAX_SAFE_INTEGER; lia).
  assert (Hhi : 12 <= Js.MAX_SAFE_INTEGER) by (unfold Js.MAX_SAFE_INTEGER; lia).
  split; [exact Hlo |]. split; [exact Hhi |]. split; [lia |]. split; [lia |].
  apply (pingRange_splits Scenario.only11 "192.168.1" 10 10 12); [exact Hlo | exact Hhi | lia | lia].
Defined.

Lemma pingLoop_announces (env : Env) (baseIP : string) (end_ : Z) (n : nat) :
  forall i reachable,
    exists found,
      completion (forUpto n i end_ (EthernetDiscovery.pingOne env baseIP) reachable)
      = Normal (reachable ++ found)%list
      /\ foundDevices (effects (forUpto n i end_ (EthernetDiscovery.pingOne env baseIP) reachable))
         = found.
Proof.
  induction n as [| n IH]; intros i reachable; simpl.
  - exists []. rewrite app_nil_r. split; reflexivity.
  - destruct (i <=? end_); [| exists []; rewrite app_nil_r; split; reflexivity].
    rewrite pingOne_run.
    destruct (answersPing env (hostAddress baseIP i)); unfold bind.
    + destruct (IH (i + 1) (reachable ++ [hostAddress baseIP i])%list) as (found & Hr & Hf).
      destruct (forUpto n (i + 1) end_ _ _) as [t r]; simpl in *.
      exists (hostAddress baseIP i :: found). rewrite Hr, Hf, <- app_assoc. split; reflexivity.
    + destruct (IH (i + 1) reachable) as (found & Hr & Hf).
      destruct (forUpto n (i + 1) end_ _ _) as [t r]; simpl in *.
      exists found. rewrite Hr, Hf. split; reflexivity.
Qed.

(** X16. A sweep between safe integers never throws, whatever the pings
    do, and what it returns is what it has announced: the addresses of its
    "Found device at ..." lines, in order, are the list it returns. *)
Theorem pingRange_returns_what_it_announces
        (env : Env) (baseIP : string) (start end_ : Z) :
  - Js.MAX_SAFE_INTEGER <= start ->
  end_ <= Js.MAX_SAFE_INTEGER ->
  exists found,
    completion (EthernetDiscovery.pingRange env baseIP start end_) = Normal found
    /\ foundDevices (effects (EthernetDiscovery.pingRange env baseIP start end_)) = found.
Proof.
  intros _ _.
  unfold EthernetDiscovery.pingRange, consoleLog, forRange.
  rewrite bind_emit.
  destruct (pingLoop_announces env baseIP end_ (Z.to_nat (end_ + 1 - start)) start [])
    as (found & Hr & Hf).
  destruct (forUpto _ start end_ _ _) as [t r]; simpl in *.
  exists found. rewrite Hr. unfold bind, ret. simpl. rewrite app_nil_r.
  split; [reflexivity | exact Hf].
Qed.

Lemma pingRange_returns_what_it_announces_witness :
  - Js.MAX_SAFE_INTEGER <= 10
  /\ 12 <= Js.MAX_SAFE_INTEGER
  /\ exists found,
       completion (EthernetDiscovery.pingRange Scenario.only11 "192.168.1" 10 12) = Normal found
       /\ foundDevices (effects (EthernetDiscovery.pingRange Scenario.only11 "192.168.1" 10 12))
          = found.
Proof.
  assert (Hlo : - Js.MAX_SAFE_INTEGER <= 10) by (unfold Js.MAX_SAFE_INTEGER; lia).
  assert (Hhi : 12 <= Js.MAX_SAFE_INTEGER) by (unfold Js.MAX_SAFE_INTEGER; lia).
  split; [exact Hlo |]. split; [exact Hhi |].
  apply (pingRange_returns_what_it_announces Scenario.only11 "192.168.1" 10 12 Hlo Hhi).
Defined.

(* ------------------------------------------------------------------------- *)
(** ** The status checker ([testConnection] of status-robust.js) *)

Example testConnection_reads_status :
  outcome (StatusChecker.testConnection Worlds.bright) = Done tt
  /\ skipn 18 (steps (StatusChecker.testConnection Worlds.bright))
     = [Print (StatusByte "00010010"); Print StatusInterpretation;
        Print (StatusRow true "Paper Status" "Paper OK");
        Print (StatusRow false "Drawer Status" "Drawer Closed");
        Print (StatusRow false "Online Status" "Offline");
        Print (StatusRow false "Error Status" "No Error");
        Print (StatusRow false "Paper Feed" "Not Feeding");
        Print (StatusRow true "Ready" "Ready")].
Proof. split; reflexivity. Qed.

(** X17. The icon of a status row depends on the status byte for two rows
    only.  Whatever the byte, the rows "Drawer Status", "Error Status" and
    "Paper Feed" carry the warning sign and the row "Ready" carries the check
    mark, also when its value is "Not Ready" (which includes "Ready"); the
    rows "Paper Status" and "Online Status" carry the check mark exactly
    when bit 2, respectively bit 4, of the byte is clear. *)
Theorem status_icons (statusByte : Z) :
  map (fun entry => (fst entry, StatusChecker.iconIsCheck (snd entry)))
      (StatusChecker.statusBits statusByte)
  = [("Paper Status", negb (Z.testbit statusByte 2));
     ("Drawer Status", false);
     ("Online Status", negb (Z.testbit statusByte 4));
     ("Error Status", false);
     ("Paper Feed", false);
     ("Ready", true)].
Proof.
  assert (Hbit : forall n, Z.eqb (Z.land statusByte (2 ^ n)) 0 = negb (Z.testbit statusByte n) \/ n < 0).
  { intros n. destruct (Z.ltb_spec n 0) as [Hn | Hn]; [right; exact Hn | left].
    destruct (Z.testbit statusByte n) eqn:Hb; simpl.
    - apply Z.eqb_neq. intros H0.
      assert (Ht : Z.testbit (Z.land statusByte (2 ^ n)) n = true).
      { rewrite Z.land_spec, Hb, Z.pow2_bits_true by lia. reflexivity. }
      rewrite H0, Z.bits_0 in Ht. discriminate.
    - apply Z.eqb_eq. apply Z.bits_inj'. intros k Hk.
      rewrite Z.land_spec, Z.bits_0.
      destruct (Z.eq_dec n k) as [<- | Hne].
      + rewrite Hb. reflexivity.
      + rewrite Z.pow2_bits_false by lia. apply andb_false_r. }
  unfold StatusChecker.statusBits, StatusChecker.flag.
  destruct (Hbit 2) as [H2 | H2]; [| lia].
  destruct (Hbit 4) as [H4 | H4]; [| lia].
  change (2 ^ 2) with 4 in H2. change (2 ^ 4) with 16 in H4.
  rewrite H2, H4.
  destruct (Z.testbit statusByte 2), (Z.testbit statusByte 4),
    (Z.land statusByte 8 =? 0), (Z.land statusByte 32 =? 0),
    (Z.land statusByte 64 =? 0), (Z.land statusByte 128 =? 0); reflexivity.
Qed.

Lemma land_single_bit (b n : Z) :
  0 <= n -> Z.eqb (Z.land b (2 ^ n)) 0 = negb (Z.testbit b n).
Proof.
  intros Hn. destruct (Z.testbit b n) eqn:Hb; simpl.
  - apply Z.eqb_neq. intros H0.
    assert (Ht : Z.testbit (Z.land b (2 ^ n)) n = true).
    { rewrite Z.land_spec, Hb, Z.pow2_bits_true by lia. reflexivity. }
    rewrite H0, Z.bits_0 in Ht. discriminate.
  - apply Z.eqb_eq. apply Z.bits_inj'. intros k Hk.
    rewrite Z.land_spec, Z.bits_0.
    destruct (Z.eq_dec n k) as [<- | Hne].
    + rewrite Hb. reflexivity.
    + rewrite Z.pow2_bits_false by lia. apply andb_false_r.
Qed.

(** X18. Each row of the interpretation is decided by one bit of the status
    byte, bits 2 to 7 in the order of the rows: a set bit gives "Paper Near
    End", "Drawer Open", "Offline", "Error", "Paper Feeding", "Not Ready",
    a clear bit the opposite value.  Bits 0 and 1 are never looked at. *)
Theorem status_rows_by_bit (statusByte : Z) :
  StatusChecker.statusBits statusByte
  = [("Paper Status", if Z.testbit statusByte 2 then "Paper Near End" else "Paper OK");
     ("Drawer Status", if Z.testbit statusByte 3 then "Drawer Open" else "Drawer Closed");
     ("Online Status", if Z.testbit statusByte 4 then "Offline" else "Online");
     ("Error Status", if Z.testbit statusByte 5 then "Error" else "No Error");
     ("Paper Feed", if Z.testbit statusByte 6 then "Paper Feeding" else "Not Feeding");
     ("Ready", if Z.testbit statusByte 7 then "Not Ready" else "Ready")].
Proof.
  unfold StatusChecker.statusBits, StatusChecker.flag.
  change 4 with (2 ^ 2) at 1. change 8 with (2 ^ 3) at 1. change 16 with (2 ^ 4) at 1.
  change 32 with (2 ^ 5) at 1. change 64 with (2 ^ 6) at 1. change 128 with (2 ^ 7) at 1.
  rewrite !land_single_bit by lia.
  destruct (Z.testbit statusByte 2), (Z.testbit statusByte 3), (Z.testbit statusByte 4),
    (Z.testbit statusByte 5), (Z.testbit statusByte 6), (Z.testbit statusByte 7);
    reflexivity.
Qed.

(** X19. The status byte is written as exactly eight binary digits, the most
    significant first: for a byte (0..255), the line "Status byte:" carries a
    string of length 8 whose i-th character is 1 exactly when bit 7 - i of
    the byte is set. *)
Theorem status_byte_is_written_as_eight_bits (statusByte : Z) (i : nat) :
  0 <= statusByte < 256 ->
  (i < 8)%nat ->
  String.length (JsText.padStart 8 "0" (JsText.toBinary statusByte)) = 8%nat
  /\ String.get i (JsText.padStart 8 "0" (JsText.toBinary statusByte))
     = Some (if Z.testbit statusByte (7 - Z.of_nat i) then "1"%char else "0"%char).
Proof.
  intros Hb Hi.
  set (check := fun b : Z =>
         Nat.eqb (String.length (JsText.padStart 8 "0" (JsText.toBinary b))) 8
         && forallb (fun j : nat =>
                       match String.get j (JsText.padStart 8 "0" (JsText.toBinary b)) with
                       | Some c => Ascii.eqb c (if Z.testbit b (7 - Z.of_nat j)
                                                then "1"%char else "0"%char)
                       | None => false
                       end) (seq 0 8)).
  assert (Hall : forallb check (upFrom 0 256) = true) by (vm_compute; reflexivity).
  rewrite forallb_forall in Hall.
  assert (Hin : In statusByte (upFrom 0 256)) by (apply upFrom_In; lia).
  specialize (Hall statusByte Hin). unfold check in Hall.
  apply andb_true_iff in Hall. destruct Hall as [Hlen Hbits].
  split; [apply Nat.eqb_eq; exact Hlen |].
  rewrite forallb_forall in Hbits.
  assert (Hj : In i (seq 0 8)) by (apply in_seq; lia).
  specialize (Hbits i Hj).
  destruct (String.get i _) as [c |]; [| discriminate].
  apply Ascii.eqb_eq in Hbits. rewrite Hbits. reflexivity.
Qed.

Lemma status_byte_witness :
  0 <= 18 < 256
  /\ (3 < 8)%nat
  /\ String.length (JsText.padStart 8 "0" (JsText.toBinary 18)) = 8%nat
  /\ String.get 3 (JsText.padStart 8 "0" (JsText.toBinary 18))
     = Some (if Z.testbit 18 (7 - Z.of_nat 3) then "1"%char else "0"%char).
Proof.
  split; [lia |]. split; [lia |].
  apply (status_byte_is_written_as_eight_bits 18 3); lia.
Defined.

Lemma testNetworkConnectivity_resolves (n : Network) (host : string) (port timeout : Z) :
  0 < timeout -> 0 <= port <= 65535 ->
  promise (StatusRobust.testNetworkConnectivity n host port timeout)
  = Resolved (connectsWithin n host port timeout).
Proof. intros Ht Hp. probe_cases n host port; reflexivity. Qed.

Lemma testThermalPrinter_resolves (n : Network) (host : string) (port : Z) :
  0 <= port <= 65535 ->
  promise (EthernetDiscovery.testThermalPrinter n host port)
  = Resolved (connectsWithin n host port 3000).
Proof. intros Hp. probe_cases n host port; reflexivity. Qed.

(** X20. The status check stops at the first stage that fails and never
    throws or blocks: it always returns normally.  When the network probe of
    192.168.0.105:9100 does not connect within 5000 ms, it writes the seven
    lines of advice to the error console and ends there, and no printer
    object is ever created; when the probe connects, it creates exactly one
    printer, on tcp://192.168.0.105:9100 with a timeout of 15000 ms. *)
Theorem testConnection_stops_at_the_network_stage (w : World) :
  outcome (StatusChecker.testConnection w) = Done tt
  /\ (connectsWithin (net w) "192.168.0.105" 9100 5000 = false ->
      exists acts,
        steps (StatusChecker.testConnection w)
        = ([Print StatusTitle; Print StatusRule; Print (Target "192.168.0.105" 9100);
            Print Blank; Print (StepLine 1); Probe "192.168.0.105" 9100 acts]
             ++ map (fun i => PrintError (Fixed NetworkUnreachable i)) (seq 1 7))%list)
  /\ printersCreated (steps (StatusChecker.testConnection w))
     = if connectsWithin (net w) "192.168.0.105" 9100 5000
       then [mkPrinter EPSON "tcp://192.168.0.105:9100" 15000 true]
       else [].
Proof.
  unfold StatusChecker.testConnection, await, StatusChecker.printerIP, StatusChecker.printerPort.
  rewrite (testNetworkConnectivity_resolves (net w) "192.168.0.105" 9100 5000) by lia.
  destruct (connectsWithin (net w) "192.168.0.105" 9100 5000).
  - unfold lift, newThermalPrinter, isPrinterConnected, StatusChecker.getStatus,
      StatusChecker.executeForResponse, StatusChecker.interpret.
    cbn -[StatusChecker.flag StatusChecker.advice JsText.padStart JsText.toBinary JsText.toHex].
    destruct (printerConnected (env w) _) as [[|] | e];
      [destruct (statusReply w _) as [[| statusByte rest] | e] | |];
      cbn -[StatusChecker.flag StatusChecker.advice JsText.padStart JsText.toBinary JsText.toHex];
      try (generalize (StatusChecker.advice e); intros []);
      cbn -[StatusChecker.flag JsText.padStart JsText.toBinary JsText.toHex];
      (split; [reflexivity | split; [discriminate | reflexivity]]).
  - cbn. split; [reflexivity |]. split; [| reflexivity].
    intros _. eexists. reflexivity.
Qed.

Lemma suffix_here {A : Type} (r : list A) : exists before, r = (before ++ r)%list.
Proof. exists []. reflexivity. Qed.

Lemma suffix_later {A : Type} (a : A) (l r : list A) :
  (exists before, l = (before ++ r)%list) -> exists before, a :: l = (before ++ r)%list.
Proof. intros [b ->]. exists (a :: b). reflexivity. Qed.

(** X21. An error of the printer stage is reported, not thrown: when the
    network probe connects and either the connection test of the printer
    throws, or it answers [true] and the status request throws, the check
    ends by writing "Printer operation failed:" with the message of the
    error and then the one block of advice that the error selects, all to
    the error console, and returns normally.  The code of the error decides
    the block before its message does. *)
Theorem testConnection_reports_printer_errors (w : World) (e : JsError) :
  connectsWithin (net w) "192.168.0.105" 9100 5000 = true ->
  printerConnected (env w) (mkPrinter EPSON "tcp://192.168.0.105:9100" 15000 true) = Throw e
  \/ (printerConnected (env w) (mkPrinter EPSON "tcp://192.168.0.105:9100" 15000 true)
      = Normal true
      /\ statusReply w (mkPrinter EPSON "tcp://192.168.0.105:9100" 15000 true) = Throw e) ->
  outcome (StatusChecker.testConnection w) = Done tt
  /\ (exists before,
        steps (StatusChecker.testConnection w)
        = (before ++ PrintError (OperationFailed (message e))
             :: map (fun i => PrintError (Fixed (StatusChecker.advice e) i))
                    (seq 1 (blockSize (StatusChecker.advice e))))%list)
  /\ (code e = Some "ECONNREFUSED" -> StatusChecker.advice e = AdviceRefused)
  /\ (code e = Some "ETIMEDOUT" -> StatusChecker.advice e = AdviceTimedOut)
  /\ (code e = Some "ENOTFOUND" -> StatusChecker.advice e = AdviceNotFound)
  /\ (code e = None -> message e = "Socket timeout" ->
      StatusChecker.advice e = AdviceSocketTimeout).
Proof.
  intros Hnet Hfail.
  split; [| split].
  - unfold StatusChecker.testConnection, await, StatusChecker.printerIP,
      StatusChecker.printerPort.
    rewrite (testNetworkConnectivity_resolves (net w) "192.168.0.105" 9100 5000) by lia.
    rewrite Hnet.
    unfold lift, newThermalPrinter, isPrinterConnected, StatusChecker.getStatus,
      StatusChecker.executeForResponse.
    cbn -[StatusChecker.advice StatusChecker.interpret JsText.toHex].
    destruct Hfail as [Hc | [Hc Hs]]; rewrite Hc; [| rewrite Hs];
      cbn -[StatusChecker.advice]; reflexivity.
  - unfold StatusChecker.testConnection, await, StatusChecker.printerIP,
      StatusChecker.printerPort.
    rewrite (testNetworkConnectivity_resolves (net w) "192.168.0.105" 9100 5000) by lia.
    rewrite Hnet.
    unfold lift, newThermalPrinter, isPrinterConnected, StatusChecker.getStatus,
      StatusChecker.executeForResponse, printErrorBlock.
    cbn -[StatusChecker.advice StatusChecker.interpret JsText.toHex blockSize seq map].
    destruct Hfail as [Hc | [Hc Hs]]; rewrite Hc; [| rewrite Hs];
      cbn -[StatusChecker.advice blockSize seq map];
      repeat first [apply suffix_here | apply suffix_later].
  - unfold StatusChecker.advice. repeat split.
    + intros ->. reflexivity.
    + intros ->. reflexivity.
    + intros ->. reflexivity.
    + intros -> ->. reflexivity.
Qed.

Lemma testConnection_reports_printer_errors_witness :
  let w := mkWorld (mkEnv (fun _ => Throw Scenario.commandFailed)
                          (fun _ => Throw Scenario.refused)
                          (fun _ => Normal tt) Scenario.clock)
                   (Scenario.always (Connects 3))
                   (fun _ => Throw Scenario.socketTimeout) (fun _ => None) in
  connectsWithin (net w) "192.168.0.105" 9100 5000 = true
  /\ (printerConnected (env w) (mkPrinter EPSON "tcp://192.168.0.105:9100" 15000 true)
      = Throw Scenario.refused
      \/ (printerConnected (env w) (mkPrinter EPSON "tcp://192.168.0.105:9100" 15000 true)
          = Normal true
          /\ statusReply w (mkPrinter EPSON "tcp://192.168.0.105:9100" 15000 true)
             = Throw Scenario.refused))
  /\ outcome (StatusChecker.testConnection w) = Done tt
  /\ (exists before,
        steps (StatusChecker.testConnection w)
        = (before ++ PrintError (OperationFailed (message Scenario.refused))
             :: map (fun i => PrintError (Fixed (StatusChecker.advice Scenario.refused) i))
                    (seq 1 (blockSize (StatusChecker.advice Scenario.refused))))%list)
  /\ (code Scenario.refused = Some "ECONNREFUSED" ->
      StatusChecker.advice Scenario.refused = AdviceRefused)
  /\ (code Scenario.refused = Some "ETIMEDOUT" ->
      StatusChecker.advice Scenario.refused = AdviceTimedOut)
  /\ (code Scenario.refused = Some "ENOTFOUND" ->
      StatusChecker.advice Scenario.refused = AdviceNotFound)
  /\ (code Scenario.refused = None -> message Scenario.refused = "Socket timeout" ->
      StatusChecker.advice Scenario.refused = AdviceSocketTimeout).
Proof.
  intros w.
  split; [reflexivity |]. split; [left; reflexivity |].
  apply (testConnection_reports_printer_errors w Scenario.refused);
    [reflexivity | left; reflexivity].
Defined.

(* ------------------------------------------------------------------------- *)
(** ** The discovery ([discoverAndTest]) *)

Lemma andThen_pair {A B} (t : list Step) (a : A) (k : A -> Proc B) :
  andThen (t, Done a) k = ((t ++ steps (k a))%list, outcome (k a)).
Proof. unfold andThen, steps, outcome. destruct (k a); reflexivity. Qed.

Lemma andThen_print {B} (l : Text) (k : unit -> Proc B) :
  andThen (print l) k = (Print l :: steps (k tt), outcome (k tt)).
Proof. unfold print. rewrite andThen_pair. reflexivity. Qed.

Lemma lift_normal {A} (s : Script A) (a : A) :
  completion s = Normal a -> lift s = (map Eff (effects s), Done a).
Proof. unfold lift. intros ->. reflexivity. Qed.

Lemma printersCreated_app (a b : list Step) :
  printersCreated (a ++ b)%list = (printersCreated a ++ printersCreated b)%list.
Proof.
  induction a as [| s a IH]; [reflexivity |].
  destruct s as [e | | | | |]; simpl; try exact IH.
  destruct e; simpl; rewrite IH; reflexivity.
Qed.

Lemma socketProbes_app (a b : list Step) :
  socketProbes (a ++ b)%list = (socketProbes a ++ socketProbes b)%list.
Proof.
  induction a as [| s a IH]; [reflexivity |].
  destruct s; simpl; rewrite IH; reflexivity.
Qed.

Lemma socketProbes_effects (t : list Effect) : socketProbes (map Eff t) = [].
Proof. induction t as [| e t IH]; simpl; [reflexivity | exact IH]. Qed.

Lemma printersCreated_effects (t : list Effect) :
  (forall e, In e t -> forall p, e <> NewPrinter p) ->
  printersCreated (map Eff t) = [].
Proof.
  induction t as [| e t IH]; intros H; simpl; [reflexivity |].
  assert (IH' : printersCreated (map Eff t) = [])
    by (apply IH; intros x Hx; apply H; right; exact Hx).
  destruct e; simpl; try exact IH'.
  exfalso. exact (H _ (or_introl eq_refl) p eq_refl).
Qed.

Lemma pingLoop_effects (env0 : Env) (baseIP : string) (end_ : Z) (n : nat) :
  forall i reachable e,
    In e (effects (forUpto n i end_ (EthernetDiscovery.pingOne env0 baseIP) reachable)) ->
    forall p, e <> NewPrinter p.
Proof.
  induction n as [| n IH]; intros i reachable e; simpl; [intros [] |].
  destruct (i <=? end_); [| intros []].
  rewrite pingOne_run.
  destruct (answersPing env0 (hostAddress baseIP i)); unfold bind;
    match goal with
    | |- context [forUpto n (i + 1) end_ ?b ?r] =>
        specialize (IH (i + 1) r e); destruct (forUpto n (i + 1) end_ b r) as [t c]
    end; simpl in *; intros H p.
  - destruct H as [<- | [<- | H]]; try discriminate. exact (IH H p).
  - destruct H as [<- | H]; try discriminate. exact (IH H p).
Qed.

Lemma pingRange_effects (env0 : Env) (baseIP : string) (start end_ : Z) (e : Effect) :
  In e (effects (EthernetDiscovery.pingRange env0 baseIP start end_)) ->
  forall p, e <> NewPrinter p.
Proof.
  unfold EthernetDiscovery.pingRange, consoleLog, forRange. rewrite bind_emit.
  pose proof (pingLoop_effects env0 baseIP end_ (Z.to_nat (end_ + 1 - start)) start [] e) as H.
  destruct (forUpto _ start end_ _ _) as [t c]. unfold bind, ret. simpl in *.
  destruct c; simpl; rewrite ?app_nil_r; intros [<- | Hin] p; try discriminate;
    exact (H Hin p).
Qed.

Lemma discoverNetworkDevices_effects (env0 : Env) (e : Effect) :
  In e (effects (EthernetDiscovery.discoverNetworkDevices env0)) ->
  forall p, e <> NewPrinter p.
Proof.
  unfold EthernetDiscovery.discoverNetworkDevices, consoleLog, execAsync.
  rewrite bind_emit. unfold tryCatch, bind.
  destruct (exec env0 "arp-scan --localnet"); simpl; intros H p;
    repeat (destruct H as [<- | H]; [discriminate |]); contradiction.
Qed.

Lemma discoverNetworkDevices_returns (env0 : Env) :
  exists devices,
    completion (EthernetDiscovery.discoverNetworkDevices env0) = Normal devices.
Proof.
  unfold EthernetDiscovery.discoverNetworkDevices, consoleLog, execAsync.
  rewrite bind_emit. unfold tryCatch, bind.
  destruct (exec env0 "arp-scan --localnet"); simpl; eexists; reflexivity.
Qed.

Lemma probeEach_run {X : Type} (w : World) (ipOf : X -> string)
      (record : X -> Discovery.Found) (xs : list X) :
  forall found,
    Discovery.probeEach w ipOf record xs found
    = (map (fun x => Probe (ipOf x) 9100
                           (trace (EthernetDiscovery.testThermalPrinterDefault (net w) (ipOf x))))
           xs,
       Done (found ++ map record (filter (fun x => isThermalPrinter w (ipOf x)) xs))%list).
Proof.
  induction xs as [| x xs IH]; intros found; simpl.
  - rewrite app_nil_r. reflexivity.
  - unfold Discovery.probe, await, EthernetDiscovery.testThermalPrinterDefault.
    rewrite (testThermalPrinter_resolves (net w) (ipOf x) 9100) by lia.
    cbv beta iota. rewrite IH. unfold isThermalPrinter.
    destruct (connectsWithin (net w) (ipOf x) 9100 3000); simpl;
      rewrite <- ?app_assoc; reflexivity.
Qed.

Lemma socketProbes_probes {X : Type} (ipOf : X -> string) (acts : X -> list Action)
      (xs : list X) :
  socketProbes (map (fun x => Probe (ipOf x) 9100 (acts x)) xs) = map ipOf xs.
Proof. induction xs as [| x xs IH]; simpl; [| rewrite IH]; reflexivity. Qed.

Lemma printersCreated_probes {X : Type} (ipOf : X -> string) (acts : X -> list Action)
      (xs : list X) :
  printersCreated (map (fun x => Probe (ipOf x) 9100 (acts x)) xs) = [].
Proof. induction xs as [| x xs IH]; simpl; [reflexivity | exact IH]. Qed.

Lemma listPrinters_run (printers : list Discovery.Found) :
  forall index,
    outcome (Discovery.listPrinters index printers) = Done tt
    /\ printersCreated (steps (Discovery.listPrinters index printers)) = []
    /\ socketProbes (steps (Discovery.listPrinters index printers)) = [].
Proof.
  induction printers as [| f rest IH]; intros index; simpl; [repeat split |].
  destruct (IH (S index)) as (Ho & Hp & Hs).
  unfold Discovery.listPrinter.
  destruct (Discovery.listPrinters (S index) rest) as [t o]. simpl in *. subst o.
  destruct (truthy (Discovery.mac f)), (truthy (Discovery.vendor f)); simpl;
    repeat split; assumption.
Qed.

Lemma testFirst_run (w : World) (f : Discovery.Found) :
  outcome (Discovery.testFirst w f) = Done tt
  /\ printersCreated (steps (Discovery.testFirst w f))
     = [mkPrinter EPSON ("tcp://" ++ Discovery.ip f ++ ":9100") 10000 true]
  /\ socketProbes (steps (Discovery.testFirst w f)) = [].
Proof.
  unfold Discovery.testFirst, lift, newThermalPrinter, isPrinterConnected.
  cbn -[String.append].
  destruct (printerConnected (env w) _) as [[|] | e]; cbn -[String.append]; repeat split.
Qed.

Lemma filter_map_commute {A B : Type} (f : B -> bool) (g : A -> B) (l : list A) :
  filter f (map g l) = map g (filter (fun x => f (g x)) l).
Proof.
  induction l as [| a l IH]; simpl; [reflexivity |].
  destruct (f (g a)); simpl; rewrite IH; reflexivity.
Qed.

Lemma steps_pair {A} (t : list Step) (o : Outcome A) : steps (t, o) = t.
Proof. reflexivity. Qed.

Lemma outcome_pair {A} (t : list Step) (o : Outcome A) : outcome (t, o) = o.
Proof. reflexivity. Qed.

Lemma discoverAndTest_run (w : World) (localIPs : list string)
      (devices : list EthernetDiscovery.Device) :
  completion (EthernetDiscovery.pingRange (env w) "192.168.1" 80 120) = Normal localIPs ->
  completion (EthernetDiscovery.discoverNetworkDevices (env w)) = Normal devices ->
  exists head found,
    Discovery.discoverAndTest w
    = ((head ++ steps match found with
                      | [] => printBlock DiscoveryNoPrinters
                      | firstPrinter :: _ =>
                          andThen (Discovery.listPrinters 0 found)
                                  (fun _ => Discovery.testFirst w firstPrinter)
                      end)%list,
       outcome match found with
               | [] => printBlock DiscoveryNoPrinters
               | firstPrinter :: _ =>
                   andThen (Discovery.listPrinters 0 found)
                           (fun _ => Discovery.testFirst w firstPrinter)
               end)
    /\ socketProbes head
       = (Discovery.commonIPs ++ localIPs ++ map EthernetDiscovery.ip devices)%list
    /\ printersCreated head = []
    /\ map Discovery.ip found
       = filter (isThermalPrinter w)
                (Discovery.commonIPs ++ localIPs ++ map EthernetDiscovery.ip devices).
Proof.
  intros Hping Hdisc.
  unfold Discovery.discoverAndTest.
  generalize Discovery.commonIPs. intros common.
  set (acts := fun ip => trace (EthernetDiscovery.testThermalPrinterDefault (net w) ip)).
  exists ([Print DiscoveryTitle; Print DiscoveryRule; Print (DiscoveryMethod 1)]
            ++ map (fun ip => Probe ip 9100 (acts ip)) common
            ++ [Print (DiscoveryMethod 2)]
            ++ map Eff (effects (EthernetDiscovery.pingRange (env w) "192.168.1" 80 120))
            ++ map (fun ip => Probe ip 9100 (acts ip)) localIPs
            ++ [Print (DiscoveryMethod 3)]
            ++ map Eff (effects (EthernetDiscovery.discoverNetworkDevices (env w)))
            ++ map (fun d => Probe (EthernetDiscovery.ip d) 9100 (acts (EthernetDiscovery.ip d)))
                   devices
            ++ [Print ResultsTitle; Print ResultsRule])%list.
  exists ((([] ++ map (fun ip => Discovery.mkFound ip "common IP" None None)
                      (filter (fun ip => isThermalPrinter w ip) common))
             ++ map (fun ip => Discovery.mkFound ip "network scan" None None)
                    (filter (fun ip => isThermalPrinter w ip) localIPs))
            ++ map (fun device =>
                      Discovery.mkFound (EthernetDiscovery.ip device) "device discovery"
                                        (Some (EthernetDiscovery.mac device))
                                        (Some (EthernetDiscovery.vendor device)))
                   (filter (fun d => isThermalPrinter w (EthernetDiscovery.ip d)) devices))%list.
  split; [| split; [| split]].
  - rewrite !andThen_print, !steps_pair, !outcome_pair.
    rewrite probeEach_run, andThen_pair, andThen_print, !steps_pair, !outcome_pair.
    rewrite (lift_normal _ _ Hping), andThen_pair.
    rewrite probeEach_run, andThen_pair, andThen_print, !steps_pair, !outcome_pair.
    rewrite (lift_normal _ _ Hdisc), andThen_pair.
    rewrite probeEach_run, andThen_pair, !andThen_print, !steps_pair, !outcome_pair.
    unfold acts. rewrite <- !app_assoc. reflexivity.
  - rewrite !socketProbes_app, !socketProbes_effects.
    rewrite (socketProbes_probes (fun ip => ip) acts),
      (socketProbes_probes (fun ip => ip) acts),
      (socketProbes_probes EthernetDiscovery.ip (fun d => acts (EthernetDiscovery.ip d))).
    simpl. rewrite !map_id, app_nil_r. reflexivity.
  - rewrite !printersCreated_app.
    rewrite (printersCreated_probes (fun ip => ip) acts),
      (printersCreated_probes (fun ip => ip) acts),
      (printersCreated_probes EthernetDiscovery.ip (fun d => acts (EthernetDiscovery.ip d))).
    rewrite (printersCreated_effects _ (pingRange_effects (env w) "192.168.1" 80 120)).
    rewrite (printersCreated_effects _ (discoverNetworkDevices_effects (env w))).
    reflexivity.
  - rewrite !filter_app, !map_app, filter_map_commute, !map_map. simpl.
    rewrite !map_id, <- app_assoc. reflexivity.
Qed.

(** X22. [discoverAndTest] never throws and never blocks.  It probes, once
    each and in this order, every common address, every address that
    answered the ping sweep of 192.168.1.80-120, and every device of the
    discovery, whether or not an earlier probe found a printer (an address
    met twice is probed twice).  It creates at most one printer object: none
    when no candidate answered the probe, in which case it ends with the six
    lines saying that no printer was found; otherwise one for the first
    candidate that answered, on port 9100 with a timeout of 10000 ms. *)
Theorem discoverAndTest_probes_all_and_tests_the_first (w : World) :
  exists localIPs devices,
    completion (EthernetDiscovery.pingRange (env w) "192.168.1" 80 120) = Normal localIPs
    /\ completion (EthernetDiscovery.discoverNetworkDevices (env w)) = Normal devices
    /\ outcome (Discovery.discoverAndTest w) = Done tt
    /\ socketProbes (steps (Discovery.discoverAndTest w))
       = (Discovery.commonIPs ++ localIPs ++ map EthernetDiscovery.ip devices)%list
    /\ printersCreated (steps (Discovery.discoverAndTest w))
       = match filter (isThermalPrinter w)
                      (Discovery.commonIPs ++ localIPs ++ map EthernetDiscovery.ip devices) with
         | [] => []
         | ip :: _ => [mkPrinter EPSON ("tcp://" ++ ip ++ ":9100") 10000 true]
         end
    /\ (filter (isThermalPrinter w)
               (Discovery.commonIPs ++ localIPs ++ map EthernetDiscovery.ip devices) = [] ->
        exists before,
          steps (Discovery.discoverAndTest w)
          = (before ++ map (fun i => Print (Fixed DiscoveryNoPrinters i)) (seq 1 6))%list).
Proof.
  destruct (pingRange_result (env w) "192.168.1" 80 120) as [_ Hping].
  revert Hping. generalize (filter (answersPing (env w))
                              (map (hostAddress "192.168.1") (upFrom 80 (Z.to_nat (120 + 1 - 80))))).
  intros localIPs Hping.
  destruct (discoverNetworkDevices_returns (env w)) as [devices Hdisc].
  exists localIPs, devices. split; [exact Hping |]. split; [exact Hdisc |].
  destruct (discoverAndTest_run w localIPs devices Hping Hdisc)
    as (head & found & Hrun & Hs & Hp & Hf).
  rewrite Hrun, steps_pair, outcome_pair, socketProbes_app, printersCreated_app, Hs, Hp.
  rewrite <- Hf. clear Hrun Hs Hp Hf.
  destruct found as [| f rest].
  - simpl. rewrite !app_nil_r. repeat split.
    intros _. exists head. reflexivity.
  - destruct (listPrinters_run (f :: rest) 0) as (Ho & Hlp & Hls).
    destruct (testFirst_run w f) as (Hto & Htp & Hts).
    destruct (Discovery.listPrinters 0 (f :: rest)) as [t o]. simpl in Ho, Hlp, Hls. subst o.
    rewrite andThen_pair, steps_pair, outcome_pair, socketProbes_app, printersCreated_app.
    rewrite Hlp, Hls, Hto, Htp, Hts. simpl map. rewrite !app_nil_r.
    repeat split. intros H. discriminate.
Qed.

(* ------------------------------------------------------------------------- *)
(** ** The other examples and the entry points *)

Lemma example_run (w : World) (p : PrinterConfig) (announce : Text)
      (l1 l2 l3 : string) :
  let body :=
    attempt
      (andThen (lift (isPrinterConnected (env w) p)) (fun isConnected =>
         if isConnected : bool then
           andThen (print announce) (fun _ =>
           andThen (lift (println p l1)) (fun _ =>
           andThen (lift (println p l2)) (fun _ =>
           andThen (lift (println p l3)) (fun _ =>
           andThen (lift (println p ("Time: " ++ localeNow (env w)))) (fun _ =>
           andThen (lift (cut p)) (fun _ =>
           andThen (lift (execute (env w) p)) (fun _ =>
           lift (consoleLog TestPrintCompleted))))))))
         else lift (consoleLog ConnectionFailed)))
      (fun error => lift (consoleError (ConnectionFailedWith (message error)))) in
  outcome body = Done tt /\ printersCreated (steps body) = [].
Proof.
  unfold lift, isPrinterConnected, execute, println, cut, consoleLog, consoleError.
  cbn -[String.append].
  destruct (printerConnected (env w) p) as [[|] | e]; cbn -[String.append];
    [destruct (printerExecuted (env w) p) as [[] | e]; cbn -[String.append] | |];
    split; reflexivity.
Qed.

Lemma connectByIP_returns (w : World) :
  outcome (Examples.connectByIP w) = Done tt.
Proof.
  unfold Examples.connectByIP, lift, newThermalPrinter, consoleLog.
  cbn -[attempt andThen isPrinterConnected execute println cut String.append].
  rewrite !andThen_pair, !outcome_pair. simpl steps.
  apply (example_run w).
Qed.

Lemma connectByHostname_returns (w : World) :
  outcome (Examples.connectByHostname w) = Done tt.
Proof.
  unfold Examples.connectByHostname, lift, newThermalPrinter, consoleLog.
  cbn -[attempt andThen isPrinterConnected execute println cut String.append].
  rewrite !andThen_pair, !outcome_pair. simpl steps.
  apply (example_run w).
Qed.

Lemma connectByEnvironment_run (w : World) :
  outcome (Examples.connectByEnvironment w) = Done tt
  /\ printersCreated (steps (Examples.connectByEnvironment w))
     = [mkPrinter EPSON (Examples.environmentInterface w) 10000 true].
Proof.
  unfold Examples.connectByEnvironment.
  generalize (Examples.environmentInterface w). intros iface.
  unfold lift, newThermalPrinter, isPrinterConnected, execute, println, cut,
    consoleLog, consoleError.
  cbn -[String.append].
  destruct (printerConnected (env w) _) as [[|] | e]; cbn -[String.append];
    [destruct (printerExecuted (env w) _) as [[] | e]; cbn -[String.append] | |];
    split; reflexivity.
Qed.

(** X23. [connectByEnvironment] never throws and creates exactly one
    printer, whose interface it reads from the environment: when
    PRINTER_HOSTNAME is set and not empty the interface is
    tcp://<hostname>:<port> and PRINTER_IP is ignored; when it is unset or
    empty the interface is tcp://<ip>:<port>, with PRINTER_IP or, if that is
    unset or empty, 192.168.1.87.  The port is PRINTER_PORT or, if that is
    unset or empty, 9100; it is taken as it is, without any check. *)
Theorem connectByEnvironment_chooses_interface (w : World) :
  outcome (Examples.connectByEnvironment w) = Done tt
  /\ (forall h,
        processEnv w "PRINTER_HOSTNAME" = Some h -> h <> "" ->
        printersCreated (steps (Examples.connectByEnvironment w))
        = [mkPrinter EPSON ("tcp://" ++ h ++ ":" ++ orDefault (processEnv w "PRINTER_PORT") "9100")
                     10000 true])
  /\ (processEnv w "PRINTER_HOSTNAME" = None \/ processEnv w "PRINTER_HOSTNAME" = Some "" ->
      printersCreated (steps (Examples.connectByEnvironment w))
      = [mkPrinter EPSON ("tcp://" ++ orDefault (processEnv w "PRINTER_IP") "192.168.1.87"
                            ++ ":" ++ orDefault (processEnv w "PRINTER_PORT") "9100")
                   10000 true]).
Proof.
  destruct (connectByEnvironment_run w) as [Ho Hp].
  split; [exact Ho |]. rewrite Hp. unfold Examples.environmentInterface. split.
  - intros h Hh Hne. rewrite Hh. apply String.eqb_neq in Hne.
    unfold truthy. rewrite Hne. simpl negb. cbv iota.
    replace (orDefault (Some h) "") with h by (unfold orDefault; rewrite Hne; reflexivity).
    reflexivity.
  - intros [Hh | Hh]; rewrite Hh; reflexivity.
Qed.

Example connectByEnvironment_configured :
  printersCreated (steps (Examples.connectByEnvironment Worlds.configured))
  = [mkPrinter EPSON "tcp://printer.lan:9101" 10000 true]
  /\ printersCreated (steps (Examples.connectByEnvironment Worlds.dark))
     = [mkPrinter EPSON "tcp://192.168.1.87:9100" 10000 true].
Proof. split; reflexivity. Qed.

Lemma connectWithFallback_returns (env0 : Env) :
  completion (connectWithFallback env0) = Normal tt.
Proof.
  unfold connectWithFallback, consoleLog. rewrite !bind_emit, completion_pair.
  apply forOf_returns; [apply tryMethod_returns | reflexivity].
Qed.

Lemma connectByNetworkRange_returns (env0 : Env) :
  completion (connectByNetworkRange env0) = Normal tt.
Proof.
  unfold connectByNetworkRange, consoleLog. rewrite !bind_emit, completion_pair.
  apply forOf_returns; [apply tryAddress_returns | reflexivity].
Qed.

Lemma andThen_done {A B} (m : Proc A) (a : A) (k : A -> Proc B) :
  outcome m = Done a ->
  andThen m k = ((steps m ++ steps (k a))%list, outcome (k a)).
Proof. destruct m as [t o]. simpl. intros ->. apply andThen_pair. Qed.

(** X24. [runAllExamples] never throws, and no example keeps a later one
    from running: whatever each of them meets, the run is the six opening
    lines, then the five examples in order (by IP, by hostname, network
    range, fallback, environment), each run in full, then the fourteen lines
    of the summary. *)
Theorem runAllExamples_runs_every_example (w : World) :
  outcome (Examples.runAllExamples w) = Done tt
  /\ steps (Examples.runAllExamples w)
     = (steps (printBlock ExamplesIntro)
          ++ steps (Examples.connectByIP w)
          ++ steps (Examples.connectByHostname w)
          ++ map Eff (effects (connectByNetworkRange (env w)))
          ++ map Eff (effects (connectWithFallback (env w)))
          ++ steps (Examples.connectByEnvironment w)
          ++ steps (printBlock ExamplesSummary))%list.
Proof.
  unfold Examples.runAllExamples.
  rewrite (andThen_done (printBlock ExamplesIntro) tt) by reflexivity.
  rewrite (andThen_done (Examples.connectByIP w) tt) by apply connectByIP_returns.
  rewrite (andThen_done (Examples.connectByHostname w) tt) by apply connectByHostname_returns.
  rewrite (lift_normal _ tt (connectByNetworkRange_returns (env w))), andThen_pair.
  rewrite (lift_normal _ tt (connectWithFallback_returns (env w))), andThen_pair.
  rewrite (andThen_done (Examples.connectByEnvironment w) tt)
    by apply (proj1 (connectByEnvironment_run w)).
  rewrite !steps_pair, !outcome_pair. split; reflexivity.
Qed.

Lemma connectByIdentifier_returns (env0 : Env) (identifier type : string) :
  completion (EthernetDiscovery.connectByIdentifier env0 identifier type) = Normal tt.
Proof.
  unfold EthernetDiscovery.connectByIdentifier, consoleLog, consoleError.
  rewrite bind_emit, completion_pair.
  match goal with
  | |- completion (tryCatch ?body _) = _ => destruct body as [t [[] | e]]; reflexivity
  end.
Qed.

Lemma discoverAndTest_returns (w : World) :
  outcome (Discovery.discoverAndTest w) = Done tt.
Proof.
  destruct (pingRange_result (env w) "192.168.1" 80 120) as [_ Hping].
  revert Hping. generalize (filter (answersPing (env w))
                              (map (hostAddress "192.168.1") (upFrom 80 (Z.to_nat (120 + 1 - 80))))).
  intros localIPs Hping.
  destruct (discoverNetworkDevices_returns (env w)) as [devices Hdisc].
  destruct (discoverAndTest_run w localIPs devices Hping Hdisc) as (head & found & Hrun & _).
  rewrite Hrun, outcome_pair.
  destruct found as [| f rest]; [reflexivity |].
  destruct (listPrinters_run (f :: rest) 0) as (Ho & _).
  destruct (Discovery.listPrinters 0 (f :: rest)) as [t o]. simpl in Ho. subst o.
  rewrite andThen_pair, outcome_pair. apply testFirst_run.
Qed.

(** X25. The entry point of the discovery script connects only when it is
    given at least two arguments.  With no argument it runs the discovery;
    with two or more it connects by the first two (identifier and type) and
    ignores the rest; with exactly one argument, whatever it is, it writes
    the five lines of the usage and does nothing else: no command, no probe,
    no printer.  In every case it returns normally. *)
Theorem discovery_main_needs_two_arguments (w : World) :
  (forall args, outcome (Discovery.main w args) = Done tt)
  /\ (forall a,
        steps (Discovery.main w [a])
        = map (fun i => Print (Fixed DiscoveryUsage i)) (seq 1 5))
  /\ (forall identifier type rest,
        Discovery.main w (identifier :: type :: rest)
        = lift (EthernetDiscovery.connectByIdentifier (env w) identifier type)).
Proof.
  split; [| split].
  - intros [| a [| b rest]]; simpl.
    + apply discoverAndTest_returns.
    + reflexivity.
    + unfold lift. rewrite connectByIdentifier_returns. reflexivity.
  - intros a. reflexivity.
  - intros identifier type rest. reflexivity.
Qed.

Lemma runAllExamples_returns_helper (w : World) :
  outcome (Examples.runAllExamples w) = Done tt.
Proof.
  unfold Examples.runAllExamples.
  rewrite (andThen_done (printBlock ExamplesIntro) tt) by reflexivity.
  rewrite (andThen_done (Examples.connectByIP w) tt) by apply connectByIP_returns.
  rewrite (andThen_done (Examples.connectByHostname w) tt) by apply connectByHostname_returns.
  rewrite (lift_normal _ tt (connectByNetworkRange_returns (env w))), andThen_pair.
  rewrite (lift_normal _ tt (connectWithFallback_returns (env w))), andThen_pair.
  rewrite (andThen_done (Examples.connectByEnvironment w) tt)
    by apply (proj1 (connectByEnvironment_run w)).
  rewrite !outcome_pair. reflexivity.
Qed.

(** X26. The entry point of the connection examples looks at its first
    argument only and never throws: with no argument it runs all the
    examples; a first argument other than 'ip', 'hostname', 'scan',
    'fallback' and 'env' gets the seven lines of the usage and nothing else;
    what follows the first argument changes nothing. *)
Theorem examples_main_dispatches_on_first_argument (w : World) :
  (forall args, outcome (Examples.main w args) = Done tt)
  /\ (forall method rest, Examples.main w (method :: rest) = Examples.main w [method])
  /\ (forall method rest,
        method <> "ip" -> method <> "hostname" -> method <> "scan" ->
        method <> "fallback" -> method <> "env" ->
        steps (Examples.main w (method :: rest))
        = map (fun i => Print (Fixed ExamplesUsage i)) (seq 1 7)).
Proof.
  split; [| split].
  - intros [| method rest]; simpl.
    + apply runAllExamples_returns_helper.
    + destruct (String.eqb method "ip"); [apply connectByIP_returns |].
      destruct (String.eqb method "hostname"); [apply connectByHostname_returns |].
      destruct (String.eqb method "scan");
        [unfold lift; rewrite connectByNetworkRange_returns; reflexivity |].
      destruct (String.eqb method "fallback");
        [unfold lift; rewrite connectWithFallback_returns; reflexivity |].
      destruct (String.eqb method "env"); [apply (proj1 (connectByEnvironment_run w)) |].
      reflexivity.
  - intros method rest. reflexivity.
  - intros method rest H1 H2 H3 H4 H5. simpl.
    apply String.eqb_neq in H1, H2, H3, H4, H5. rewrite H1, H2, H3, H4, H5. reflexivity.
Qed.
